(** * The quiz host of [app.py]: cipher decoding, question lifecycle,
      answer ledger and scoring, as functions on an explicit store.

    The Flask handlers of [app.py] work on one SQLAlchemy session.  Here
    the four tables are a record [DB] and every handler is a function
    from the request and the store before to the reply and the store
    after.  Python integers are [Z]; Python floats, the string builtins
    and the parsers of the runtime are the interface [PyRuntime]. *)

From Stdlib Require Import ZArith Lia Bool.
From stdpp Require Import base option list gmap strings pretty sorting.

Local Open Scope Z_scope.

(** ** The Python runtime the handlers rely on *)

(** [float] is Python's float with its addition, division and [<];
    [float_of_str] and [int_of_str] are [float(s)] and [int(s)], [None]
    when they raise [ValueError]; [str_isdigit], [str_strip] and
    [str_splitlines] are the methods of [str]. *)
Class PyRuntime := {
  float : Type;
  f0 : float;
  f1 : float;
  f100 : float;
  fadd : float -> float -> float;
  fdiv : float -> float -> float;
  flt : float -> float -> bool;
  float_of_str : string -> option float;
  int_of_str : string -> option Z;
  str_isdigit : string -> bool;
  str_strip : string -> string;
  str_splitlines : string -> list string
}.

Definition MAX_SID : Z := 64.
Definition MIN_SID : Z := 1.

(** ** Replies of the handlers *)

(** The four [ValueError]s of [decode_code], in the order it raises them. *)
Inductive DecodeError :=
  | SidOutOfRange
  | SuffixOutOfRange
  | UnknownSeed
  | OptionIndexOutOfRange.

(** The [error] of a JSON reply of [submit_code] with [ok = False]. *)
Inductive SubmitError :=
  | NoActiveQuestion
  | QuestionAlreadySettled
  | MalformedCipher
  | DecodeFailed (e : DecodeError)
  | DuplicateSubmission (sid : Z).

(** The JSON reply of an accepted submission. *)
Record SubmitPayload := {
  p_sid : Z;
  p_option_index : Z;
  p_option_text : string;
  p_answered_count : nat;
  p_missing_count : nat;
  p_timestamp : Z
}.

(** A reply of [submit_code]: the JSON with [ok = False] and its HTTP
    status, the JSON with [ok = True], or the 500 of an exception that
    escapes the handler. *)
Inductive SubmitReply :=
  | SubmitRejected (status : Z) (e : SubmitError)
  | SubmitAccepted (p : SubmitPayload)
  | SubmitCrashed.

Inductive Page :=
  | OperatorPage
  | ResultsPage (qid : Z)
  | PresetsPage.

Section App.
Context `{PyRuntime}.

(** The messages the form handlers [flash], one constructor per call. *)
Inductive Flash :=
  | FlashNoActiveQuestion
  | FlashSidNotNumeric
  | FlashSubmissionNotFound (sid : Z)
  | FlashSubmissionDeleted (sid : Z)
  | FlashOptionsAbnormal
  | FlashShrinkRejected
  | FlashBelowMaxUsed (max_used : Z)
  | FlashOptionsUpdated
  | FlashMissingQuestionId
  | FlashUnknownQuestion
  | FlashInvalidOption
  | FlashScoredOption (option_index : Z) (change : float)
  | FlashInvalidSid
  | FlashScoredStudent (sid : Z) (change : float)
  | FlashScoredRandom (option_index : Z) (prob_percent : float)
  | FlashUnknownAction
  | FlashPresetMissing
  | FlashPublished (preset : string).

(** A form handler redirects, with or without a flashed message, answers
    404 ([get_or_404]) or dies on an exception nobody catches (500). *)
Inductive Reply :=
  | Redirect (flash : option Flash) (to : Page)
  | NotFound404
  | ServerError500.

(** ** The tables *)

(** [Student], keyed by [sid] in [students]. *)
Record Student := {
  student_score : float;
  student_created_at : Z
}.

(** [Question]; [question_options] is what [options()] reads back from
    [options_json], which [start_preset] and [edit_options_for_question]
    only ever write as the JSON of a list of strings. *)
Record Question := {
  question_id : Z;
  question_preset_id : option string;
  question_content : string;
  question_options : list string;
  question_is_active : bool;
  question_created_at : Z;
  question_settled_at : option Z
}.

Record Answer := {
  answer_id : Z;
  answer_sid : Z;
  answer_question_id : Z;
  answer_option_index : Z;
  answer_code : Z;
  answer_timestamp : Z;
  answer_score_change : float
}.

(** [seeds] and [students] are read by primary key only; [questions] and
    [answers] are scanned, so they are the rows in insertion order. *)
Record DB := {
  seeds : gmap Z Z;
  students : gmap Z Student;
  questions : list Question;
  answers : list Answer
}.

Definition set_students (st : gmap Z Student) (db : DB) : DB :=
  {| seeds := seeds db; students := st;
     questions := questions db; answers := answers db |}.

Definition set_questions (qs : list Question) (db : DB) : DB :=
  {| seeds := seeds db; students := students db;
     questions := qs; answers := answers db |}.

Definition set_answers (al : list Answer) (db : DB) : DB :=
  {| seeds := seeds db; students := students db;
     questions := questions db; answers := al |}.

Definition set_seeds (sd : gmap Z Z) (db : DB) : DB :=
  {| seeds := sd; students := students db;
     questions := questions db; answers := answers db |}.

(** The constraints the tables are declared with: the primary keys of
    [Question] and [Answer] and [uq_answer_sid_question]. *)
Definition question_pk (db : DB) : Prop :=
  NoDup (question_id <$> questions db).

Definition answer_pk (db : DB) : Prop :=
  NoDup (answer_id <$> answers db).

Definition uq_answer_sid_question (db : DB) : Prop :=
  NoDup ((fun a => (answer_sid a, answer_question_id a)) <$> answers db).

(** ** Queries *)

(** [ORDER BY created_at DESC ... first()]: the row with the greatest
    [created_at], the earliest such row on a tie. *)
Definition later_of (best : option Question) (q : Question) : option Question :=
  match best with
  | None => Some q
  | Some b =>
      if question_created_at b <? question_created_at q then Some q else Some b
  end.

Definition get_active_question (db : DB) : option Question :=
  foldl later_of None
    (filter (fun q => question_is_active q = true) (questions db)).

(** [Question.query.get(qid)] *)
Definition get_question (qid : Z) (db : DB) : option Question :=
  head (filter (fun q => question_id q = qid) (questions db)).

(** [Answer.query.filter_by(question_id=qid).all()] *)
Definition answers_of_question (qid : Z) (db : DB) : list Answer :=
  filter (fun a => answer_question_id a = qid) (answers db).

(** [Answer.query.filter_by(question_id=qid, sid=sid)]: [rows_of] is its
    [all()], [answer_of] its [first()]. *)
Definition rows_of (qid sid : Z) (db : DB) : list Answer :=
  filter (fun a => answer_question_id a = qid /\ answer_sid a = sid) (answers db).

Definition answer_of (qid sid : Z) (db : DB) : option Answer :=
  head (rows_of qid sid db).

(** [Answer.query.filter_by(question_id=qid, option_index=i).all()] *)
Definition answers_on_option (qid i : Z) (db : DB) : list Answer :=
  filter (fun a => answer_question_id a = qid /\ answer_option_index a = i)
    (answers db).

(** ** [decode_code] *)

Definition decode_code (code_int : Z) (question : Question) (db : DB)
  : DecodeError + (Z * Z) :=
  let n := Z.of_nat (length (question_options question)) in
  let sid := code_int / 100 in
  let b := code_int mod 100 in
  if (sid <? MIN_SID) || (sid >? MAX_SID) then inl SidOutOfRange
  else if (b <? 1) || (b >? 99) then inl SuffixOutOfRange
  else match seeds db !! sid with
       | None => inl UnknownSeed
       | Some r =>
           let option_index := b - r in
           if (option_index <? 1) || (option_index >? n)
           then inl OptionIndexOutOfRange
           else inr (sid, option_index)
       end.

(** ** [ensure_student_exists] *)

(** SQL's [MIN] and [MAX] over a column: [None] (NULL) on no rows. *)
Definition min_step (acc : option float) (x : float) : option float :=
  match acc with
  | None => Some x
  | Some m => Some (if flt x m then x else m)
  end.

Definition sql_min (xs : list float) : option float := foldl min_step None xs.

Definition max_step (acc : option Z) (x : Z) : option Z :=
  match acc with
  | None => Some x
  | Some m => Some (Z.max m x)
  end.

Definition sql_max (xs : list Z) : option Z := foldl max_step None xs.

(** What [MIN] takes for granted of the [<] of the column: a strict weak
    order, as [<] is on the floats a REAL column holds. *)
Record FloatOrder : Prop := {
  flt_irrefl : forall x, flt x x = false;
  flt_trans : forall x y z, flt x y = true -> flt y z = true -> flt x z = true;
  flt_incomparable_trans :
    forall x y z, flt x y = false -> flt y z = false -> flt x z = false
}.

(** [db.session.query(func.min(Student.score)).scalar()] *)
Definition min_student_score (db : DB) : option float :=
  sql_min (student_score <$> (map_to_list (students db)).*2).

Definition ensure_student_exists (sid : Z) (now : Z) (db : DB) : Student * DB :=
  match students db !! sid with
  | Some student => (student, db)
  | None =>
      let min_score := default f0 (min_student_score db) in
      let student := {| student_score := min_score; student_created_at := now |} in
      (student, set_students (<[sid := student]> (students db)) db)
  end.

(** ** [stats_for_question] *)

Record Stats := {
  stats_options : list string;
  stats_by_option : list (Z * list Z);
  stats_answered_count : nat;
  stats_missing : list Z
}.

Definition roster : list Z := seqZ MIN_SID (MAX_SID + 1 - MIN_SID).

Definition stats_for_question (question : Question) (db : DB) : Stats :=
  let options := question_options question in
  let answers := answers_of_question (question_id question) db in
  let answered : gset Z := list_to_set (answer_sid <$> answers) in
  {| stats_options := options;
     stats_by_option :=
       (fun i => (i, answer_sid <$>
                       filter (fun a => answer_option_index a = i) answers))
         <$> seqZ 1 (Z.of_nat (length options));
     stats_answered_count := size answered;
     stats_missing := filter (fun sid => sid ∉ answered) roster |}.

(** ** The request *)

(** [request.form]; [form_get] is [request.form.get(name, default)]. *)
Definition form_get (form : gmap string string) (name default : string) : string :=
  match form !! name with
  | Some v => v
  | None => default
  end.

(** [int(request.form.get(name, "0") or 0)]: [None] when [int] raises. *)
Definition form_int (form : gmap string string) (name : string) : option Z :=
  let raw := form_get form name "0" in
  if decide (raw = "") then Some 0 else int_of_str raw.

(** [parse_float] of [score_actions] *)
Definition parse_float (form : gmap string string) (name : string) : float :=
  match float_of_str (str_strip (form_get form name "")) with
  | Some x => x
  | None => f0
  end.

(** The primary key the store gives the next row of a table. *)
Definition next_id (ids : list Z) : Z := 1 + foldr Z.max 0 ids.

(** ** [submit_code] *)

(** [code_field] is the [str] of the [code] of the JSON payload, empty when
    the payload has none, and [now] the reading of the clock.  The reply is
    [SubmitCrashed] when [int] raises on a string [isdigit] lets through:
    nothing catches that. *)
Definition submit_code (code_field : string) (now : Z) (db : DB)
  : SubmitReply * DB :=
  match get_active_question db with
  | None => (SubmitRejected 400 NoActiveQuestion, db)
  | Some q =>
      match question_settled_at q with
      | Some _ => (SubmitRejected 409 QuestionAlreadySettled, db)
      | None =>
          let code_raw := str_strip code_field in
          if negb (str_isdigit code_raw)
          then (SubmitRejected 400 MalformedCipher, db)
          else
            match int_of_str code_raw with
            | None => (SubmitCrashed, db)
            | Some code_int =>
                match decode_code code_int q db with
                | inl e => (SubmitRejected 400 (DecodeFailed e), db)
                | inr (sid, option_index) =>
                    let db1 := (ensure_student_exists sid now db).2 in
                    match answer_of (question_id q) sid db1 with
                    | Some _ => (SubmitRejected 409 (DuplicateSubmission sid), db1)
                    | None =>
                        let a :=
                          {| answer_id := next_id (answer_id <$> answers db1);
                             answer_sid := sid;
                             answer_question_id := question_id q;
                             answer_option_index := option_index;
                             answer_code := code_int;
                             answer_timestamp := now;
                             answer_score_change := f0 |} in
                        let db2 := set_answers (answers db1 ++ [a]) db1 in
                        let stat := stats_for_question q db2 in
                        let option_text :=
                          if (1 <=? option_index)
                             && (option_index <=? Z.of_nat (length (stats_options stat)))
                          then default "" (stats_options stat !! Z.to_nat (option_index - 1))
                          else "" in
                        (SubmitAccepted
                           {| p_sid := sid;
                              p_option_index := option_index;
                              p_option_text := option_text;
                              p_answered_count := stats_answered_count stat;
                              p_missing_count := length (stats_missing stat);
                              p_timestamp := answer_timestamp a |},
                         db2)
                    end
                end
            end
      end
  end.

(** ** [delete_submission] and [delete_submission_for_question] *)

(** [db.session.delete(a)]: the row is deleted by its primary key. *)
Definition delete_answer (a : Answer) (db : DB) : DB :=
  set_answers (filter (fun r => answer_id r <> answer_id a) (answers db)) db.

Definition delete_submission (form : gmap string string) (db : DB) : Reply * DB :=
  match get_active_question db with
  | None => (Redirect (Some FlashNoActiveQuestion) OperatorPage, db)
  | Some q =>
      let sid_raw := str_strip (form_get form "sid" "") in
      if negb (str_isdigit sid_raw)
      then (Redirect (Some FlashSidNotNumeric) OperatorPage, db)
      else
        match int_of_str sid_raw with
        | None => (ServerError500, db)
        | Some sid =>
            match answer_of (question_id q) sid db with
            | None => (Redirect (Some (FlashSubmissionNotFound sid)) OperatorPage, db)
            | Some a =>
                (Redirect (Some (FlashSubmissionDeleted sid)) OperatorPage,
                 delete_answer a db)
            end
        end
  end.

Definition delete_submission_for_question (qid : Z) (form : gmap string string)
    (db : DB) : Reply * DB :=
  match get_question qid db with
  | None => (NotFound404, db)
  | Some q =>
      let sid_raw := str_strip (form_get form "sid" "") in
      let next_page := str_strip (form_get form "next" "") in
      let back :=
        if decide (next_page = "results") then ResultsPage (question_id q)
        else OperatorPage in
      if negb (str_isdigit sid_raw)
      then (Redirect (Some FlashSidNotNumeric) back, db)
      else
        match int_of_str sid_raw with
        | None => (ServerError500, db)
        | Some sid =>
            match answer_of (question_id q) sid db with
            | None => (Redirect (Some (FlashSubmissionNotFound sid)) back, db)
            | Some a =>
                (Redirect (Some (FlashSubmissionDeleted sid)) back,
                 delete_answer a db)
            end
        end
  end.

(** What a handler that only takes rows off the ledger leaves: the other
    tables as they were and Answer rows of before, in their order. *)
Definition ledger_only (db db' : DB) : Prop :=
  students db' = students db /\
  questions db' = questions db /\
  seeds db' = seeds db /\
  sublist (answers db') (answers db).

(** ** [edit_options_for_question] *)

(** [UPDATE question SET ... WHERE id = qid] *)
Definition update_question (qid : Z) (f : Question -> Question) (db : DB) : DB :=
  set_questions
    ((fun r => if decide (question_id r = qid) then f r else r) <$> questions db)
    db.

Definition set_options (opts : list string) (q : Question) : Question :=
  {| question_id := question_id q;
     question_preset_id := question_preset_id q;
     question_content := question_content q;
     question_options := opts;
     question_is_active := question_is_active q;
     question_created_at := question_created_at q;
     question_settled_at := question_settled_at q |}.

Definition set_settled_at (t : option Z) (q : Question) : Question :=
  {| question_id := question_id q;
     question_preset_id := question_preset_id q;
     question_content := question_content q;
     question_options := question_options q;
     question_is_active := question_is_active q;
     question_created_at := question_created_at q;
     question_settled_at := t |}.

Definition set_is_active (b : bool) (q : Question) : Question :=
  {| question_id := question_id q;
     question_preset_id := question_preset_id q;
     question_content := question_content q;
     question_options := question_options q;
     question_is_active := b;
     question_created_at := question_created_at q;
     question_settled_at := question_settled_at q |}.

(** The first loop: slot [i] (from 1) takes the stripped [opt<i>] of the
    form when that is not empty, and keeps its text otherwise. *)
Definition retexted (form : gmap string string) (old_options : list string)
  : list string :=
  imap (fun i old_text =>
          let t := str_strip (form_get form ("opt" +:+ pretty (S i)) "") in
          if decide (t = "") then old_text else t)
       old_options.

(** [append_lines] *)
Definition append_lines (form : gmap string string) : list string :=
  filter (fun line => line <> "")
    (str_strip <$> str_splitlines (form_get form "append_options" "")).

(** [new_options] as it stands when the two checks are made. *)
Definition new_options (form : gmap string string) (old_options : list string)
  : list string :=
  let new_options := retexted form old_options in
  let append_lines := append_lines form in
  match append_lines with
  | [] => new_options
  | _ =>
      let remaining := 10 - Z.of_nat (length new_options) in
      if 0 <? remaining
      then new_options ++ take (Z.to_nat remaining) append_lines
      else new_options
  end.

(** [int(max(Answer.option_index) ... or 0)] over the question's answers *)
Definition max_used (qid : Z) (db : DB) : Z :=
  default 0 (sql_max (answer_option_index <$> answers_of_question qid db)).

Definition edit_options_for_question (qid : Z) (form : gmap string string)
    (db : DB) : Reply * DB :=
  match get_question qid db with
  | None => (NotFound404, db)
  | Some q =>
      let old_options := question_options q in
      let old_n := Z.of_nat (length old_options) in
      if old_n <? 1 then (Redirect (Some FlashOptionsAbnormal) OperatorPage, db)
      else
        let new_options := new_options form old_options in
        if Z.of_nat (length new_options) <? old_n
        then (Redirect (Some FlashShrinkRejected) OperatorPage, db)
        else
          let max_used := max_used (question_id q) db in
          if max_used >? Z.of_nat (length new_options)
          then (Redirect (Some (FlashBelowMaxUsed max_used)) OperatorPage, db)
          else
            let db' := update_question (question_id q) (set_options new_options) db in
            let next_page := str_strip (form_get form "next" "") in
            if decide (next_page = "results")
            then (Redirect (Some FlashOptionsUpdated) (ResultsPage (question_id q)), db')
            else (Redirect (Some FlashOptionsUpdated) OperatorPage, db')
  end.

(** ** [settle_question] *)

Definition settle_question (now : Z) (db : DB) : Reply * DB :=
  match get_active_question db with
  | None => (Redirect (Some FlashNoActiveQuestion) OperatorPage, db)
  | Some q =>
      (Redirect None (ResultsPage (question_id q)),
       update_question (question_id q) (set_settled_at (Some now)) db)
  end.

(** ** [score_actions] *)

Definition add_score (change : float) (s : Student) : Student :=
  {| student_score := fadd (student_score s) change;
     student_created_at := student_created_at s |}.

Definition add_score_change (change : float) (a : Answer) : Answer :=
  {| answer_id := answer_id a;
     answer_sid := answer_sid a;
     answer_question_id := answer_question_id a;
     answer_option_index := answer_option_index a;
     answer_code := answer_code a;
     answer_timestamp := answer_timestamp a;
     answer_score_change := fadd (answer_score_change a) change |}.

(** What [add_score_change] leaves of an Answer: all but the delta. *)
Definition answer_key (a : Answer) : Z * Z * Z * Z * Z * Z :=
  (answer_id a, answer_sid a, answer_question_id a, answer_option_index a,
   answer_code a, answer_timestamp a).

(** [s.score += change] on the row of [sid] *)
Definition bump_student (sid : Z) (change : float) (db : DB) : DB :=
  set_students (alter (add_score change) sid (students db)) db.

(** [a.score_change += change] on the row [a] was loaded from *)
Definition bump_answer (id : Z) (change : float) (db : DB) : DB :=
  set_answers
    ((fun r => if decide (answer_id r = id) then add_score_change change r else r)
       <$> answers db)
    db.

(** One round of the loops of the actions A and C. *)
Definition credit (change : float) (now : Z) (db : DB) (a : Answer) : DB :=
  let db1 := (ensure_student_exists (answer_sid a) now db).2 in
  let db2 := bump_student (answer_sid a) change db1 in
  bump_answer (answer_id a) change db2.

(** [max(0.0, min(1.0, x))]: [min] and [max] keep their first argument
    unless the second is strictly smaller, respectively greater. *)
Definition py_min (a b : float) : float := if flt b a then b else a.
Definition py_max (a b : float) : float := if flt a b then b else a.
Definition clamp01 (x : float) : float := py_max f0 (py_min f1 x).

(** [random.random()] returns a float of [0.0, 1.0): one that is not
    below 0 and is below 1. *)
Definition unit_draw (u : float) : Prop := flt u f0 = false /\ flt u f1 = true.

(** The loop of the action C; [rnd k] is what the [k]-th call of
    [random.random()] of the request returns. *)
Definition credit_random (prob change1 change2 : float) (rnd : nat -> float)
    (now : Z) (st : DB * nat) (a : Answer) : DB * nat :=
  let (db, k) := st in
  (credit (if flt (rnd k) prob then change1 else change2) now db a, S k).

Definition go_back (next_page : string) (qid : option Z) : Page :=
  match qid with
  | Some qid => if decide (next_page = "results") then ResultsPage qid else OperatorPage
  | None => OperatorPage
  end.

Definition score_actions (form : gmap string string) (rnd : nat -> float)
    (now : Z) (db : DB) : Reply * DB :=
  let qid_raw := str_strip (form_get form "question_id" "") in
  let next_page := str_strip (form_get form "next" "") in
  if negb (str_isdigit qid_raw)
  then (Redirect (Some FlashMissingQuestionId) (go_back next_page None), db)
  else
    match int_of_str qid_raw with
    | None => (ServerError500, db)
    | Some qid =>
        match get_question qid db with
        | None => (Redirect (Some FlashUnknownQuestion) (go_back next_page None), db)
        | Some q =>
            let action_type := str_strip (form_get form "action_type" "") in
            let n := Z.of_nat (length (question_options q)) in
            let back := go_back next_page (Some (question_id q)) in
            if decide (action_type = "A") then
              match form_int form "option_index" with
              | None => (ServerError500, db)
              | Some option_index =>
                  let change := parse_float form "change" in
                  if (option_index <? 1) || (option_index >? n)
                  then (Redirect (Some FlashInvalidOption) back, db)
                  else
                    let answers := answers_on_option (question_id q) option_index db in
                    (Redirect (Some (FlashScoredOption option_index change)) back,
                     foldl (credit change now) db answers)
              end
            else if decide (action_type = "B") then
              match form_int form "sid" with
              | None => (ServerError500, db)
              | Some sid =>
                  let change := parse_float form "change" in
                  if (sid <? MIN_SID) || (sid >? MAX_SID)
                  then (Redirect (Some FlashInvalidSid) back, db)
                  else
                    let db1 := (ensure_student_exists sid now db).2 in
                    let db2 := bump_student sid change db1 in
                    let db3 :=
                      match answer_of (question_id q) sid db2 with
                      | Some a => bump_answer (answer_id a) change db2
                      | None => db2
                      end in
                    (Redirect (Some (FlashScoredStudent sid change)) back, db3)
              end
            else if decide (action_type = "C") then
              match form_int form "option_index" with
              | None => (ServerError500, db)
              | Some option_index =>
                  let prob_percent := parse_float form "prob_percent" in
                  let prob := clamp01 (fdiv prob_percent f100) in
                  let change1 := parse_float form "change1" in
                  let change2 := parse_float form "change2" in
                  if (option_index <? 1) || (option_index >? n)
                  then (Redirect (Some FlashInvalidOption) back, db)
                  else
                    let answers := answers_on_option (question_id q) option_index db in
                    (Redirect (Some (FlashScoredRandom option_index prob_percent)) back,
                     (foldl (credit_random prob change1 change2 rnd now) (db, 0%nat)
                        answers).1)
              end
            else (Redirect (Some FlashUnknownAction) back, db)
        end
    end.

(** What it is for the rows that [hit] holds of to have had [change]
    added to their delta between [before] and [after]: row by row and in
    the same order, the delta of such a row is its old delta plus
    [change], the delta of any other row is its old delta, and every
    other field is as it was. *)
Definition deltas_added (change : float) (hit : Answer -> Prop)
    `{!forall a, Decision (hit a)} (before after : list Answer) : Prop :=
  Forall2
    (fun r r' =>
       answer_key r' = answer_key r /\
       answer_score_change r'
       = if decide (hit r) then fadd (answer_score_change r) change
         else answer_score_change r)
    before after.

(** What it is for every student with an Answer on option [i] of question
    [qid] to have received [change] between [db] and [db']: the delta of
    each such Answer, and of no other, is its old delta plus [change]; the
    score of the student of each is the score they had plus [change], or,
    for a student who had no row, a score plus [change]; nobody else's
    row has moved. *)
Definition credited (change : float) (qid i : Z) (db db' : DB) : Prop :=
  deltas_added change
    (fun r => answer_question_id r = qid /\ answer_option_index r = i)
    (answers db) (answers db') /\
  (forall a, a ∈ answers db ->
     answer_question_id a = qid -> answer_option_index a = i ->
     exists s',
       students db' !! answer_sid a = Some s' /\
       (forall s, students db !! answer_sid a = Some s ->
          student_score s' = fadd (student_score s) change /\
          student_created_at s' = student_created_at s) /\
       (students db !! answer_sid a = None ->
        exists m, student_score s' = fadd m change)) /\
  (forall sid,
     (forall a, a ∈ answers db ->
        answer_question_id a = qid -> answer_option_index a = i ->
        answer_sid a <> sid) ->
     students db' !! sid = students db !! sid) /\
  questions db' = questions db /\
  seeds db' = seeds db.

(** ** [start_preset] *)

(** An entry of [load_presets()]. *)
Record Preset := {
  preset_ident : string;
  preset_content : string;
  preset_options : list string
}.

Definition start_preset (form : gmap string string) (presets_list : list Preset)
    (now : Z) (db : DB) : Reply * DB :=
  let preset_id := str_strip (form_get form "preset_id" "") in
  match head (filter (fun p => preset_ident p = preset_id) presets_list) with
  | None => (Redirect (Some FlashPresetMissing) PresetsPage, db)
  | Some preset =>
      let deactivated :=
        (fun r => if question_is_active r then set_is_active false r else r)
          <$> questions db in
      let q :=
        {| question_id := next_id (question_id <$> questions db);
           question_preset_id := Some (preset_ident preset);
           question_content := preset_content preset;
           question_options := preset_options preset;
           question_is_active := true;
           question_created_at := now;
           question_settled_at := None |} in
      (Redirect (Some (FlashPublished (preset_ident preset))) OperatorPage,
       set_questions (deactivated ++ [q]) db)
  end.

(** ** [ensure_seeds] *)

(** [randint k] is what the [k]-th call of [random.randint(0, 89)] returns. *)
Definition seed_step (existing : gmap Z Z) (randint : nat -> Z)
    (st : gmap Z Z * nat) (sid : Z) : gmap Z Z * nat :=
  let (sd, k) := st in
  match existing !! sid with
  | Some _ => (sd, k)
  | None => (<[sid := randint k]> sd, S k)
  end.

Definition ensure_seeds (randint : nat -> Z) (db : DB) : DB :=
  set_seeds (foldl (seed_step (seeds db) randint) (seeds db, 0%nat) roster).1 db.

(** ** [load_presets] *)

(** An item of the list in [presets.json]: not a dict, or a dict with the
    [str] of its [id] and [content] and its [options] when they are a list
    (as [str] of their entries). *)
Inductive PresetItem :=
  | NotADict
  | PresetDict (id content : string) (options : option (list string)).

(** [data] is the list the file holds, [[]] when there is no such file or
    no list in it. *)
Definition load_presets (data : list PresetItem) : list Preset :=
  omap (fun item =>
          match item with
          | NotADict => None
          | PresetDict id content options =>
              let preset_id := str_strip id in
              let content := str_strip content in
              match options with
              | None => None
              | Some options =>
                  if decide (preset_id = "") then None
                  else if decide (content = "") then None
                  else if (length options <? 1)%nat then None
                  else Some {| preset_ident := preset_id;
                               preset_content := content;
                               preset_options := take 10 options |}
              end
          end)
       data.

(** ** The stores the handlers can build *)

Definition empty_db : DB :=
  {| seeds := ∅; students := ∅; questions := []; answers := [] |}.

(** One request, or one run of [ensure_seeds] with draws of 0..89. *)
Inductive step : DB -> DB -> Prop :=
  | step_ensure_seeds randint db :
      (forall k, 0 <= randint k <= 89) ->
      step db (ensure_seeds randint db)
  | step_submit_code code_field now db :
      step db (submit_code code_field now db).2
  | step_delete_submission form db :
      step db (delete_submission form db).2
  | step_delete_submission_for_question qid form db :
      step db (delete_submission_for_question qid form db).2
  | step_edit_options qid form db :
      step db (edit_options_for_question qid form db).2
  | step_settle_question now db :
      step db (settle_question now db).2
  | step_score_actions form rnd now db :
      step db (score_actions form rnd now db).2
  | step_start_preset form data now db :
      step db (start_preset form (load_presets data) now db).2.

Inductive reachable : DB -> Prop :=
  | reachable_empty : reachable empty_db
  | reachable_step db db' : reachable db -> step db db' -> reachable db'.

(** The constraints of the tables and the ranges of the data model. *)
Record well_formed (db : DB) : Prop := {
  wf_answer_pk : answer_pk db;
  wf_uq_answer : uq_answer_sid_question db;
  wf_question_pk : question_pk db;
  wf_seeds : forall sid r, seeds db !! sid = Some r -> 0 <= r <= 89;
  wf_options :
    forall q, q ∈ questions db ->
      (1 <= length (question_options q) <= 10)%nat
}.

(** What the Answers of the ledger point at: a student with a row, a
    question with a row, and a cipher that decodes, on that question and
    with the seeds of the store, to the student and the option of the
    Answer. *)
Record ledger_sound (db : DB) : Prop := {
  ls_student :
    forall a, a ∈ answers db -> is_Some (students db !! answer_sid a);
  ls_question :
    forall a, a ∈ answers db ->
      exists q, q ∈ questions db /\ question_id q = answer_question_id a;
  ls_decodes :
    forall a q, a ∈ answers db -> q ∈ questions db ->
      question_id q = answer_question_id a ->
      decode_code (answer_code a) q db = inr (answer_sid a, answer_option_index a)
}.

(** At most one row of [Question] has the active flag set. *)
Definition single_active (db : DB) : Prop :=
  (length (filter (fun q => question_is_active q = true) (questions db)) <= 1)%nat.

(** What a handler that only scores has done to the store: the questions
    and the seeds are as before, the Answers are the rows of before up to
    their deltas, and no student has lost a row. *)
Definition rescored (db db' : DB) : Prop :=
  questions db' = questions db /\
  seeds db' = seeds db /\
  answer_key <$> answers db' = answer_key <$> answers db /\
  (forall sid, is_Some (students db !! sid) -> is_Some (students db' !! sid)).

(** ** [results] and [operator] *)

(** The dict [{i: [] for i in range(1, n + 1)}] *)
Definition empty_groups (n : nat) : gmap Z (list Answer) :=
  foldr (fun i grouped => <[i := []]> grouped) ∅ (seqZ 1 (Z.of_nat n)).

(** [if a.option_index in grouped: grouped[a.option_index].append(a)] *)
Definition group_add (grouped : gmap Z (list Answer)) (a : Answer)
  : gmap Z (list Answer) :=
  match grouped !! answer_option_index a with
  | Some l => <[answer_option_index a := l ++ [a]]> grouped
  | None => grouped
  end.

(** [sorted(l, key=lambda x: x.sid)], which keeps the order of Answers of
    the same [sid]. *)
Fixpoint insert_by_sid (a : Answer) (l : list Answer) : list Answer :=
  match l with
  | [] => [a]
  | b :: l' =>
      if answer_sid a <=? answer_sid b then a :: b :: l'
      else b :: insert_by_sid a l'
  end.

Definition sorted_by_sid (l : list Answer) : list Answer :=
  foldr insert_by_sid [] l.

(** An entry of [by_option] in [results]. *)
Record OptionGroup := {
  group_index : Z;
  group_text : string;
  group_count : nat;
  group_answers : list Answer
}.

(** [ORDER BY score DESC, sid ASC] on the rows of [Student] *)
Definition ranks_before (x y : Z * Student) : Prop :=
  flt (student_score y.2) (student_score x.2) = true
  \/ (flt (student_score x.2) (student_score y.2) = false /\ x.1 <= y.1).

#[local] Instance ranks_before_dec (x y : Z * Student) : Decision (ranks_before x y).
Proof. unfold ranks_before. apply _. Defined.

(** [Student.query.order_by(Student.score.desc(), Student.sid.asc()).all()] *)
Definition leaderboard (db : DB) : list (Z * Student) :=
  merge_sort ranks_before (map_to_list (students db)).

(** [ORDER BY timestamp DESC] on the rows of [Answer] *)
Definition recent_first (a b : Answer) : Prop :=
  answer_timestamp b <= answer_timestamp a.

#[local] Instance recent_first_dec (a b : Answer) : Decision (recent_first a b).
Proof. unfold recent_first. apply _. Defined.

(** What [results] hands to its template. *)
Record ResultsView := {
  results_question : Question;
  results_by_option : list OptionGroup;
  results_missing : list Z;
  results_answered_count : nat;
  results_students : list (Z * Student)
}.

(** [results]; [None] is the 404 of [get_or_404]. *)
Definition results (qid : Z) (db : DB) : option ResultsView :=
  match get_question qid db with
  | None => None
  | Some q =>
      let students := leaderboard db in
      let stat := stats_for_question q db in
      let answers := answers_of_question (question_id q) db in
      let grouped :=
        foldl group_add (empty_groups (length (stats_options stat))) answers in
      let by_option :=
        imap (fun k text =>
                let i := Z.of_nat (S k) in
                let ans := sorted_by_sid (default [] (grouped !! i)) in
                {| group_index := i;
                   group_text := text;
                   group_count := length ans;
                   group_answers := ans |})
             (stats_options stat) in
      Some {| results_question := q;
              results_by_option := by_option;
              results_missing := stats_missing stat;
              results_answered_count := stats_answered_count stat;
              results_students := students |}
  end.

(** What [operator] hands to its template. *)
Record OperatorView := {
  operator_question : option Question;
  operator_students : list (Z * Student);
  operator_recent_answers : list Answer;
  operator_stats : option Stats
}.

Definition operator (db : DB) : OperatorView :=
  let q := get_active_question db in
  let students := leaderboard db in
  match q with
  | Some q =>
      {| operator_question := Some q;
         operator_students := students;
         operator_recent_answers :=
           take 12 (merge_sort recent_first (answers_of_question (question_id q) db));
         operator_stats := Some (stats_for_question q db) |}
  | None =>
      {| operator_question := None;
         operator_students := students;
         operator_recent_answers := [];
         operator_stats := None |}
  end.

End App.

(** ** A runtime to run the handlers on

    Integers stand for the floats; the string methods are those of
    [str] on ASCII text: decimal digits, blanks and line feeds. *)

Definition is_digit (c : Ascii.ascii) : bool :=
  ((48 <=? Ascii.nat_of_ascii c) && (Ascii.nat_of_ascii c <=? 57))%nat.

Fixpoint all_digits (s : string) : bool :=
  match s with
  | EmptyString => true
  | String c s' => is_digit c && all_digits s'
  end.

Definition ascii_isdigit (s : string) : bool :=
  match s with
  | EmptyString => false
  | _ => all_digits s
  end.

Fixpoint decimal (acc : Z) (s : string) : Z :=
  match s with
  | EmptyString => acc
  | String c s' => decimal (10 * acc + (Z.of_nat (Ascii.nat_of_ascii c) - 48)) s'
  end.

Definition ascii_int (s : string) : option Z :=
  if ascii_isdigit s then Some (decimal 0 s) else None.

Fixpoint lstrip (s : string) : string :=
  match s with
  | String c s' => if Ascii.eqb c (Ascii.ascii_of_nat 32) then lstrip s' else s
  | EmptyString => EmptyString
  end.

Definition ascii_strip (s : string) : string :=
  String.rev (lstrip (String.rev (lstrip s))).

Fixpoint lines_from (cur : string) (s : string) : list string :=
  match s with
  | EmptyString =>
      match cur with
      | EmptyString => []
      | _ => [String.rev cur]
      end
  | String c s' =>
      if Ascii.eqb c (Ascii.ascii_of_nat 10) then String.rev cur :: lines_from EmptyString s'
      else lines_from (String c cur) s'
  end.

Definition ZRuntime : PyRuntime := {|
  float := Z;
  f0 := 0;
  f1 := 1;
  f100 := 100;
  fadd := Z.add;
  fdiv := Z.div;
  flt := Z.ltb;
  float_of_str := ascii_int;
  int_of_str := ascii_int;
  str_isdigit := ascii_isdigit;
  str_strip := ascii_strip;
  str_splitlines := lines_from EmptyString
|}.

(** The scenario of the specification: three seeded students and one open
    question with three options. *)
Definition scenario_question : Question :=
  {| question_id := 1;
     question_preset_id := Some "p1";
     question_content := "Which one?";
     question_options := ["a"; "b"; "c"];
     question_is_active := true;
     question_created_at := 100;
     question_settled_at := None |}.

Definition scenario_db : DB (H := ZRuntime) :=
  {| seeds := <[1 := 5]> (<[2 := 10]> (<[3 := 20]> ∅));
     students := ∅;
     questions := [scenario_question];
     answers := [] |}.

(** The store after student 2 has handed in [213]. *)
Definition scenario_db_answered : DB (H := ZRuntime) :=
  (submit_code (H := ZRuntime) "213" 101 scenario_db).2.

(** The request that credits option 3 of question 1 with probability
    [percent]: 5 on success, 2 otherwise. *)
Definition scenario_random_form (percent : string) : gmap string string :=
  list_to_map
    [("question_id", "1"); ("action_type", "C"); ("option_index", "3");
     ("prob_percent", percent); ("change1", "5"); ("change2", "2")].

(** The Answer of student 2 in the scenario. *)
Definition scenario_answer : Answer (H := ZRuntime) :=
  {| answer_id := 1;
     answer_sid := 2;
     answer_question_id := 1;
     answer_option_index := 3;
     answer_code := 213;
     answer_timestamp := 101;
     answer_score_change := f0 (PyRuntime := ZRuntime) |}.

(** A store the handlers never build: the Answer is on option 3 of a
    question with two options. *)
Definition overhang_question : Question :=
  {| question_id := 1;
     question_preset_id := None;
     question_content := "Which one?";
     question_options := ["a"; "b"];
     question_is_active := true;
     question_created_at := 100;
     question_settled_at := None |}.

Definition overhang_db : DB (H := ZRuntime) :=
  {| seeds := ∅;
     students := ∅;
     questions := [overhang_question];
     answers := [scenario_answer] |}.

(** Two students with scores 5 and 2. *)
Definition student_of (score : float (PyRuntime := ZRuntime)) (created_at : Z)
  : Student (H := ZRuntime) :=
  {| student_score := score; student_created_at := created_at |}.

Definition scored_db : DB (H := ZRuntime) :=
  {| seeds := ∅;
     students := <[1 := student_of 5 1]> (<[3 := student_of 2 2]> ∅);
     questions := [];
     answers := [] |}.

(** A store built by the handlers: seeds drawn (all 10), the preset [p1]
    published at 100, the cipher [213] handed in at 101. *)
Definition seeded_db : DB (H := ZRuntime) := ensure_seeds (fun _ => 10) empty_db.

Definition scenario_presets : list PresetItem :=
  [NotADict;
   PresetDict " p1 " "Which one?" (Some ["a"; "b"; "c"]);
   PresetDict "p0" "" (Some ["x"])].

Definition published_db : DB (H := ZRuntime) :=
  (start_preset {["preset_id" := "p1"]}
     (load_presets (H := ZRuntime) scenario_presets) 100 seeded_db).2.

Definition played_db : DB (H := ZRuntime) :=
  (submit_code "213" 101 published_db).2.

(** The reply to [213] on [published_db]. *)
Definition played_reply : SubmitPayload :=
  {| p_sid := 2;
     p_option_index := 3;
     p_option_text := "c";
     p_answered_count := 1;
     p_missing_count := 63;
     p_timestamp := 101 |}.

(** The requests that add 2 for option 3 of question 1 (action A) and for
    student 2 (action B). *)
Definition scenario_option_form : gmap string string :=
  list_to_map
    [("question_id", "1"); ("action_type", "A"); ("option_index", "3");
     ("change", "2")].

Definition scenario_student_form : gmap string string :=
  list_to_map
    [("question_id", "1"); ("action_type", "B"); ("sid", "2"); ("change", "2")].

(** The store after option 3 of question 1 has been credited with 2: the
    score of student 2 and the delta of their Answer are both 2. *)
Definition scenario_db_credited : DB (H := ZRuntime) :=
  (score_actions (H := ZRuntime) scenario_option_form (fun _ => 0) 103
     scenario_db_answered).2.

Definition scenario_answer_credited : Answer (H := ZRuntime) :=
  {| answer_id := 1;
     answer_sid := 2;
     answer_question_id := 1;
     answer_option_index := 3;
     answer_code := 213;
     answer_timestamp := 101;
     answer_score_change := (2 : float (PyRuntime := ZRuntime)) |}.

(** An edit that retitles the first option and appends a fourth. *)
Definition scenario_edit_form : gmap string string :=
  list_to_map [("opt1", " A "); ("append_options", "d")].

(** * Properties *)

Section Proofs.
Context `{PyRuntime}.

(** ** Lists of rows *)

Lemma filter_nil_none {A} (P : A -> Prop) `{!forall x, Decision (P x)} (l : list A) :
  (forall x, x ∈ l -> ~ P x) -> filter P l = [].
Proof.
  induction l as [|x l IH]; intros Hall; [done|].
  rewrite filter_cons. destruct (decide (P x)) as [HP|_].
  - exfalso. apply (Hall x); [constructor|done].
  - apply IH. intros y Hy. apply Hall. by constructor.
Qed.

(** ** The active question *)

Lemma foldl_later_of_None (qs : list Question) (best : option Question) :
  foldl later_of best qs = None <-> best = None /\ qs = [].
Proof.
  revert best. induction qs as [|q qs IH]; intros best; simpl.
  - split; [intros ->; done|intros [-> _]; done].
  - rewrite IH. split; [|intros [_ ?]; done].
    intros [Hb _]. destruct best as [b|]; simpl in Hb; [|done].
    by destruct (question_created_at b <? question_created_at q).
Qed.

Lemma foldl_later_of_Some (qs : list Question) (best : option Question) (q : Question) :
  foldl later_of best qs = Some q -> best = Some q \/ q ∈ qs.
Proof.
  revert best. induction qs as [|q' qs IH]; intros best; simpl.
  - auto.
  - intros Hq. apply IH in Hq as [Hq|Hq]; [|right; by constructor].
    destruct best as [b|]; simpl in Hq.
    + destruct (question_created_at b <? question_created_at q').
      * right. injection Hq as ->. constructor.
      * by left.
    + right. injection Hq as ->. constructor.
Qed.

Lemma get_active_question_None (db : DB) :
  get_active_question db = None <->
  forall q, q ∈ questions db -> question_is_active q = false.
Proof.
  unfold get_active_question. rewrite foldl_later_of_None. split.
  - intros [_ Hnil] q Hq.
    destruct (question_is_active q) eqn:Hact; [|done].
    assert (q ∈ filter (fun q => question_is_active q = true) (questions db)) as Hin
      by (apply list_elem_of_filter; done).
    rewrite Hnil in Hin. by apply elem_of_nil in Hin.
  - intros Hall. split; [done|].
    apply filter_nil_none. intros q Hq Hact.
    rewrite (Hall q Hq) in Hact. done.
Qed.

Lemma get_active_question_Some (db : DB) (q : Question) :
  get_active_question db = Some q ->
  q ∈ questions db /\ question_is_active q = true.
Proof.
  unfold get_active_question. intros Hq.
  apply foldl_later_of_Some in Hq as [Hq|Hq]; [done|].
  by apply list_elem_of_filter in Hq as [? ?].
Qed.

Lemma get_active_question_is_Some (db : DB) (q0 : Question) :
  q0 ∈ questions db -> question_is_active q0 = true ->
  exists q, get_active_question db = Some q.
Proof.
  intros Hin Hact. destruct (get_active_question db) as [q|] eqn:Hq; [eauto|].
  rewrite get_active_question_None in Hq. rewrite (Hq q0 Hin) in Hact. done.
Qed.

(** ** [decode_code] *)

(** The cipher of [(sid, option_index)] under the offset [r] decodes back
    as long as its low part [r + option_index] stays within two digits. *)
Lemma decode_code_of_sum (db : DB) (question : Question) (sid r option_index : Z) :
  MIN_SID <= sid <= MAX_SID ->
  seeds db !! sid = Some r ->
  0 <= r -> r + option_index <= 99 ->
  1 <= option_index <= Z.of_nat (length (question_options question)) ->
  decode_code (sid * 100 + r + option_index) question db = inr (sid, option_index).
Proof.
  unfold MIN_SID, MAX_SID. intros Hsid Hseed Hr Hsum Hi.
  assert ((sid * 100 + r + option_index) / 100 = sid) as Hdiv.
  { symmetry. apply (Z.div_unique _ _ _ (r + option_index)); lia. }
  assert ((sid * 100 + r + option_index) mod 100 = r + option_index) as Hmod.
  { symmetry. apply (Z.mod_unique _ _ sid); lia. }
  unfold decode_code. rewrite Hdiv, Hmod. unfold MIN_SID, MAX_SID.
  replace ((sid <? 1) || (sid >? 64)) with false by lia.
  replace ((r + option_index <? 1) || (r + option_index >? 99)) with false by lia.
  rewrite Hseed. cbv zeta.
  replace (r + option_index - r) with option_index by lia.
  replace ((option_index <? 1)
           || (option_index >? Z.of_nat (length (question_options question))))
    with false by lia.
  done.
Qed.

(** C1: the cipher [sid*100 + r + option_index] of a student of the roster
    with offset [r] (0..89) and of an option of the question (at most ten
    options) decodes to [(sid, option_index)]. *)
Theorem decode_code_of_cipher (db : DB) (question : Question)
    (sid r option_index : Z) :
  MIN_SID <= sid <= MAX_SID ->
  seeds db !! sid = Some r ->
  0 <= r <= 89 ->
  (length (question_options question) <= 10)%nat ->
  1 <= option_index <= Z.of_nat (length (question_options question)) ->
  decode_code (sid * 100 + r + option_index) question db = inr (sid, option_index).
Proof.
  intros Hsid Hseed Hr Hn Hi. apply decode_code_of_sum; try done; lia.
Qed.

(** C4: a cipher whose [sid = cipher div 100] is outside the roster fails
    with [SidOutOfRange], whatever its low part; one whose [sid] is in the
    roster and whose [b = cipher mod 100] is outside 1..99 fails with
    [SuffixOutOfRange]; and a submission whose cipher fails to decode is
    rejected with that error and leaves the store as it was. *)
Theorem decode_code_range_errors (db : DB) (question : Question) (code_int : Z) :
  (~ (MIN_SID <= code_int / 100 <= MAX_SID) ->
   decode_code code_int question db = inl SidOutOfRange) /\
  (MIN_SID <= code_int / 100 <= MAX_SID ->
   ~ (1 <= code_int mod 100 <= 99) ->
   decode_code code_int question db = inl SuffixOutOfRange) /\
  (forall (code_field : string) (now : Z) (e : DecodeError),
     get_active_question db = Some question ->
     question_settled_at question = None ->
     str_isdigit (str_strip code_field) = true ->
     int_of_str (str_strip code_field) = Some code_int ->
     decode_code code_int question db = inl e ->
     submit_code code_field now db = (SubmitRejected 400 (DecodeFailed e), db)).
Proof.
  unfold MIN_SID, MAX_SID. split; [|split].
  - intros Hsid. unfold decode_code, MIN_SID, MAX_SID.
    replace ((code_int / 100 <? 1) || (code_int / 100 >? 64)) with true by lia.
    done.
  - intros Hsid Hb. unfold decode_code, MIN_SID, MAX_SID.
    replace ((code_int / 100 <? 1) || (code_int / 100 >? 64)) with false by lia.
    replace ((code_int mod 100 <? 1) || (code_int mod 100 >? 99)) with true by lia.
    done.
  - intros code_field now e Hq Hopen Hdigit Hint He.
    unfold submit_code. rewrite Hq, Hopen. cbv zeta.
    rewrite Hdigit. simpl. rewrite Hint, He. done.
Qed.

(** ** [settle_question] *)

Lemma update_question_lookup (qid : Z) (f : Question -> Question) (db : DB)
    (i : nat) (r : Question) :
  questions db !! i = Some r ->
  questions (update_question qid f db) !! i
  = Some (if decide (question_id r = qid) then f r else r).
Proof.
  intros Hr. unfold update_question. simpl.
  rewrite list_lookup_fmap, Hr. done.
Qed.

Lemma update_question_elem_of (qid : Z) (f : Question -> Question) (db : DB)
    (r' : Question) :
  r' ∈ questions (update_question qid f db) ->
  exists r, r ∈ questions db /\
            r' = if decide (question_id r = qid) then f r else r.
Proof.
  unfold update_question. simpl. intros Hr.
  apply list_elem_of_fmap in Hr as (r & -> & Hr). eauto.
Qed.

(** C10: [settle_question] turns the request down exactly when no question
    is active; with an active question [q] it always goes through: the
    rows with the id of [q] get the current time as settle timestamp, also
    over an earlier one, and the other rows stay as they were. *)
Theorem settle_question_always_settles (now : Z) (db : DB) :
  (settle_question now db = (Redirect (Some FlashNoActiveQuestion) OperatorPage, db)
   <-> forall q, q ∈ questions db -> question_is_active q = false) /\
  ((exists q0, q0 ∈ questions db /\ question_is_active q0 = true) ->
   exists q,
     get_active_question db = Some q /\
     q ∈ questions db /\
     question_is_active q = true /\
     settle_question now db
     = (Redirect None (ResultsPage (question_id q)),
        update_question (question_id q) (set_settled_at (Some now)) db) /\
     set_settled_at (Some now) q ∈ questions (settle_question now db).2 /\
     (forall r, r ∈ questions (settle_question now db).2 ->
        question_id r = question_id q ->
        question_settled_at r = Some now) /\
     (forall i r, questions db !! i = Some r ->
        question_id r <> question_id q ->
        questions (settle_question now db).2 !! i = Some r)).
Proof.
  split.
  - rewrite <- get_active_question_None. unfold settle_question.
    destruct (get_active_question db) as [q|]; split; intros Heq; try done.
  - intros (q0 & Hin0 & Hact0).
    destruct (get_active_question_is_Some db q0 Hin0 Hact0) as [q Hq].
    destruct (get_active_question_Some db q Hq) as [Hin Hact].
    exists q. unfold settle_question. rewrite Hq. simpl.
    split_and!; try done.
    + apply list_elem_of_fmap. exists q. split; [|done].
      by rewrite decide_True.
    + intros r Hr Hid.
      apply list_elem_of_fmap in Hr as (r0 & -> & Hr0).
      destruct (decide (question_id r0 = question_id q)) as [_|Hne]; done.
    + intros i r Hr Hne. rewrite list_lookup_fmap, Hr. simpl.
      by rewrite decide_False.
Qed.

(** ** [start_preset] *)

Lemma set_is_active_inactive (q : Question) :
  question_is_active q = false -> set_is_active false q = q.
Proof. destruct q; simpl; intros ->; done. Qed.

Lemma foldr_max_ge (ids : list Z) (x : Z) :
  x ∈ ids -> x <= foldr Z.max 0 ids.
Proof.
  induction ids as [|y ids IH]; intros Hx; simpl.
  - by apply elem_of_nil in Hx.
  - apply elem_of_cons in Hx as [->|Hx]; [lia|]. specialize (IH Hx). lia.
Qed.

Lemma next_id_fresh (ids : list Z) : next_id ids ∉ ids.
Proof.
  intros Hin. apply foldr_max_ge in Hin. unfold next_id in Hin. lia.
Qed.

(** C3: after a publish the table holds one active question, the new row,
    whose settle timestamp is null and whose id no earlier row has; every
    earlier row is in its place with its active flag false and everything
    else, its settle timestamp included, as before. *)
Theorem start_preset_one_active (form : gmap string string)
    (presets_list : list Preset) (now : Z) (db : DB) (name : string) (db' : DB) :
  start_preset form presets_list now db
  = (Redirect (Some (FlashPublished name)) OperatorPage, db') ->
  exists q,
    questions db' = ((fun r => set_is_active false r) <$> questions db) ++ [q] /\
    filter (fun r => question_is_active r = true) (questions db') = [q] /\
    get_active_question db' = Some q /\
    question_settled_at q = None /\
    (question_id q ∉ (question_id <$> questions db)) /\
    (forall i r, questions db !! i = Some r ->
       exists r', questions db' !! i = Some r' /\
                  question_is_active r' = false /\
                  question_settled_at r' = question_settled_at r /\
                  r' = set_is_active false r) /\
    students db' = students db /\ answers db' = answers db /\ seeds db' = seeds db.
Proof.
  unfold start_preset.
  destruct (head _) as [preset|]; [|done].
  intros [= <- <-]. eexists. simpl.
  assert (((fun r => if question_is_active r then set_is_active false r else r)
             <$> questions db)
          = (fun r => set_is_active false r) <$> questions db) as ->.
  { apply list_fmap_ext. intros _ r _.
    destruct (question_is_active r) eqn:Hr; [done|].
    by rewrite set_is_active_inactive. }
  assert (filter (fun r => question_is_active r = true)
            ((fun r => set_is_active false r) <$> questions db) = []) as Hnone.
  { apply filter_nil_none. intros r Hr.
    apply list_elem_of_fmap in Hr as (r0 & -> & _). done. }
  split_and!; try done.
  - rewrite filter_app, Hnone. done.
  - unfold get_active_question. simpl. rewrite filter_app, Hnone. done.
  - apply next_id_fresh.
  - intros i r Hr. exists (set_is_active false r). split_and!; try done.
    rewrite lookup_app_l.
    + by rewrite list_lookup_fmap, Hr.
    + rewrite length_fmap. by apply lookup_lt_Some in Hr.
Qed.

(** ** Scoring actions on a target that does not exist *)

(** C9: a scoring request whose question id is no number or is the id of
    no row, one for an option index outside 1..N (actions A and C) and one
    for a student id outside the roster (action B) get a flashed refusal,
    and the store, with every Student row, score and Answer delta, is the
    one before the request. *)
Theorem score_actions_invalid_target (form : gmap string string)
    (rnd : nat -> float) (now : Z) (db : DB) :
  let qid_raw := str_strip (form_get form "question_id" "") in
  let next_page := str_strip (form_get form "next" "") in
  (str_isdigit qid_raw = false ->
   score_actions form rnd now db
   = (Redirect (Some FlashMissingQuestionId) OperatorPage, db)) /\
  (forall qid,
     str_isdigit qid_raw = true ->
     int_of_str qid_raw = Some qid ->
     get_question qid db = None ->
     score_actions form rnd now db
     = (Redirect (Some FlashUnknownQuestion) OperatorPage, db)) /\
  (forall qid q action_type option_index,
     str_isdigit qid_raw = true ->
     int_of_str qid_raw = Some qid ->
     get_question qid db = Some q ->
     str_strip (form_get form "action_type" "") = action_type ->
     action_type = "A" \/ action_type = "C" ->
     form_int form "option_index" = Some option_index ->
     ~ (1 <= option_index <= Z.of_nat (length (question_options q))) ->
     score_actions form rnd now db
     = (Redirect (Some FlashInvalidOption)
          (go_back next_page (Some (question_id q))), db)) /\
  (forall qid q sid,
     str_isdigit qid_raw = true ->
     int_of_str qid_raw = Some qid ->
     get_question qid db = Some q ->
     str_strip (form_get form "action_type" "") = "B" ->
     form_int form "sid" = Some sid ->
     ~ (MIN_SID <= sid <= MAX_SID) ->
     score_actions form rnd now db
     = (Redirect (Some FlashInvalidSid)
          (go_back next_page (Some (question_id q))), db)).
Proof.
  cbv zeta. unfold score_actions. split_and!.
  - intros ->. done.
  - intros qid -> -> ->. done.
  - intros qid q action_type option_index -> -> -> Hact Htype Hoi Hbad.
    simpl. rewrite Hact.
    assert ((option_index <? 1)
            || (option_index >? Z.of_nat (length (question_options q))) = true)
      as Hout by lia.
    destruct Htype as [->| ->]; simpl; rewrite Hoi, Hout; done.
  - intros qid q sid -> -> -> -> Hsid Hbad. simpl. rewrite Hsid.
    unfold MIN_SID, MAX_SID in *.
    replace ((sid <? 1) || (sid >? 64)) with true by lia.
    done.
Qed.

(** ** [edit_options_for_question] *)

Lemma retexted_length (form : gmap string string) (old_options : list string) :
  length (retexted form old_options) = length old_options.
Proof. unfold retexted. apply length_imap. Qed.

(** The edit only rewrites slots and appends: it never yields fewer
    options than there were, and never more than ten unless there were. *)
Lemma new_options_length (form : gmap string string) (old_options : list string) :
  (length old_options <= length (new_options form old_options))%nat /\
  ((length old_options <= 10)%nat ->
   (length (new_options form old_options) <= 10)%nat).
Proof.
  unfold new_options. destruct (append_lines form) as [|line rest].
  - rewrite retexted_length. lia.
  - destruct (0 <? 10 - Z.of_nat (length (retexted form old_options))) eqn:Hrem.
    + rewrite length_app, length_take, retexted_length in *. lia.
    + rewrite retexted_length. lia.
Qed.

(** C7: an edit whose resulting list would be shorter than the current one,
    or shorter than the greatest option index an Answer of the question
    holds, is turned down with a flashed message and the store, so the
    option list, is unchanged. *)
Theorem edit_options_shrink_rejected (qid : Z) (form : gmap string string)
    (db : DB) (q : Question) :
  get_question qid db = Some q ->
  (length (new_options form (question_options q))
   < length (question_options q))%nat
  \/ Z.of_nat (length (new_options form (question_options q)))
     < max_used (question_id q) db ->
  (edit_options_for_question qid form db
   = (Redirect (Some FlashOptionsAbnormal) OperatorPage, db)
   \/ edit_options_for_question qid form db
      = (Redirect (Some (FlashBelowMaxUsed (max_used (question_id q) db)))
           OperatorPage, db)) /\
  get_question qid (edit_options_for_question qid form db).2 = Some q.
Proof.
  intros Hq Hshort.
  destruct (new_options_length form (question_options q)) as [Hge _].
  destruct Hshort as [Hshort|Hshort]; [lia|].
  unfold edit_options_for_question. rewrite Hq. cbv zeta.
  destruct (Z.of_nat (length (question_options q)) <? 1) eqn:Hn.
  - split; [by left|done].
  - replace (Z.of_nat (length (new_options form (question_options q)))
             <? Z.of_nat (length (question_options q))) with false by lia.
    replace (max_used (question_id q) db
             >? Z.of_nat (length (new_options form (question_options q))))
      with true by lia.
    split; [by right|done].
Qed.

(** ** Deleting a submission *)

Lemma answer_of_Some (qid sid : Z) (db : DB) (a : Answer) :
  answer_of qid sid db = Some a ->
  a ∈ answers db /\ answer_question_id a = qid /\ answer_sid a = sid.
Proof.
  unfold answer_of, rows_of. intros Ha. apply head_Some_elem_of in Ha.
  apply list_elem_of_filter in Ha as [[? ?] ?]. done.
Qed.

Lemma answer_of_None (qid sid : Z) (db : DB) :
  answer_of qid sid db = None <-> rows_of qid sid db = [].
Proof. unfold answer_of. apply head_None. Qed.

Lemma NoDup_fmap_inj_on {A B} (f : A -> B) (l : list A) (x y : A) :
  NoDup (f <$> l) -> x ∈ l -> y ∈ l -> f x = f y -> x = y.
Proof.
  induction l as [|z l IH]; simpl; intros Hnd Hx Hy Hf.
  - by apply elem_of_nil in Hx.
  - apply NoDup_cons in Hnd as [Hz Hnd].
    apply elem_of_cons in Hx as [->|Hx]; apply elem_of_cons in Hy as [->|Hy].
    + done.
    + exfalso. apply Hz. rewrite Hf. apply list_elem_of_fmap. eauto.
    + exfalso. apply Hz. rewrite <- Hf. apply list_elem_of_fmap. eauto.
    + by apply IH.
Qed.

(** What [delete_answer] does to the store: the Student table is kept,
    every row it keeps is a row of before, and under the primary key of
    [Answer] the rows it keeps are all the rows but [a]. *)
Lemma delete_answer_frame (a : Answer) (db : DB) :
  a ∈ answers db ->
  students (delete_answer a db) = students db /\
  questions (delete_answer a db) = questions db /\
  seeds (delete_answer a db) = seeds db /\
  sublist (answers (delete_answer a db)) (answers db) /\
  (answer_pk db ->
   forall r, r ∈ answers (delete_answer a db) <-> r ∈ answers db /\ r <> a).
Proof.
  intros Ha. unfold delete_answer. simpl. split_and!; try done.
  - apply sublist_filter.
  - intros Hpk r. rewrite list_elem_of_filter. split.
    + intros [Hid Hr]. split; [done|]. intros ->. done.
    + intros [Hr Hne]. split; [|done]. intros Hid. apply Hne.
      by apply (NoDup_fmap_inj_on answer_id (answers db)).
Qed.

Lemma delete_answer_ledger_only (a : Answer) (db : DB) :
  ledger_only db (delete_answer a db).
Proof.
  unfold ledger_only, delete_answer. simpl.
  split_and!; try done. apply sublist_filter.
Qed.

Lemma ledger_only_refl (db : DB) : ledger_only db db.
Proof. by unfold ledger_only. Qed.

Lemma delete_submission_for_question_ledger (qid : Z)
    (form : gmap string string) (db : DB) :
  ledger_only db (delete_submission_for_question qid form db).2.
Proof.
  unfold delete_submission_for_question.
  destruct (get_question qid db) as [q|]; [|apply ledger_only_refl]. cbv zeta.
  destruct (negb _); [apply ledger_only_refl|].
  destruct (int_of_str _) as [sid|]; [|apply ledger_only_refl].
  destruct (answer_of (question_id q) sid db) as [a|]; [|apply ledger_only_refl].
  apply delete_answer_ledger_only.
Qed.

Lemma delete_submission_ledger (form : gmap string string) (db : DB) :
  ledger_only db (delete_submission form db).2.
Proof.
  unfold delete_submission.
  destruct (get_active_question db) as [q|]; [|apply ledger_only_refl]. cbv zeta.
  destruct (negb _); [apply ledger_only_refl|].
  destruct (int_of_str _) as [sid|]; [|apply ledger_only_refl].
  destruct (answer_of (question_id q) sid db) as [a|]; [|apply ledger_only_refl].
  apply delete_answer_ledger_only.
Qed.

(** C8: whichever of the two delete handlers runs and whatever the state
    of the question, the Student table is the one before and the Answer
    rows afterwards are rows of before, field for field and in their
    order; when the handler finds the Answer [a] of the student on the
    question, under the primary key of [Answer] the rows afterwards are
    all the rows of before but [a]. *)
Theorem delete_submission_ledger_only (qid : Z) (form : gmap string string)
    (db : DB) :
  let sid_raw := str_strip (form_get form "sid" "") in
  ledger_only db (delete_submission_for_question qid form db).2 /\
  ledger_only db (delete_submission form db).2 /\
  (forall q sid a,
     answer_pk db ->
     str_isdigit sid_raw = true ->
     int_of_str sid_raw = Some sid ->
     answer_of (question_id q) sid db = Some a ->
     (get_question qid db = Some q ->
      forall r, r ∈ answers (delete_submission_for_question qid form db).2
                <-> r ∈ answers db /\ r <> a) /\
     (get_active_question db = Some q ->
      forall r, r ∈ answers (delete_submission form db).2
                <-> r ∈ answers db /\ r <> a)).
Proof.
  cbv zeta. split_and!.
  - apply delete_submission_for_question_ledger.
  - apply delete_submission_ledger.
  - intros q sid a Hpk Hdigit Hint Ha.
    destruct (answer_of_Some _ _ _ _ Ha) as (Hin & _ & _).
    destruct (delete_answer_frame a db Hin) as (_ & _ & _ & _ & Hrows).
    split; intros Hq.
    + unfold delete_submission_for_question. rewrite Hq. cbv zeta.
      rewrite Hdigit. simpl. rewrite Hint, Ha. simpl. by apply Hrows.
    + unfold delete_submission. rewrite Hq. cbv zeta.
      rewrite Hdigit. simpl. rewrite Hint, Ha. simpl. by apply Hrows.
Qed.

(** ** [ensure_student_exists], as the handlers see it *)

Lemma ensure_student_exists_frame (sid now : Z) (db : DB) :
  answers (ensure_student_exists sid now db).2 = answers db /\
  questions (ensure_student_exists sid now db).2 = questions db /\
  seeds (ensure_student_exists sid now db).2 = seeds db.
Proof. unfold ensure_student_exists. by destruct (students db !! sid). Qed.

Lemma ensure_student_exists_lookup (sid now : Z) (db : DB) :
  students (ensure_student_exists sid now db).2 !! sid
  = Some (ensure_student_exists sid now db).1.
Proof.
  unfold ensure_student_exists.
  destruct (students db !! sid) eqn:Hs; simpl; [done|].
  apply lookup_insert_eq.
Qed.

Lemma ensure_student_exists_present (sid now : Z) (db : DB) (s : Student) :
  students db !! sid = Some s -> ensure_student_exists sid now db = (s, db).
Proof. unfold ensure_student_exists. by intros ->. Qed.

Lemma ensure_student_exists_other (sid sid' now : Z) (db : DB) :
  sid' <> sid ->
  students (ensure_student_exists sid now db).2 !! sid' = students db !! sid'.
Proof.
  intros Hne. unfold ensure_student_exists.
  destruct (students db !! sid); simpl; [done|].
  by apply lookup_insert_ne.
Qed.

(** ** Duplicate submissions *)

Lemma uq_rows_of_le_1 (qid sid : Z) (l : list Answer) :
  NoDup ((fun a => (answer_sid a, answer_question_id a)) <$> l) ->
  (length (filter (fun a => answer_question_id a = qid /\ answer_sid a = sid) l)
   <= 1)%nat.
Proof.
  induction l as [|a l IH]; intros Hnd; [simpl; lia|].
  rewrite fmap_cons in Hnd.
  apply NoDup_cons in Hnd as [Ha Hnd]. specialize (IH Hnd).
  rewrite filter_cons. destruct (decide _) as [[Hq Hs]|_]; [|done].
  rewrite filter_nil_none; [simpl; lia|].
  intros r Hr [Hq' Hs']. apply Ha. apply list_elem_of_fmap.
  exists r. split; [|done]. congruence.
Qed.

(** C2: a submission that decodes to a student who has an Answer on the
    active question already is rejected as a duplicate (409) and leaves the
    Answer table as it was, so that under [uq_answer_sid_question] the pair
    still has its one row; and handing in a cipher that was just accepted
    once more is such a submission: it is rejected, the store does not
    move, and the pair has exactly one row. *)
Theorem submit_code_duplicate (code_field : string) (now : Z) (db : DB) :
  (forall q code_int sid option_index,
     get_active_question db = Some q ->
     question_settled_at q = None ->
     str_isdigit (str_strip code_field) = true ->
     int_of_str (str_strip code_field) = Some code_int ->
     decode_code code_int q db = inr (sid, option_index) ->
     is_Some (answer_of (question_id q) sid db) ->
     (submit_code code_field now db).1
     = SubmitRejected 409 (DuplicateSubmission sid) /\
     answers (submit_code code_field now db).2 = answers db /\
     (uq_answer_sid_question db ->
      length (rows_of (question_id q) sid (submit_code code_field now db).2)
      = 1%nat)) /\
  (forall p db1 now',
     submit_code code_field now db = (SubmitAccepted p, db1) ->
     exists q,
       get_active_question db1 = Some q /\
       submit_code code_field now' db1
       = (SubmitRejected 409 (DuplicateSubmission (p_sid p)), db1) /\
       length (rows_of (question_id q) (p_sid p) db1) = 1%nat).
Proof.
  split.
  - intros q code_int sid option_index Hq Hopen Hdigit Hint Hdec [a Ha].
    unfold submit_code. rewrite Hq, Hopen. cbv zeta.
    rewrite Hdigit. simpl. rewrite Hint, Hdec.
    destruct (ensure_student_exists_frame sid now db) as (Hans & _ & _).
    unfold answer_of, rows_of in *. rewrite Hans, Ha. simpl.
    split_and!; try done.
    intros Huq. rewrite Hans.
    pose proof (uq_rows_of_le_1 (question_id q) sid (answers db) Huq) as Hle.
    destruct (filter _ (answers db)) as [|a' l]; [done|]. simpl in *. lia.
  - intros p db1 now'. unfold submit_code at 1.
    destruct (get_active_question db) as [q|] eqn:Hq; [|done].
    destruct (question_settled_at q) eqn:Hopen; [done|]. cbv zeta.
    destruct (str_isdigit (str_strip code_field)) eqn:Hdigit; [|done]. simpl.
    destruct (int_of_str (str_strip code_field)) as [code_int|] eqn:Hint; [|done].
    destruct (decode_code code_int q db) as [e|[sid option_index]] eqn:Hdec; [done|].
    destruct (ensure_student_exists_frame sid now db) as (Hans & Hqs & Hseeds).
    pose proof (ensure_student_exists_lookup sid now db) as Hstud.
    set (dbE := (ensure_student_exists sid now db).2) in *.
    destruct (answer_of (question_id q) sid dbE) eqn:Hnone; [done|].
    intros [= <- <-]. simpl. exists q.
    set (a := {| answer_id := next_id (answer_id <$> answers dbE);
                 answer_sid := sid |}).
    set (db1 := set_answers (answers dbE ++ [a]) dbE).
    assert (rows_of (question_id q) sid db1 = [a]) as Hrows.
    { apply answer_of_None in Hnone. unfold rows_of, db1 in *. simpl.
      rewrite filter_app, Hnone. simpl.
      rewrite filter_cons, decide_True by done. done. }
    assert (get_active_question db1 = Some q) as Hq1.
    { unfold get_active_question, db1. simpl. rewrite Hqs. exact Hq. }
    assert (decode_code code_int q db1 = inr (sid, option_index)) as Hdec1.
    { unfold decode_code, db1 in *. simpl. rewrite Hseeds. exact Hdec. }
    split_and!; [done| |by rewrite Hrows].
    unfold submit_code. rewrite Hq1, Hopen. cbv zeta.
    rewrite Hdigit. simpl. rewrite Hint, Hdec1.
    rewrite (ensure_student_exists_present sid now' db1 _ Hstud). simpl.
    unfold answer_of. rewrite Hrows. done.
Qed.

(** ** The score of a student created on demand *)

Lemma foldl_min_step (Hord : FloatOrder) (xs : list float) (m0 : float) :
  exists m,
    foldl min_step (Some m0) xs = Some m /\
    (m = m0 \/ m ∈ xs) /\
    flt m0 m = false /\
    (forall x, x ∈ xs -> flt x m = false).
Proof.
  revert m0. induction xs as [|x xs IH]; intros m0; simpl.
  - exists m0. split_and!; [done|by left|apply Hord|].
    intros x Hx. by apply elem_of_nil in Hx.
  - destruct (flt x m0) eqn:Hx.
    + destruct (IH x) as (m & Hm & Hin & Hle & Hall).
      exists m. split_and!; [done| | |].
      * right. destruct Hin as [->|Hin]; [constructor|by constructor].
      * destruct (flt m0 m) eqn:Hm0; [|done].
        rewrite (flt_trans Hord x m0 m Hx Hm0) in Hle. done.
      * intros y Hy. apply elem_of_cons in Hy as [->|Hy]; [done|by apply Hall].
    + destruct (IH m0) as (m & Hm & Hin & Hle & Hall).
      exists m. split_and!; [done| |done|].
      * destruct Hin as [->|Hin]; [by left|right; by constructor].
      * intros y Hy. apply elem_of_cons in Hy as [->|Hy]; [|by apply Hall].
        by apply (flt_incomparable_trans Hord _ m0 m).
Qed.

Lemma sql_min_None (xs : list float) : sql_min xs = None <-> xs = [].
Proof.
  unfold sql_min. destruct xs as [|x xs]; simpl; [done|].
  split; [|done]. intros Hnone. exfalso. revert x Hnone.
  induction xs as [|y xs IH]; intros x; simpl; [done|]. apply IH.
Qed.

Lemma sql_min_least (Hord : FloatOrder) (xs : list float) (m : float) :
  sql_min xs = Some m -> m ∈ xs /\ forall x, x ∈ xs -> flt x m = false.
Proof.
  unfold sql_min. destruct xs as [|x xs]; simpl; [done|].
  destruct (foldl_min_step Hord xs x) as (m' & Hm' & Hin & Hle & Hall).
  rewrite Hm'. intros [= <-]. split.
  - destruct Hin as [->|Hin]; [constructor|by constructor].
  - intros y Hy. apply elem_of_cons in Hy as [->|Hy]; [done|by apply Hall].
Qed.

Lemma elem_of_scores (db : DB) (x : float) :
  x ∈ student_score <$> (map_to_list (students db)).*2 <->
  exists sid s, students db !! sid = Some s /\ student_score s = x.
Proof.
  rewrite list_elem_of_fmap. split.
  - intros (s & -> & Hs). apply list_elem_of_fmap in Hs as ([sid s'] & -> & Hs).
    apply elem_of_map_to_list in Hs. eauto.
  - intros (sid & s & Hs & <-). exists s. split; [done|].
    apply list_elem_of_fmap. exists (sid, s). split; [done|].
    by apply elem_of_map_to_list.
Qed.

Lemma min_student_score_None (db : DB) : min_student_score db = None <-> students db = ∅.
Proof.
  unfold min_student_score. rewrite sql_min_None. split.
  - intros Hnil. apply fmap_nil_inv, fmap_nil_inv in Hnil.
    by apply map_to_list_empty_iff.
  - intros ->. by rewrite map_to_list_empty.
Qed.

(** C6: a Student row that [ensure_student_exists] creates starts at 0
    when the table is empty and otherwise at a score some student has and
    no student is below; the rows of the other students are kept.  The
    submission that is accepted, the action B and a round of the loops of
    the actions A and C create the row this way, the last two adding their
    change to it. *)
Theorem ensure_student_exists_initial_score (Hord : FloatOrder)
    (sid now : Z) (db : DB) :
  students db !! sid = None ->
  let s := (ensure_student_exists sid now db).1 in
  let db' := (ensure_student_exists sid now db).2 in
  students db' = <[sid := s]> (students db) /\
  student_score s = default f0 (min_student_score db) /\
  (students db = ∅ -> student_score s = f0) /\
  (students db <> ∅ ->
   (exists sid0 s0,
      students db !! sid0 = Some s0 /\ student_score s0 = student_score s) /\
   (forall sid1 s1,
      students db !! sid1 = Some s1 ->
      flt (student_score s1) (student_score s) = false)) /\
  (forall sid1 s1,
     students db !! sid1 = Some s1 -> students db' !! sid1 = Some s1) /\
  (forall code_field p db2,
     submit_code code_field now db = (SubmitAccepted p, db2) ->
     p_sid p = sid ->
     students db2 = <[sid := s]> (students db)) /\
  (forall change a,
     answer_sid a = sid ->
     students (credit change now db a) = <[sid := add_score change s]> (students db)).
Proof.
  intros Hnone. unfold ensure_student_exists. rewrite Hnone. simpl.
  split_and!; try done.
  - intros Hempty. apply min_student_score_None in Hempty. by rewrite Hempty.
  - intros Hsome.
    destruct (min_student_score db) as [m|] eqn:Hm;
      [|by apply min_student_score_None in Hm].
    simpl. apply (sql_min_least Hord) in Hm as [Hin Hall]. split.
    + by apply elem_of_scores in Hin.
    + intros sid1 s1 Hs1. apply Hall, elem_of_scores. eauto.
  - intros sid1 s1 Hs1. rewrite lookup_insert_ne; [done|]. congruence.
  - intros code_field p db2. unfold submit_code.
    destruct (get_active_question db) as [q|]; [|done].
    destruct (question_settled_at q); [done|]. cbv zeta.
    destruct (negb _); [done|].
    destruct (int_of_str _) as [code_int|]; [|done].
    destruct (decode_code code_int q db) as [e|[sid' option_index]]; [done|].
    destruct (answer_of _ _ _); [done|].
    intros [= <- <-]. simpl. intros ->.
    unfold ensure_student_exists. rewrite Hnone. done.
  - intros change a Ha. unfold credit, bump_student, bump_answer. simpl.
    rewrite Ha. unfold ensure_student_exists. rewrite Hnone. simpl.
    by rewrite alter_insert_eq.
Qed.

(** ** The loops of the scoring actions *)

Lemma credit_frame (change : float) (now : Z) (db : DB) (a : Answer) :
  questions (credit change now db a) = questions db /\
  seeds (credit change now db a) = seeds db /\
  answers (credit change now db a)
  = (fun r => if decide (answer_id r = answer_id a)
              then add_score_change change r else r) <$> answers db.
Proof.
  unfold credit, bump_answer, bump_student. simpl.
  destruct (ensure_student_exists_frame (answer_sid a) now db) as (-> & -> & ->).
  done.
Qed.

Lemma credit_students_other (change : float) (now : Z) (db : DB) (a : Answer)
    (sid : Z) :
  answer_sid a <> sid ->
  students (credit change now db a) !! sid = students db !! sid.
Proof.
  intros Hne. unfold credit, bump_answer, bump_student. simpl.
  rewrite lookup_alter_ne by done.
  by apply ensure_student_exists_other.
Qed.

Lemma credit_students_hit (change : float) (now : Z) (db : DB) (a : Answer) :
  exists s0,
    students (credit change now db a) !! answer_sid a = Some (add_score change s0) /\
    forall s, students db !! answer_sid a = Some s -> s0 = s.
Proof.
  exists (ensure_student_exists (answer_sid a) now db).1. split.
  - unfold credit, bump_answer, bump_student. simpl.
    rewrite lookup_alter_eq, ensure_student_exists_lookup. done.
  - intros s Hs. by rewrite (ensure_student_exists_present _ _ _ _ Hs).
Qed.

Lemma foldl_credit_frame (change : float) (now : Z) (l : list Answer) (db : DB) :
  questions (foldl (credit change now) db l) = questions db /\
  seeds (foldl (credit change now) db l) = seeds db.
Proof.
  revert db. induction l as [|a l IH]; intros db; simpl; [done|].
  destruct (IH (credit change now db a)) as [-> ->].
  destruct (credit_frame change now db a) as (-> & -> & _). done.
Qed.

Lemma foldl_credit_students_other (change : float) (now : Z) (l : list Answer)
    (db : DB) (sid : Z) :
  (forall a, a ∈ l -> answer_sid a <> sid) ->
  students (foldl (credit change now) db l) !! sid = students db !! sid.
Proof.
  revert db. induction l as [|a l IH]; intros db Hall; simpl; [done|].
  rewrite IH by (intros a' Ha'; apply Hall; by constructor).
  apply credit_students_other, Hall. constructor.
Qed.

Lemma foldl_credit_students_hit (change : float) (now : Z) (l : list Answer)
    (db : DB) (a : Answer) :
  NoDup (answer_sid <$> l) -> a ∈ l ->
  exists s0,
    students (foldl (credit change now) db l) !! answer_sid a
    = Some (add_score change s0) /\
    forall s, students db !! answer_sid a = Some s -> s0 = s.
Proof.
  revert db. induction l as [|a0 l IH]; intros db Hnd Ha.
  - by apply elem_of_nil in Ha.
  - rewrite fmap_cons in Hnd. apply NoDup_cons in Hnd as [Hfresh Hnd]. simpl.
    destruct (decide (answer_sid a0 = answer_sid a)) as [Heq|Hne].
    + rewrite foldl_credit_students_other.
      * rewrite <- Heq. apply credit_students_hit.
      * intros a' Ha' Hsid. apply Hfresh. rewrite Heq, <- Hsid.
        apply list_elem_of_fmap. eauto.
    + apply elem_of_cons in Ha as [->|Ha]; [done|].
      destruct (IH (credit change now db a0) Hnd Ha) as (s0 & Hs0 & Hold).
      exists s0. split; [done|]. intros s Hs. apply Hold.
      by rewrite credit_students_other.
Qed.

Lemma foldl_credit_answers (change : float) (now : Z) (l : list Answer) (db : DB) :
  NoDup (answer_id <$> l) ->
  answers (foldl (credit change now) db l)
  = (fun r => if decide (answer_id r ∈ answer_id <$> l)
              then add_score_change change r else r) <$> answers db.
Proof.
  revert db. induction l as [|a l IH]; intros db Hnd; simpl.
  - rewrite <- (list_fmap_id (answers db)) at 1. apply list_fmap_ext.
    by intros _ r _.
  - apply NoDup_cons in Hnd as [Hfresh Hnd]. rewrite (IH _ Hnd).
    destruct (credit_frame change now db a) as (_ & _ & ->).
    rewrite <- list_fmap_compose. apply list_fmap_ext. intros _ r _. simpl.
    destruct (decide (answer_id r = answer_id a)) as [Heq|Hne].
    + simpl. rewrite Heq. rewrite decide_False by done.
      rewrite decide_True by constructor. done.
    + destruct (decide (answer_id r ∈ answer_id <$> l)) as [Hin|Hout].
      * rewrite decide_True; [done|]. by constructor.
      * rewrite decide_False; [done|].
        intros Hin. apply elem_of_cons in Hin as [?|?]; done.
Qed.

Lemma uq_sids_NoDup (qid i : Z) (l : list Answer) :
  NoDup ((fun a => (answer_sid a, answer_question_id a)) <$> l) ->
  NoDup (answer_sid <$>
           filter (fun a => answer_question_id a = qid /\ answer_option_index a = i) l).
Proof.
  induction l as [|a l IH]; intros Hnd; [constructor|].
  rewrite fmap_cons in Hnd. apply NoDup_cons in Hnd as [Hfresh Hnd].
  rewrite filter_cons. destruct (decide _) as [[Hq Hi]|_]; [|by apply IH].
  rewrite fmap_cons. apply NoDup_cons. split; [|by apply IH].
  intros Hin. apply list_elem_of_fmap in Hin as (a' & Hsid & Ha').
  apply list_elem_of_filter in Ha' as [[Hq' _] Ha'].
  apply Hfresh. apply list_elem_of_fmap. exists a'. split; [|done]. congruence.
Qed.

Lemma deltas_added_fmap (change : float) (hit : Answer -> Prop)
    `{!forall a, Decision (hit a)} (l : list Answer) :
  deltas_added change hit l
    ((fun r => if decide (hit r) then add_score_change change r else r) <$> l).
Proof.
  unfold deltas_added. apply Forall2_fmap_r, Forall_Forall2_diag, Forall_forall.
  intros r _. simpl. destruct (decide (hit r)); split; reflexivity.
Qed.

(** Crediting the answers on an option one after the other gives every
    student with such an Answer the change, once. *)
Lemma foldl_credit_credited (change : float) (now : Z) (qid i : Z) (db : DB) :
  answer_pk db -> uq_answer_sid_question db ->
  credited change qid i db
    (foldl (credit change now) db (answers_on_option qid i db)).
Proof.
  intros Hpk Huq. unfold credited, answers_on_option.
  destruct (foldl_credit_frame change now
              (filter (fun a => answer_question_id a = qid
                                /\ answer_option_index a = i) (answers db)) db)
    as [Hqs Hseeds].
  split_and!; try done.
  - assert (answers
              (foldl (credit change now) db
                 (filter (fun a => answer_question_id a = qid
                                   /\ answer_option_index a = i) (answers db)))
            = (fun r => if decide (answer_question_id r = qid
                                   /\ answer_option_index r = i)
                        then add_score_change change r else r) <$> answers db)
      as ->; [|apply deltas_added_fmap].
    rewrite foldl_credit_answers.
    + apply list_fmap_ext. intros k r Hr.
      apply list_elem_of_lookup_2 in Hr.
      destruct (decide (answer_question_id r = qid /\ answer_option_index r = i))
        as [Hm|Hm].
      * rewrite decide_True; [done|]. apply list_elem_of_fmap.
        exists r. split; [done|]. by apply list_elem_of_filter.
      * rewrite decide_False; [done|]. intros Hin.
        apply list_elem_of_fmap in Hin as (r' & Hid & Hr').
        apply list_elem_of_filter in Hr' as [Hm' Hr'].
        by rewrite (NoDup_fmap_inj_on answer_id (answers db) r r' Hpk Hr Hr' Hid) in Hm.
    + apply (NoDup_fmap_2_strong answer_id).
      * intros x y Hx Hy Hid.
        apply list_elem_of_filter in Hx as [_ Hx].
        apply list_elem_of_filter in Hy as [_ Hy].
        by apply (NoDup_fmap_inj_on answer_id (answers db)).
      * apply NoDup_filter. by apply (NoDup_fmap_1 answer_id).
  - intros a Ha Hq Hi.
    destruct (foldl_credit_students_hit change now
                (filter (fun a => answer_question_id a = qid
                                  /\ answer_option_index a = i) (answers db))
                db a) as (s0 & Hs0 & Hold).
    + by apply uq_sids_NoDup.
    + by apply list_elem_of_filter.
    + exists (add_score change s0). split_and!; [done| |].
      * intros s Hs. by rewrite (Hold s Hs).
      * intros _. by exists (student_score s0).
  - intros sid Hnone. apply foldl_credit_students_other.
    intros a Ha. apply list_elem_of_filter in Ha as [[Hq Hi] Ha]. by apply Hnone.
Qed.

Lemma foldl_credit_random_const (prob change1 change2 change : float)
    (rnd : nat -> float) (now : Z) (l : list Answer) (db : DB) (k : nat) :
  (forall j, (if flt (rnd j) prob then change1 else change2) = change) ->
  foldl (credit_random prob change1 change2 rnd now) (db, k) l
  = (foldl (credit change now) db l, (k + length l)%nat).
Proof.
  intros Hconst. revert db k. induction l as [|a l IH]; intros db k; simpl.
  - f_equal. lia.
  - rewrite Hconst, IH. f_equal. lia.
Qed.

(** C5: the action C on a valid option, with draws of [0.0, 1.0).  When
    the clamped probability is 0 the store it leaves is the one the loop
    leaves that adds [change2] for every Answer on the option, whatever the
    draws; under the constraints of [Answer] the delta of every such
    Answer is then its old delta plus [change2], the score of its student
    is the score they had plus [change2], and no other Answer or student
    has moved.  When it is 1 the same holds with [change1]. *)
Theorem score_actions_boundary_probability (form : gmap string string)
    (rnd : nat -> float) (now : Z) (db : DB) (qid : Z) (q : Question)
    (option_index : Z) :
  (forall k, unit_draw (rnd k)) ->
  str_isdigit (str_strip (form_get form "question_id" "")) = true ->
  int_of_str (str_strip (form_get form "question_id" "")) = Some qid ->
  get_question qid db = Some q ->
  str_strip (form_get form "action_type" "") = "C" ->
  form_int form "option_index" = Some option_index ->
  1 <= option_index <= Z.of_nat (length (question_options q)) ->
  let prob := clamp01 (fdiv (parse_float form "prob_percent") f100) in
  let change1 := parse_float form "change1" in
  let change2 := parse_float form "change2" in
  let db' := (score_actions form rnd now db).2 in
  (prob = f0 ->
   db' = foldl (credit change2 now) db
           (answers_on_option (question_id q) option_index db) /\
   (answer_pk db -> uq_answer_sid_question db ->
    credited change2 (question_id q) option_index db db')) /\
  (prob = f1 ->
   db' = foldl (credit change1 now) db
           (answers_on_option (question_id q) option_index db) /\
   (answer_pk db -> uq_answer_sid_question db ->
    credited change1 (question_id q) option_index db db')).
Proof.
  intros Hrnd Hdigit Hint Hq Hact Hoi Hrange prob change1 change2 db'.
  assert (forall change,
            (forall j, (if flt (rnd j) prob then change1 else change2) = change) ->
            db' = foldl (credit change now) db
                    (answers_on_option (question_id q) option_index db)) as Hloop.
  { intros change Hconst. unfold db', score_actions.
    rewrite Hdigit, Hint. simpl. rewrite Hq, Hact. simpl. rewrite Hoi.
    replace ((option_index <? 1)
             || (option_index >? Z.of_nat (length (question_options q))))
      with false by lia.
    simpl. fold prob change1 change2.
    by rewrite (foldl_credit_random_const prob change1 change2 change). }
  split; intros Hprob.
  - assert (db' = foldl (credit change2 now) db
                    (answers_on_option (question_id q) option_index db)) as Hdb'.
    { apply Hloop. intros j. rewrite Hprob.
      destruct (Hrnd j) as [-> _]. done. }
    split; [done|]. intros Hpk Huq. rewrite Hdb'. by apply foldl_credit_credited.
  - assert (db' = foldl (credit change1 now) db
                    (answers_on_option (question_id q) option_index db)) as Hdb'.
    { apply Hloop. intros j. rewrite Hprob.
      destruct (Hrnd j) as [_ ->]. done. }
    split; [done|]. intros Hpk Huq. rewrite Hdb'. by apply foldl_credit_credited.
Qed.

(** ** What every store the handlers build satisfies *)

Lemma well_formed_same_tables (db db' : DB) :
  seeds db' = seeds db -> questions db' = questions db ->
  answers db' = answers db ->
  well_formed db -> well_formed db'.
Proof.
  intros Hs Hq Ha [Hpk Huq Hqpk Hseeds Hopts].
  split; unfold answer_pk, uq_answer_sid_question, question_pk in *;
    rewrite ?Hs, ?Hq, ?Ha; done.
Qed.

Lemma well_formed_same_keys (db db' : DB) :
  seeds db' = seeds db -> questions db' = questions db ->
  answer_id <$> answers db' = answer_id <$> answers db ->
  (fun a => (answer_sid a, answer_question_id a)) <$> answers db'
  = (fun a => (answer_sid a, answer_question_id a)) <$> answers db ->
  well_formed db -> well_formed db'.
Proof.
  intros Hs Hq Hid Hpair [Hpk Huq Hqpk Hseeds Hopts].
  split; unfold answer_pk, uq_answer_sid_question, question_pk in *;
    rewrite ?Hs, ?Hq, ?Hid, ?Hpair; done.
Qed.

Lemma well_formed_sublist (db db' : DB) :
  ledger_only db db' -> well_formed db -> well_formed db'.
Proof.
  intros (_ & Hq & Hs & Hsub) [Hpk Huq Hqpk Hseeds Hopts].
  split; unfold answer_pk, uq_answer_sid_question, question_pk in *;
    rewrite ?Hs, ?Hq; try done.
  - eapply sublist_NoDup; [exact Hpk|]. by apply fmap_sublist.
  - eapply sublist_NoDup; [exact Huq|]. by apply fmap_sublist.
Qed.

Lemma seed_step_range (existing : gmap Z Z) (randint : nat -> Z)
    (l : list Z) (sd : gmap Z Z) (k : nat) :
  (forall j, 0 <= randint j <= 89) ->
  (forall sid r, sd !! sid = Some r -> 0 <= r <= 89) ->
  forall sid r,
    (foldl (seed_step existing randint) (sd, k) l).1 !! sid = Some r ->
    0 <= r <= 89.
Proof.
  intros Hrand. revert sd k. induction l as [|x l IH]; intros sd k Hsd; simpl.
  - exact Hsd.
  - destruct (existing !! x); [by apply IH|].
    apply IH. intros sid r. rewrite lookup_insert.
    destruct (decide (x = sid)); [intros [= <-]; apply Hrand|apply Hsd].
Qed.

Lemma ensure_seeds_well_formed (randint : nat -> Z) (db : DB) :
  (forall k, 0 <= randint k <= 89) ->
  well_formed db -> well_formed (ensure_seeds randint db).
Proof.
  intros Hrand [Hpk Huq Hqpk Hseeds Hopts].
  split; [exact Hpk|exact Huq|exact Hqpk| |exact Hopts].
  intros sid r. unfold ensure_seeds, set_seeds.
  change (seeds {| seeds := ?sd; students := _; questions := _; answers := _ |})
    with sd.
  by apply seed_step_range.
Qed.

Lemma submit_code_well_formed (code_field : string) (now : Z) (db : DB) :
  well_formed db -> well_formed (submit_code code_field now db).2.
Proof.
  intros Hwf. unfold submit_code.
  destruct (get_active_question db) as [q|]; [|done].
  destruct (question_settled_at q); [done|]. cbv zeta.
  destruct (negb _); [done|].
  destruct (int_of_str _) as [code_int|]; [|done].
  destruct (decode_code code_int q db) as [e|[sid option_index]]; [done|].
  destruct (ensure_student_exists_frame sid now db) as (Hans & Hqs & Hseeds).
  set (dbE := (ensure_student_exists sid now db).2) in *.
  assert (well_formed dbE) as [Hpk Huq Hqpk Hsd Hopts]
    by (by apply (well_formed_same_tables db)).
  destruct (answer_of (question_id q) sid dbE) eqn:Hnone; simpl; [done|].
  apply answer_of_None in Hnone.
  split; try done; unfold answer_pk, uq_answer_sid_question in *; simpl.
  - rewrite fmap_app. apply NoDup_app. split_and!; [done| |apply NoDup_singleton].
    intros x Hx Hnew. apply list_elem_of_singleton in Hnew. subst x.
    by apply next_id_fresh in Hx.
  - rewrite fmap_app. apply NoDup_app. split_and!; [done| |apply NoDup_singleton].
    intros x Hx Hnew. apply list_elem_of_singleton in Hnew. subst x.
    apply list_elem_of_fmap in Hx as (a & [= Hsid Hqid] & Ha).
    assert (a ∈ rows_of (question_id q) sid dbE) as Hin
      by (by apply list_elem_of_filter).
    rewrite Hnone in Hin. by apply elem_of_nil in Hin.
Qed.

Lemma update_question_well_formed (qid : Z) (f : Question -> Question) (db : DB) :
  (forall r, question_id (f r) = question_id r) ->
  (forall r, r ∈ questions db -> question_id r = qid ->
     (1 <= length (question_options (f r)) <= 10)%nat) ->
  well_formed db -> well_formed (update_question qid f db).
Proof.
  intros Hid Hopt [Hpk Huq Hqpk Hsd Hopts]. split; try done.
  - unfold question_pk, update_question in *. simpl.
    rewrite <- list_fmap_compose.
    erewrite list_fmap_ext; [exact Hqpk|]. intros _ r _. simpl.
    by destruct (decide _).
  - intros q' Hq'. apply update_question_elem_of in Hq' as (r & Hr & ->).
    destruct (decide _); [by apply Hopt|by apply Hopts].
Qed.

Lemma get_question_Some (qid : Z) (db : DB) (q : Question) :
  get_question qid db = Some q -> q ∈ questions db /\ question_id q = qid.
Proof.
  unfold get_question. intros Hq. apply head_Some_elem_of in Hq.
  by apply list_elem_of_filter in Hq as [? ?].
Qed.

Lemma edit_options_well_formed (qid : Z) (form : gmap string string) (db : DB) :
  well_formed db -> well_formed (edit_options_for_question qid form db).2.
Proof.
  intros Hwf. unfold edit_options_for_question.
  destruct (get_question qid db) as [q|] eqn:Hq; [|done].
  apply get_question_Some in Hq as [Hin _]. cbv zeta.
  destruct (_ <? 1); [done|]. destruct (_ <? _); [done|].
  destruct (_ >? _); [done|].
  assert (well_formed
            (update_question (question_id q)
               (set_options (new_options form (question_options q))) db)).
  { apply update_question_well_formed; [done| |done].
    intros r _ _. simpl.
    pose proof (wf_options db Hwf q Hin).
    destruct (new_options_length form (question_options q)). lia. }
  by destruct (decide _).
Qed.

Lemma settle_question_well_formed (now : Z) (db : DB) :
  well_formed db -> well_formed (settle_question now db).2.
Proof.
  intros Hwf. unfold settle_question.
  destruct (get_active_question db) as [q|]; [|done]. simpl.
  apply update_question_well_formed; [done| |done].
  intros r Hr _. simpl. by apply (wf_options db Hwf).
Qed.

(** The keys of the ledger: what the constraints of [Answer] read. *)
Lemma bump_rows_keys (id : Z) (change : float) (l : list Answer) :
  answer_id <$>
    ((fun r => if decide (answer_id r = id) then add_score_change change r else r)
       <$> l)
  = answer_id <$> l /\
  (fun a => (answer_sid a, answer_question_id a)) <$>
    ((fun r => if decide (answer_id r = id) then add_score_change change r else r)
       <$> l)
  = (fun a => (answer_sid a, answer_question_id a)) <$> l.
Proof.
  split; rewrite <- list_fmap_compose; apply list_fmap_ext; intros _ r _; simpl;
    by destruct (decide _).
Qed.

Lemma credit_well_formed (change : float) (now : Z) (db : DB) (a : Answer) :
  well_formed db -> well_formed (credit change now db a).
Proof.
  destruct (credit_frame change now db a) as (Hq & Hs & Ha).
  destruct (bump_rows_keys (answer_id a) change (answers db)) as [Hid Hpair].
  apply well_formed_same_keys; [done|done| |]; by rewrite Ha.
Qed.

Lemma foldl_credit_well_formed (change : float) (now : Z) (l : list Answer)
    (db : DB) :
  well_formed db -> well_formed (foldl (credit change now) db l).
Proof.
  revert db. induction l as [|a l IH]; intros db Hwf; simpl; [done|].
  by apply IH, credit_well_formed.
Qed.

Lemma foldl_credit_random_well_formed (prob change1 change2 : float)
    (rnd : nat -> float) (now : Z) (l : list Answer) (db : DB) (k : nat) :
  well_formed db ->
  well_formed (foldl (credit_random prob change1 change2 rnd now) (db, k) l).1.
Proof.
  revert db k. induction l as [|a l IH]; intros db k Hwf; simpl; [done|].
  by apply IH, credit_well_formed.
Qed.

Lemma bump_student_well_formed (sid : Z) (change : float) (db : DB) :
  well_formed db -> well_formed (bump_student sid change db).
Proof. by apply well_formed_same_tables. Qed.

Lemma bump_answer_well_formed (id : Z) (change : float) (db : DB) :
  well_formed db -> well_formed (bump_answer id change db).
Proof.
  destruct (bump_rows_keys id change (answers db)) as [Hid Hpair].
  by apply well_formed_same_keys.
Qed.

Lemma ensure_student_exists_well_formed (sid now : Z) (db : DB) :
  well_formed db -> well_formed (ensure_student_exists sid now db).2.
Proof.
  destruct (ensure_student_exists_frame sid now db) as (Ha & Hq & Hs).
  by apply well_formed_same_tables.
Qed.

Lemma score_actions_well_formed (form : gmap string string) (rnd : nat -> float)
    (now : Z) (db : DB) :
  well_formed db -> well_formed (score_actions form rnd now db).2.
Proof.
  intros Hwf. unfold score_actions. cbv zeta.
  destruct (negb _); [done|].
  destruct (int_of_str _) as [qid|]; [|done].
  destruct (get_question qid db) as [q|]; [|done].
  destruct (decide (_ = "A")).
  { destruct (form_int form "option_index") as [option_index|]; [|done].
    destruct (_ || _); [done|]. by apply foldl_credit_well_formed. }
  destruct (decide (_ = "B")).
  { destruct (form_int form "sid") as [sid|]; [|done].
    destruct (_ || _); [done|]. simpl.
    assert (well_formed
              (bump_student sid (parse_float form "change")
                 (ensure_student_exists sid now db).2)) as Hwf2
      by (by apply bump_student_well_formed, ensure_student_exists_well_formed).
    destruct (answer_of _ _ _); [|done]. by apply bump_answer_well_formed. }
  destruct (decide (_ = "C")); [|done].
  destruct (form_int form "option_index") as [option_index|]; [|done].
  destruct (_ || _); [done|]. by apply foldl_credit_random_well_formed.
Qed.

Lemma load_presets_options (data : list PresetItem) (preset : Preset) :
  preset ∈ load_presets data ->
  (1 <= length (preset_options preset) <= 10)%nat.
Proof.
  unfold load_presets. intros Hin.
  apply list_elem_of_omap in Hin as (item & _ & Hitem).
  destruct item as [|id content [options|]]; try done.
  destruct (decide _); [done|]. destruct (decide _); [done|].
  destruct (length options <? 1)%nat eqn:Hlen; [done|].
  injection Hitem as <-. simpl. rewrite length_take.
  apply Nat.ltb_ge in Hlen. lia.
Qed.

Lemma start_preset_well_formed (form : gmap string string)
    (data : list PresetItem) (now : Z) (db : DB) :
  well_formed db -> well_formed (start_preset form (load_presets data) now db).2.
Proof.
  intros Hwf. unfold start_preset. cbv zeta.
  destruct (head _) as [preset|] eqn:Hpreset; [|done].
  apply head_Some_elem_of, list_elem_of_filter in Hpreset as [_ Hpreset].
  apply load_presets_options in Hpreset.
  destruct Hwf as [Hpk Huq Hqpk Hsd Hopts].
  split; try done.
  - unfold question_pk in *. simpl. rewrite fmap_app, <- list_fmap_compose.
    erewrite (list_fmap_ext _ question_id);
      [|intros _ r _; simpl; by destruct (question_is_active r)].
    apply NoDup_app. split_and!; [done| |apply NoDup_singleton].
    intros x Hx Hnew. apply list_elem_of_singleton in Hnew. subst x.
    by apply next_id_fresh in Hx.
  - intros q' Hq'. simpl in Hq'. apply elem_of_app in Hq' as [Hq'|Hq'].
    + apply list_elem_of_fmap in Hq' as (r & -> & Hr).
      specialize (Hopts r Hr). by destruct (question_is_active r).
    + apply list_elem_of_singleton in Hq'. by subst q'.
Qed.

Lemma step_well_formed (db db' : DB) :
  step db db' -> well_formed db -> well_formed db'.
Proof.
  intros Hstep Hwf. destruct Hstep.
  - by apply ensure_seeds_well_formed.
  - by apply submit_code_well_formed.
  - eapply well_formed_sublist; [apply delete_submission_ledger|done].
  - eapply well_formed_sublist; [apply delete_submission_for_question_ledger|done].
  - by apply edit_options_well_formed.
  - by apply settle_question_well_formed.
  - by apply score_actions_well_formed.
  - by apply start_preset_well_formed.
Qed.

(** Every store the handlers build from the empty one keeps the primary
    keys, [uq_answer_sid_question], the offsets within 0..89 and the option
    lists within one to ten entries. *)
Lemma reachable_well_formed (db : DB) : reachable db -> well_formed db.
Proof.
  induction 1 as [|db db' _ IH Hstep].
  - split; try apply NoDup_nil_2.
    + intros sid r Hr. unfold empty_db in Hr. simpl in Hr.
      by rewrite lookup_empty in Hr.
    + intros q Hq. by apply elem_of_nil in Hq.
  - by apply (step_well_formed db).
Qed.

(** ** Seeds *)

Lemma seed_step_keeps (existing : gmap Z Z) (randint : nat -> Z)
    (l : list Z) (sd : gmap Z Z) (k : nat) (sid r : Z) :
  existing !! sid = Some r -> sd !! sid = Some r ->
  (foldl (seed_step existing randint) (sd, k) l).1 !! sid = Some r.
Proof.
  intros Hex. revert sd k. induction l as [|x l IH]; intros sd k Hsd; [done|].
  cbn [foldl]. unfold seed_step at 2.
  destruct (existing !! x) eqn:Hx; [by apply IH|].
  apply IH. rewrite lookup_insert_ne; [done|]. congruence.
Qed.

Lemma seed_step_is_Some (existing : gmap Z Z) (randint : nat -> Z)
    (l : list Z) (sd : gmap Z Z) (k : nat) (sid : Z) :
  is_Some (sd !! sid) ->
  is_Some ((foldl (seed_step existing randint) (sd, k) l).1 !! sid).
Proof.
  revert sd k. induction l as [|x l IH]; intros sd k Hsd; [done|].
  cbn [foldl]. unfold seed_step at 2.
  destruct (existing !! x) eqn:Hx; [by apply IH|].
  apply IH. rewrite lookup_insert. by destruct (decide (x = sid)).
Qed.

Lemma seed_step_covers (existing : gmap Z Z) (randint : nat -> Z)
    (l : list Z) (sd : gmap Z Z) (k : nat) (sid : Z) :
  (forall x r, existing !! x = Some r -> sd !! x = Some r) ->
  sid ∈ l ->
  is_Some ((foldl (seed_step existing randint) (sd, k) l).1 !! sid).
Proof.
  revert sd k. induction l as [|x l IH]; intros sd k Hsub Hin.
  - by apply elem_of_nil in Hin.
  - cbn [foldl]. unfold seed_step at 2.
    apply elem_of_cons in Hin as [->|Hin].
    + destruct (existing !! x) as [r|] eqn:Hx.
      * apply seed_step_is_Some. rewrite (Hsub x r Hx). eauto.
      * apply seed_step_is_Some. rewrite lookup_insert_eq. eauto.
    + destruct (existing !! x) as [r|] eqn:Hx; [by apply IH|].
      apply IH; [|done]. intros y r Hy.
      rewrite lookup_insert_ne; [by apply Hsub|]. congruence.
Qed.

(** [ensure_seeds] gives every student of the roster an offset and leaves
    the offsets there are as they are. *)
Lemma ensure_seeds_roster (randint : nat -> Z) (db : DB) :
  (forall sid, MIN_SID <= sid <= MAX_SID ->
     is_Some (seeds (ensure_seeds randint db) !! sid)) /\
  (forall sid r, seeds db !! sid = Some r ->
     seeds (ensure_seeds randint db) !! sid = Some r).
Proof.
  unfold ensure_seeds, set_seeds.
  change (seeds {| seeds := ?sd; students := _; questions := _; answers := _ |})
    with sd.
  split.
  - intros sid Hsid. apply seed_step_covers; [done|].
    unfold roster. apply elem_of_seqZ. unfold MIN_SID, MAX_SID in *. lia.
  - intros sid r Hr. by apply seed_step_keeps.
Qed.

(** On a store the handlers have built, the cipher of a seeded student of
    the roster for an option of one of its questions decodes back. *)
Lemma decode_code_of_cipher_reachable (db : DB) (question : Question)
    (sid r option_index : Z) :
  reachable db -> question ∈ questions db ->
  MIN_SID <= sid <= MAX_SID ->
  seeds db !! sid = Some r ->
  1 <= option_index <= Z.of_nat (length (question_options question)) ->
  decode_code (sid * 100 + r + option_index) question db = inr (sid, option_index).
Proof.
  intros Hreach Hq Hsid Hseed Hi.
  apply reachable_well_formed in Hreach as [_ _ _ Hsd Hopts].
  specialize (Hsd sid r Hseed). specialize (Hopts question Hq).
  apply decode_code_of_sum; try done; lia.
Qed.

End Proofs.

(** * The theorems at work on the scenario *)

Lemma decode_code_of_cipher_witness :
  decode_code (H := ZRuntime) (2 * 100 + 10 + 3) scenario_question scenario_db
  = inr (2, 3).
Proof.
  apply (decode_code_of_cipher (H := ZRuntime) scenario_db scenario_question 2 10 3).
  - unfold MIN_SID, MAX_SID. lia.
  - reflexivity.
  - lia.
  - simpl. lia.
  - simpl. lia.
Defined.

Lemma submit_code_duplicate_witness :
  (submit_code (H := ZRuntime) "213" 102 scenario_db_answered).1
  = SubmitRejected 409 (DuplicateSubmission 2) /\
  answers (submit_code (H := ZRuntime) "213" 102 scenario_db_answered).2
  = answers scenario_db_answered /\
  length (rows_of 1 2 (submit_code (H := ZRuntime) "213" 102 scenario_db_answered).2)
  = 1%nat.
Proof.
  destruct (submit_code_duplicate (H := ZRuntime) "213" 102 scenario_db_answered)
    as [Hdup _].
  destruct (Hdup scenario_question 213 2 3) as (Hreply & Hanswers & Hone).
  - reflexivity.
  - reflexivity.
  - reflexivity.
  - reflexivity.
  - reflexivity.
  - vm_compute. eauto.
  - split_and!; [exact Hreply|exact Hanswers|].
    apply Hone. unfold uq_answer_sid_question. vm_compute.
    apply NoDup_singleton.
Defined.

Lemma start_preset_one_active_witness :
  exists q,
    filter (fun r => question_is_active r = true)
      (questions
         (start_preset (H := ZRuntime) {["preset_id" := "p2"]}
            [ {| preset_ident := "p2"; preset_content := "Next?";
                 preset_options := ["x"; "y"] |} ]
            200 scenario_db_answered).2)
    = [q].
Proof.
  destruct (start_preset_one_active (H := ZRuntime) {["preset_id" := "p2"]}
              [ {| preset_ident := "p2"; preset_content := "Next?";
                   preset_options := ["x"; "y"] |} ]
              200 scenario_db_answered "p2"
              (start_preset (H := ZRuntime) {["preset_id" := "p2"]}
                 [ {| preset_ident := "p2"; preset_content := "Next?";
                      preset_options := ["x"; "y"] |} ]
                 200 scenario_db_answered).2)
    as (q & _ & Hone & _).
  - reflexivity.
  - exists q. exact Hone.
Defined.

Lemma decode_code_range_errors_witness :
  decode_code (H := ZRuntime) 6513 scenario_question scenario_db
  = inl SidOutOfRange /\
  decode_code (H := ZRuntime) 200 scenario_question scenario_db
  = inl SuffixOutOfRange /\
  submit_code (H := ZRuntime) "299" 101 scenario_db
  = (SubmitRejected 400 (DecodeFailed OptionIndexOutOfRange), scenario_db).
Proof.
  split; [|split].
  - apply (decode_code_range_errors (H := ZRuntime) scenario_db scenario_question 6513).
    unfold MIN_SID, MAX_SID. vm_compute. intros [_ Hle]. apply Hle. reflexivity.
  - apply (decode_code_range_errors (H := ZRuntime) scenario_db scenario_question 200).
    + unfold MIN_SID, MAX_SID. vm_compute. split; discriminate.
    + vm_compute. intros [Hle _]. apply Hle. reflexivity.
  - apply (decode_code_range_errors (H := ZRuntime) scenario_db scenario_question 299);
      reflexivity.
Defined.

Lemma scenario_db_answered_keys :
  answer_pk scenario_db_answered /\ uq_answer_sid_question scenario_db_answered.
Proof.
  unfold answer_pk, uq_answer_sid_question.
  split; vm_compute; apply NoDup_singleton.
Qed.

Lemma scenario_db_credited_keys :
  answer_pk scenario_db_credited /\ uq_answer_sid_question scenario_db_credited.
Proof.
  unfold answer_pk, uq_answer_sid_question.
  split; vm_compute; apply NoDup_singleton.
Qed.

Lemma scenario_db_credited_row :
  answers scenario_db_credited !! 0%nat = Some scenario_answer_credited /\
  students scenario_db_credited !! 2 = Some (student_of 2 101).
Proof. split; reflexivity. Qed.

Lemma score_actions_boundary_probability_witness :
  (exists s r,
     students (score_actions (H := ZRuntime) (scenario_random_form "0")
                 (fun _ => 0) 104 scenario_db_credited).2 !! 2 = Some s /\
     student_score s = 4 /\
     answers (score_actions (H := ZRuntime) (scenario_random_form "0")
                (fun _ => 0) 104 scenario_db_credited).2 !! 0%nat = Some r /\
     answer_score_change r = 4) /\
  (exists s r,
     students (score_actions (H := ZRuntime) (scenario_random_form "100")
                 (fun _ => 0) 104 scenario_db_credited).2 !! 2 = Some s /\
     student_score s = 7 /\
     answers (score_actions (H := ZRuntime) (scenario_random_form "100")
                (fun _ => 0) 104 scenario_db_credited).2 !! 0%nat = Some r /\
     answer_score_change r = 7).
Proof.
  destruct scenario_db_credited_keys as [Hpk Huq].
  destruct scenario_db_credited_row as [Hrow Hstudent].
  split.
  - destruct (score_actions_boundary_probability (H := ZRuntime)
                (scenario_random_form "0") (fun _ => 0) 104 scenario_db_credited
                1 scenario_question 3) as [Hzero _].
    + intros _. split; reflexivity.
    + reflexivity.
    + reflexivity.
    + reflexivity.
    + reflexivity.
    + reflexivity.
    + simpl. lia.
    + destruct (Hzero eq_refl) as [_ Hcredited].
      destruct (Hcredited Hpk Huq) as (Hrows & Hhit & _).
      destruct (Forall2_lookup_l _ _ _ 0%nat scenario_answer_credited Hrows Hrow)
        as (r & Hr & _ & Hdelta).
      rewrite decide_True in Hdelta by (split; reflexivity).
      destruct (Hhit scenario_answer_credited) as (s & Hs & Hold & _).
      * apply (list_elem_of_lookup_2 _ 0%nat), Hrow.
      * reflexivity.
      * reflexivity.
      * destruct (Hold (student_of 2 101) Hstudent) as [Hscore _].
        exists s, r. split; [exact Hs|]. split; [exact Hscore|].
        split; [exact Hr|exact Hdelta].
  - destruct (score_actions_boundary_probability (H := ZRuntime)
                (scenario_random_form "100") (fun _ => 0) 104 scenario_db_credited
                1 scenario_question 3) as [_ Hone].
    + intros _. split; reflexivity.
    + reflexivity.
    + reflexivity.
    + reflexivity.
    + reflexivity.
    + reflexivity.
    + simpl. lia.
    + destruct (Hone eq_refl) as [_ Hcredited].
      destruct (Hcredited Hpk Huq) as (Hrows & Hhit & _).
      destruct (Forall2_lookup_l _ _ _ 0%nat scenario_answer_credited Hrows Hrow)
        as (r & Hr & _ & Hdelta).
      rewrite decide_True in Hdelta by (split; reflexivity).
      destruct (Hhit scenario_answer_credited) as (s & Hs & Hold & _).
      * apply (list_elem_of_lookup_2 _ 0%nat), Hrow.
      * reflexivity.
      * reflexivity.
      * destruct (Hold (student_of 2 101) Hstudent) as [Hscore _].
        exists s, r. split; [exact Hs|]. split; [exact Hscore|].
        split; [exact Hr|exact Hdelta].
Defined.

Lemma ZRuntime_order : FloatOrder (H := ZRuntime).
Proof. split; simpl; intros; lia. Qed.

Lemma ensure_student_exists_initial_score_witness :
  students scored_db !! 2 = None /\
  student_score (ensure_student_exists (H := ZRuntime) 2 7 scored_db).1 = 2 /\
  students (ensure_student_exists (H := ZRuntime) 2 7 scored_db).2
  = <[2 := student_of 2 7]> (students scored_db).
Proof.
  destruct (ensure_student_exists_initial_score (H := ZRuntime) ZRuntime_order
              2 7 scored_db) as (Hrow & Hscore & _).
  - reflexivity.
  - split_and!; [reflexivity|exact Hscore|exact Hrow].
Defined.

Lemma edit_options_shrink_rejected_witness :
  edit_options_for_question (H := ZRuntime) 1 ∅ overhang_db
  = (Redirect (Some FlashOptionsAbnormal) OperatorPage, overhang_db)
  \/ edit_options_for_question (H := ZRuntime) 1 ∅ overhang_db
     = (Redirect (Some (FlashBelowMaxUsed 3)) OperatorPage, overhang_db).
Proof.
  destruct (edit_options_shrink_rejected (H := ZRuntime) 1 ∅ overhang_db
              overhang_question) as [Hreply _].
  - reflexivity.
  - right. vm_compute. reflexivity.
  - exact Hreply.
Defined.

Lemma delete_submission_ledger_only_witness :
  students (delete_submission (H := ZRuntime) {["sid" := "2"]} scenario_db_answered).2
  = students scenario_db_answered /\
  answers (delete_submission (H := ZRuntime) {["sid" := "2"]} scenario_db_answered).2
  = [].
Proof.
  destruct (delete_submission_ledger_only (H := ZRuntime) 1 {["sid" := "2"]}
              scenario_db_answered) as (_ & (Hstudents & _) & Hrows).
  split; [exact Hstudents|].
  destruct (Hrows scenario_question 2 scenario_answer) as [_ Hactive].
  - unfold answer_pk. vm_compute. apply NoDup_singleton.
  - reflexivity.
  - reflexivity.
  - reflexivity.
  - reflexivity.
Defined.

Lemma score_actions_invalid_target_witness :
  score_actions (H := ZRuntime)
    (list_to_map [("question_id", "1"); ("action_type", "A"); ("option_index", "4")])
    (fun _ => 0) 103 scenario_db_answered
  = (Redirect (Some FlashInvalidOption) OperatorPage, scenario_db_answered).
Proof.
  destruct (score_actions_invalid_target (H := ZRuntime)
              (list_to_map
                 [("question_id", "1"); ("action_type", "A"); ("option_index", "4")])
              (fun _ => 0) 103 scenario_db_answered) as (_ & _ & Hoption & _).
  apply (Hoption 1 scenario_question "A" 4); try reflexivity.
  - by left.
  - simpl. lia.
Defined.

Lemma settle_question_always_settles_witness :
  settle_question (H := ZRuntime) 300 (settle_question (H := ZRuntime) 200 scenario_db).2
  = (Redirect None (ResultsPage 1),
     update_question 1 (set_settled_at (Some 300))
       (settle_question (H := ZRuntime) 200 scenario_db).2).
Proof.
  destruct (settle_question_always_settles (H := ZRuntime) 300
              (settle_question (H := ZRuntime) 200 scenario_db).2) as [_ Hsettle].
  destruct Hsettle as (q & Hq & _ & _ & Hreply & _).
  - exists (set_settled_at (Some 200) scenario_question). split; [|reflexivity].
    vm_compute. apply list_elem_of_singleton. reflexivity.
  - injection Hq as <-. exact Hreply.
Defined.

(** * More of the program *)

Section Coverage.
Context `{PyRuntime}.
#[local] Existing Instance ranks_before_dec.
#[local] Existing Instance recent_first_dec.

(** ** [decode_code], both ways *)

Lemma decode_code_inr_inv (db : DB) (question : Question) (code_int sid option_index : Z) :
  decode_code code_int question db = inr (sid, option_index) ->
  MIN_SID <= sid <= MAX_SID /\
  1 <= option_index <= Z.of_nat (length (question_options question)) /\
  exists r,
    seeds db !! sid = Some r /\
    1 <= r + option_index <= 99 /\
    code_int = sid * 100 + r + option_index.
Proof.
  unfold decode_code, MIN_SID, MAX_SID.
  destruct ((code_int / 100 <? 1) || (code_int / 100 >? 64)) eqn:Hsid; [done|].
  destruct ((code_int mod 100 <? 1) || (code_int mod 100 >? 99)) eqn:Hb; [done|].
  destruct (seeds db !! (code_int / 100)) as [r|] eqn:Hseed; [|done]. cbv zeta.
  destruct ((code_int mod 100 - r <? 1) || _) eqn:Hi; [done|].
  intros [= <- <-]. split_and!; try lia.
  exists r. split_and!; try done; try lia.
  pose proof (Z.div_mod code_int 100). lia.
Qed.

(** X1: [decode_code] returns [(sid, option_index)] exactly on the cipher
    [sid*100 + r + option_index] of a student of the roster with offset
    [r], for an option of the question, when the low part
    [r + option_index] is within 1..99. *)
Theorem decode_code_inr_iff (db : DB) (question : Question)
    (code_int sid option_index : Z) :
  decode_code code_int question db = inr (sid, option_index) <->
  MIN_SID <= sid <= MAX_SID /\
  1 <= option_index <= Z.of_nat (length (question_options question)) /\
  exists r,
    seeds db !! sid = Some r /\
    1 <= r + option_index <= 99 /\
    code_int = sid * 100 + r + option_index.
Proof.
  split; [apply decode_code_inr_inv|].
  unfold MIN_SID, MAX_SID. intros (Hsid & Hi & r & Hseed & Hb & ->).
  assert ((sid * 100 + r + option_index) / 100 = sid) as Hdiv.
  { symmetry. apply (Z.div_unique _ _ _ (r + option_index)); lia. }
  assert ((sid * 100 + r + option_index) mod 100 = r + option_index) as Hmod.
  { symmetry. apply (Z.mod_unique _ _ sid); lia. }
  unfold decode_code. rewrite Hdiv, Hmod. unfold MIN_SID, MAX_SID.
  replace ((sid <? 1) || (sid >? 64)) with false by lia.
  replace ((r + option_index <? 1) || (r + option_index >? 99)) with false by lia.
  rewrite Hseed. cbv zeta.
  replace (r + option_index - r) with option_index by lia.
  replace ((option_index <? 1)
           || (option_index >? Z.of_nat (length (question_options question))))
    with false by lia.
  done.
Qed.

(** X2: which of its four errors [decode_code] raises: [SidOutOfRange]
    when the high part is outside the roster; else [SuffixOutOfRange] when
    the low part is 0; else [UnknownSeed] when the student has no offset;
    else [OptionIndexOutOfRange] when the low part less the offset is no
    option of the question. *)
Theorem decode_code_inl_iff (db : DB) (question : Question) (code_int : Z)
    (e : DecodeError) :
  let sid := code_int / 100 in
  let b := code_int mod 100 in
  decode_code code_int question db = inl e <->
  (e = SidOutOfRange /\ ~ (MIN_SID <= sid <= MAX_SID))
  \/ (e = SuffixOutOfRange /\ MIN_SID <= sid <= MAX_SID /\ b = 0)
  \/ (e = UnknownSeed /\ MIN_SID <= sid <= MAX_SID /\ b <> 0 /\
      seeds db !! sid = None)
  \/ (e = OptionIndexOutOfRange /\ MIN_SID <= sid <= MAX_SID /\ b <> 0 /\
      exists r, seeds db !! sid = Some r /\
                ~ (1 <= b - r <= Z.of_nat (length (question_options question)))).
Proof.
  cbv zeta. pose proof (Z.mod_pos_bound code_int 100 eq_refl) as Hmod.
  unfold decode_code, MIN_SID, MAX_SID.
  destruct ((code_int / 100 <? 1) || (code_int / 100 >? 64)) eqn:Hsid.
  { split; [intros [= <-]; left; split; [done|lia]|].
    intros [[-> _]|[(_ & ? & _)|[(_ & ? & _)|(_ & ? & _)]]]; [done|lia..]. }
  destruct ((code_int mod 100 <? 1) || (code_int mod 100 >? 99)) eqn:Hb.
  { split; [intros [= <-]; right; left; split_and!; [done|lia..]|].
    intros [[_ ?]|[[-> _]|[(_ & _ & ? & _)|(_ & _ & ? & _)]]]; [lia|done|lia..]. }
  destruct (seeds db !! (code_int / 100)) as [r|] eqn:Hseed.
  - cbv zeta. destruct ((code_int mod 100 - r <? 1) || _) eqn:Hi.
    + split.
      * intros [= <-]. do 3 right. split_and!; [done|lia..|].
        exists r. split; [done|lia].
      * intros [[_ ?]|[(_ & _ & ?)|[(_ & _ & _ & ?)|[-> _]]]]; [lia|lia|done|done].
    + split; [done|].
      intros [[_ ?]|[(_ & _ & ?)|[(_ & _ & _ & ?)|(_ & _ & _ & r' & [= <-] & ?)]]];
        [lia|lia|done|lia].
  - split.
    + intros [= <-]. right. right. left. split_and!; [done|lia..|done].
    + intros [[_ ?]|[(_ & _ & ?)|[[-> _]|(_ & _ & _ & r' & ? & _)]]];
        [lia|lia|done|done].
Qed.

(** X3: two ciphers that decode to the same student and option, on the same
    question and with the same seeds, are the same number. *)
Theorem decode_code_injective (db : DB) (question : Question)
    (code1 code2 sid option_index : Z) :
  decode_code code1 question db = inr (sid, option_index) ->
  decode_code code2 question db = inr (sid, option_index) ->
  code1 = code2.
Proof.
  intros H1 H2.
  apply decode_code_inr_inv in H1 as (_ & _ & r1 & Hr1 & _ & ->).
  apply decode_code_inr_inv in H2 as (_ & _ & r2 & Hr2 & _ & ->).
  congruence.
Qed.

(** ** [ensure_seeds] *)

Lemma seed_step_origin (existing : gmap Z Z) (randint : nat -> Z)
    (l : list Z) (sd : gmap Z Z) (k : nat) (sid r : Z) :
  (foldl (seed_step existing randint) (sd, k) l).1 !! sid = Some r ->
  sd !! sid = Some r \/ (sid ∈ l /\ exists j, r = randint j).
Proof.
  revert sd k. induction l as [|x l IH]; intros sd k; [by left|].
  cbn [foldl]. unfold seed_step at 2.
  destruct (existing !! x) eqn:Hx.
  - intros Hr. apply IH in Hr as [?|[? ?]]; [by left|right]. split; [|done].
    by constructor.
  - intros Hr. apply IH in Hr as [Hr|[? ?]].
    + rewrite lookup_insert in Hr. destruct (decide (x = sid)) as [->|_].
      * injection Hr as <-. right. split; [constructor|eauto].
      * by left.
    + right. split; [|done]. by constructor.
Qed.

Lemma seed_step_seeded (existing : gmap Z Z) (randint : nat -> Z)
    (l : list Z) (sd : gmap Z Z) (k : nat) :
  (forall x, x ∈ l -> is_Some (existing !! x)) ->
  foldl (seed_step existing randint) (sd, k) l = (sd, k).
Proof.
  induction l as [|x l IH]; intros Hall; [done|].
  cbn [foldl]. unfold seed_step at 2.
  destruct (Hall x) as [r ->]; [constructor|].
  apply IH. intros y Hy. apply Hall. by constructor.
Qed.

Lemma elem_of_roster (sid : Z) : sid ∈ roster <-> MIN_SID <= sid <= MAX_SID.
Proof. unfold roster, MIN_SID, MAX_SID. rewrite elem_of_seqZ. lia. Qed.

Lemma ensure_seeds_seeds (randint : nat -> Z) (db : DB) :
  seeds (ensure_seeds randint db)
  = (foldl (seed_step (seeds db) randint) (seeds db, 0%nat) roster).1.
Proof. reflexivity. Qed.

(** X4: [ensure_seeds] leaves every student of the roster with an offset;
    it keeps the offsets that were there, adds none for a student outside
    the roster, draws the new ones from [randint] (so within 0..89 when
    the draws are), and touches no other table. *)
Theorem ensure_seeds_complete (randint : nat -> Z) (db : DB) :
  (forall k, 0 <= randint k <= 89) ->
  (forall sid, MIN_SID <= sid <= MAX_SID ->
     is_Some (seeds (ensure_seeds randint db) !! sid)) /\
  (forall sid r, seeds db !! sid = Some r ->
     seeds (ensure_seeds randint db) !! sid = Some r) /\
  (forall sid r, seeds (ensure_seeds randint db) !! sid = Some r ->
     seeds db !! sid = Some r
     \/ (seeds db !! sid = None /\ MIN_SID <= sid <= MAX_SID /\ 0 <= r <= 89)) /\
  students (ensure_seeds randint db) = students db /\
  questions (ensure_seeds randint db) = questions db /\
  answers (ensure_seeds randint db) = answers db.
Proof.
  intros Hrand. rewrite ensure_seeds_seeds. split_and!; try reflexivity.
  - intros sid Hsid. apply seed_step_covers; [done|]. by apply elem_of_roster.
  - intros sid r Hr. by apply seed_step_keeps.
  - intros sid r Hr. destruct (seeds db !! sid) as [r0|] eqn:Hold.
    + left. f_equal.
      pose proof (seed_step_keeps (seeds db) randint roster (seeds db) 0 sid r0
                    Hold Hold) as Hkept.
      congruence.
    + right. apply seed_step_origin in Hr as [Hr|[Hin [j ->]]]; [congruence|].
      split; [done|]. split; [by apply elem_of_roster|apply Hrand].
Qed.

(** X5: once [ensure_seeds] has run, running it again changes nothing,
    whatever it would draw: no offset is drawn twice. *)
Theorem ensure_seeds_idempotent (randint randint' : nat -> Z) (db : DB) :
  ensure_seeds randint' (ensure_seeds randint db) = ensure_seeds randint db.
Proof.
  assert (forall db0 : DB,
            (forall x, x ∈ roster -> is_Some (seeds db0 !! x)) ->
            ensure_seeds randint' db0 = db0) as Hfix.
  { intros db0 Hall. unfold ensure_seeds. rewrite seed_step_seeded by done.
    by destruct db0. }
  apply Hfix. intros x Hx. rewrite ensure_seeds_seeds.
  by apply seed_step_covers.
Qed.

(** ** [get_active_question] *)

Lemma foldl_later_of_latest (qs : list Question) (best : option Question)
    (q : Question) :
  foldl later_of best qs = Some q ->
  (forall b, best = Some b -> question_created_at b <= question_created_at q) /\
  (forall r, r ∈ qs -> question_created_at r <= question_created_at q).
Proof.
  revert best. induction qs as [|x qs IH]; intros best; simpl.
  - intros ->. split; [by intros b [= ->]|].
    intros r Hr. by apply elem_of_nil in Hr.
  - intros Hq. apply IH in Hq as [Hbest Hall].
    destruct best as [b|]; simpl in Hbest.
    + destruct (question_created_at b <? question_created_at x) eqn:Hlt.
      * specialize (Hbest x eq_refl). split.
        -- intros b' [= <-]. lia.
        -- intros r Hr. apply elem_of_cons in Hr as [->|Hr]; [done|by apply Hall].
      * specialize (Hbest b eq_refl). split.
        -- by intros b' [= <-].
        -- intros r Hr. apply elem_of_cons in Hr as [->|Hr]; [lia|by apply Hall].
    + specialize (Hbest x eq_refl). split; [done|].
      intros r Hr. apply elem_of_cons in Hr as [->|Hr]; [done|by apply Hall].
Qed.

(** X6: the question [get_active_question] returns is a row with the
    active flag set, and no row with the flag set was created later. *)
Theorem get_active_question_latest (db : DB) (q : Question) :
  get_active_question db = Some q ->
  q ∈ questions db /\
  question_is_active q = true /\
  forall r, r ∈ questions db -> question_is_active r = true ->
    question_created_at r <= question_created_at q.
Proof.
  intros Hq. destruct (get_active_question_Some db q Hq) as [Hin Hact].
  split_and!; [done|done|].
  intros r Hr Hract. unfold get_active_question in Hq.
  apply foldl_later_of_latest in Hq as [_ Hall].
  apply Hall. by apply list_elem_of_filter.
Qed.

(** ** [submit_code] *)

(** X7: what an accepted submission has done: the question was active and
    open, the cipher decoded to the student and option of the reply, the
    student had no Answer on the question, and the store has gained exactly
    one Answer, last in the table, for that student, question, option and
    cipher, stamped [now], with delta 0 and an id of its own; the student
    has a row; questions and seeds are untouched. *)
Theorem submit_code_accepted_effect (code_field : string) (now : Z) (db db' : DB)
    (p : SubmitPayload) :
  submit_code code_field now db = (SubmitAccepted p, db') ->
  exists q code_int a,
    get_active_question db = Some q /\
    question_settled_at q = None /\
    int_of_str (str_strip code_field) = Some code_int /\
    decode_code code_int q db = inr (p_sid p, p_option_index p) /\
    answer_of (question_id q) (p_sid p) db = None /\
    answers db' = answers db ++ [a] /\
    answer_sid a = p_sid p /\
    answer_question_id a = question_id q /\
    answer_option_index a = p_option_index p /\
    answer_code a = code_int /\
    answer_timestamp a = now /\
    answer_score_change a = f0 /\
    (answer_id a ∉ (answer_id <$> answers db)) /\
    is_Some (students db' !! p_sid p) /\
    questions db' = questions db /\
    seeds db' = seeds db /\
    p_timestamp p = now.
Proof.
  unfold submit_code.
  destruct (get_active_question db) as [q|] eqn:Hq; [|done].
  destruct (question_settled_at q) eqn:Hopen; [done|]. cbv zeta.
  destruct (negb _); [done|].
  destruct (int_of_str _) as [code_int|] eqn:Hint; [|done].
  destruct (decode_code code_int q db) as [e|[sid option_index]] eqn:Hdec; [done|].
  destruct (ensure_student_exists_frame sid now db) as (Hans & Hqs & Hseeds).
  pose proof (ensure_student_exists_lookup sid now db) as Hstud.
  destruct (answer_of _ _ _) eqn:Hnone; [done|].
  intros [= <- <-]. simpl.
  exists q, code_int,
    {| answer_id := next_id (answer_id <$> answers (ensure_student_exists sid now db).2);
       answer_sid := sid;
       answer_question_id := question_id q;
       answer_option_index := option_index;
       answer_code := code_int;
       answer_timestamp := now;
       answer_score_change := f0 |}.
  simpl. rewrite Hans. split_and!; try done.
  - unfold answer_of, rows_of in *. by rewrite Hans in Hnone.
  - apply next_id_fresh.
Qed.

Lemma submit_code_tables (code_field : string) (now : Z) (db : DB) :
  questions (submit_code code_field now db).2 = questions db /\
  seeds (submit_code code_field now db).2 = seeds db /\
  answers db `prefix_of` answers (submit_code code_field now db).2 /\
  (length (answers (submit_code code_field now db).2) <= S (length (answers db)))%nat /\
  (forall sid s, students db !! sid = Some s ->
     students (submit_code code_field now db).2 !! sid = Some s).
Proof.
  assert (questions db = questions db /\ seeds db = seeds db /\
          answers db `prefix_of` answers db /\
          (length (answers db) <= S (length (answers db)))%nat /\
          (forall sid s, students db !! sid = Some s -> students db !! sid = Some s))
    as Hsame by (split_and!; try done; lia).
  unfold submit_code.
  destruct (get_active_question db) as [q|]; [|done].
  destruct (question_settled_at q); [done|]. cbv zeta.
  destruct (negb _); [done|].
  destruct (int_of_str _) as [code_int|]; [|done].
  destruct (decode_code code_int q db) as [e|[sid option_index]]; [done|].
  destruct (ensure_student_exists_frame sid now db) as (Hans & Hqs & Hseeds).
  assert (forall sid' s, students db !! sid' = Some s ->
            students (ensure_student_exists sid now db).2 !! sid' = Some s) as Hkeep.
  { intros sid' s Hs. destruct (decide (sid' = sid)) as [->|Hne].
    - by rewrite (ensure_student_exists_present sid now db s Hs).
    - by rewrite ensure_student_exists_other. }
  destruct (answer_of _ _ _); simpl.
  - rewrite Hans, Hqs, Hseeds. split_and!; try done. lia.
  - rewrite Hans, Hqs, Hseeds. split_and!; try done.
    + by apply prefix_app_r.
    + rewrite length_app. simpl. lia.
Qed.

(** X8: whatever it replies, [submit_code] leaves the questions and the
    seeds as they were, keeps every Answer where it was and adds at most
    one at the end, and keeps the row of every student there was. *)
Theorem submit_code_frame (code_field : string) (now : Z) (db : DB) :
  questions (submit_code code_field now db).2 = questions db /\
  seeds (submit_code code_field now db).2 = seeds db /\
  answers db `prefix_of` answers (submit_code code_field now db).2 /\
  (length (answers (submit_code code_field now db).2) <= S (length (answers db)))%nat /\
  (forall sid s, students db !! sid = Some s ->
     students (submit_code code_field now db).2 !! sid = Some s).
Proof. apply submit_code_tables. Qed.

(** ** Settling, then submitting *)

Lemma get_active_question_fmap (g : Question -> Question) (db : DB) :
  (forall r, question_is_active (g r) = question_is_active r) ->
  (forall r, question_created_at (g r) = question_created_at r) ->
  get_active_question (set_questions (g <$> questions db) db)
  = g <$> get_active_question db.
Proof.
  intros Hact Hcreated. unfold get_active_question. simpl.
  assert (forall l, filter (fun q => question_is_active q = true) (g <$> l)
                    = g <$> filter (fun q => question_is_active q = true) l) as ->.
  { induction l as [|x l IH]; [done|]. rewrite fmap_cons, !filter_cons, Hact.
    destruct (decide _); [rewrite fmap_cons|]; by rewrite IH. }
  generalize (filter (fun q => question_is_active q = true) (questions db)).
  intros l. change None with (g <$> (None : option Question)) at 1.
  generalize (None : option Question).
  induction l as [|x l IH]; intros best; [done|]. simpl. rewrite <- IH. f_equal.
  destruct best as [b|]; simpl; [|done].
  rewrite !Hcreated. by destruct (_ <? _).
Qed.

Lemma get_active_question_update (qid : Z) (f : Question -> Question) (db : DB) :
  (forall r, question_is_active (f r) = question_is_active r) ->
  (forall r, question_created_at (f r) = question_created_at r) ->
  get_active_question (update_question qid f db)
  = (fun r => if decide (question_id r = qid) then f r else r)
      <$> get_active_question db.
Proof.
  intros Hact Hcreated. unfold update_question.
  apply get_active_question_fmap; intros r; by destruct (decide _).
Qed.

(** X9: once the active question is settled, every submission is turned
    down with [QuestionAlreadySettled] (409) and the store does not move. *)
Theorem settle_then_submit_rejected (now now' : Z) (code_field : string)
    (db : DB) (q : Question) :
  get_active_question db = Some q ->
  submit_code code_field now' (settle_question now db).2
  = (SubmitRejected 409 QuestionAlreadySettled, (settle_question now db).2).
Proof.
  intros Hq. unfold settle_question. rewrite Hq. simpl.
  unfold submit_code.
  rewrite get_active_question_update, Hq by done. simpl.
  by rewrite decide_True.
Qed.

(** ** Deleting, then submitting or deleting again *)

Lemma delete_answer_rows_of (qid sid : Z) (a : Answer) (db : DB) :
  uq_answer_sid_question db ->
  answer_of qid sid db = Some a ->
  rows_of qid sid (delete_answer a db) = [].
Proof.
  intros Huq Ha. apply answer_of_Some in Ha as (Hin & Hq & Hs).
  unfold rows_of, delete_answer. simpl. apply filter_nil_none.
  intros r Hr [Hq' Hs']. apply list_elem_of_filter in Hr as [Hid Hr].
  apply Hid. f_equal.
  apply (NoDup_fmap_inj_on (fun a => (answer_sid a, answer_question_id a))
           (answers db)); [done..|]. congruence.
Qed.

(** X10: after [delete_submission] has removed the Answer of a student on
    the open active question, a cipher of that student for the question is
    accepted again. *)
Theorem delete_then_submit_accepted (form : gmap string string)
    (code_field : string) (now : Z) (db : DB) (q : Question) (a : Answer)
    (sid code_int option_index : Z) :
  uq_answer_sid_question db ->
  get_active_question db = Some q ->
  question_settled_at q = None ->
  str_isdigit (str_strip (form_get form "sid" "")) = true ->
  int_of_str (str_strip (form_get form "sid" "")) = Some sid ->
  answer_of (question_id q) sid db = Some a ->
  str_isdigit (str_strip code_field) = true ->
  int_of_str (str_strip code_field) = Some code_int ->
  decode_code code_int q db = inr (sid, option_index) ->
  (delete_submission form db).1
  = Redirect (Some (FlashSubmissionDeleted sid)) OperatorPage /\
  exists p,
    (submit_code code_field now (delete_submission form db).2).1 = SubmitAccepted p /\
    p_sid p = sid /\ p_option_index p = option_index.
Proof.
  intros Huq Hq Hopen Hdigit Hint Ha Hcdigit Hcint Hdec.
  unfold delete_submission. rewrite Hq. cbv zeta.
  rewrite Hdigit. simpl. rewrite Hint, Ha. simpl. split; [done|].
  pose proof (delete_answer_rows_of _ _ _ _ Huq Ha) as Hgone.
  set (db1 := delete_answer a db) in *.
  unfold submit_code.
  change (get_active_question db1) with (get_active_question db).
  rewrite Hq, Hopen. cbv zeta. rewrite Hcdigit. simpl. rewrite Hcint.
  change (decode_code code_int q db1) with (decode_code code_int q db).
  rewrite Hdec.
  destruct (ensure_student_exists_frame sid now db1) as (Hans & _ & _).
  unfold answer_of, rows_of in *. rewrite Hans, Hgone. simpl.
  eexists. split_and!; reflexivity.
Qed.

(** X11: [delete_submission_for_question] answers 404 for a question id no
    row has and flashes "not found" when the student has no Answer on the
    question, the store unchanged both times; and once it has removed the
    Answer of a student, asking again finds none. *)
Theorem delete_submission_for_question_not_found (qid : Z)
    (form : gmap string string) (db : DB) :
  let sid_raw := str_strip (form_get form "sid" "") in
  let back q :=
    if decide (str_strip (form_get form "next" "") = "results")
    then ResultsPage (question_id q) else OperatorPage in
  (get_question qid db = None ->
   delete_submission_for_question qid form db = (NotFound404, db)) /\
  (forall q sid,
     get_question qid db = Some q ->
     str_isdigit sid_raw = true ->
     int_of_str sid_raw = Some sid ->
     (answer_of (question_id q) sid db = None ->
      delete_submission_for_question qid form db
      = (Redirect (Some (FlashSubmissionNotFound sid)) (back q), db)) /\
     (forall a,
        uq_answer_sid_question db ->
        answer_of (question_id q) sid db = Some a ->
        delete_submission_for_question qid form db
        = (Redirect (Some (FlashSubmissionDeleted sid)) (back q), delete_answer a db) /\
        delete_submission_for_question qid form (delete_answer a db)
        = (Redirect (Some (FlashSubmissionNotFound sid)) (back q),
           delete_answer a db))).
Proof.
  cbv zeta. split.
  - intros Hq. unfold delete_submission_for_question. by rewrite Hq.
  - intros q sid Hq Hdigit Hint. split.
    + intros Hnone. unfold delete_submission_for_question.
      rewrite Hq. cbv zeta. rewrite Hdigit. simpl. by rewrite Hint, Hnone.
    + intros a Huq Ha.
      pose proof (delete_answer_rows_of _ _ _ _ Huq Ha) as Hgone.
      unfold delete_submission_for_question.
      change (get_question qid (delete_answer a db)) with (get_question qid db).
      rewrite Hq. cbv zeta. rewrite Hdigit. simpl. rewrite Hint, Ha.
      unfold answer_of. rewrite Hgone. done.
Qed.

(** ** [score_actions]: the actions A and B *)

(** X12: the action A on a valid option flashes what it did and, under the
    constraints of [Answer], gives every student with an Answer on that
    option the change, once: the delta of the Answer is its old delta plus
    the change and the score of the student is the score they had plus the
    change (a student without a row is created first); no other Answer and
    no other student is touched. *)
Theorem score_action_A_credits (form : gmap string string) (rnd : nat -> float)
    (now : Z) (db : DB) (qid : Z) (q : Question) (option_index : Z) :
  str_isdigit (str_strip (form_get form "question_id" "")) = true ->
  int_of_str (str_strip (form_get form "question_id" "")) = Some qid ->
  get_question qid db = Some q ->
  str_strip (form_get form "action_type" "") = "A" ->
  form_int form "option_index" = Some option_index ->
  1 <= option_index <= Z.of_nat (length (question_options q)) ->
  answer_pk db -> uq_answer_sid_question db ->
  (score_actions form rnd now db).1
  = Redirect (Some (FlashScoredOption option_index (parse_float form "change")))
      (go_back (str_strip (form_get form "next" "")) (Some (question_id q))) /\
  credited (parse_float form "change") (question_id q) option_index db
    (score_actions form rnd now db).2.
Proof.
  intros Hdigit Hint Hq Hact Hoi Hrange Hpk Huq.
  unfold score_actions. rewrite Hdigit, Hint. simpl. rewrite Hq, Hact. simpl.
  rewrite Hoi.
  replace ((option_index <? 1)
           || (option_index >? Z.of_nat (length (question_options q))))
    with false by lia.
  simpl. split; [done|]. by apply foldl_credit_credited.
Qed.

Lemma bump_answer_pair (qid sid : Z) (change : float) (db : DB) (a : Answer) :
  answer_pk db -> uq_answer_sid_question db ->
  head (filter (fun r => answer_question_id r = qid /\ answer_sid r = sid)
          (answers db)) = Some a ->
  (fun r => if decide (answer_id r = answer_id a)
            then add_score_change change r else r) <$> answers db
  = (fun r => if decide (answer_question_id r = qid /\ answer_sid r = sid)
              then add_score_change change r else r) <$> answers db.
Proof.
  intros Hpk Huq Ha. apply head_Some_elem_of, list_elem_of_filter in Ha as [[Hq Hs] Hin].
  apply list_fmap_ext. intros k r Hr. apply list_elem_of_lookup_2 in Hr.
  destruct (decide (answer_id r = answer_id a)) as [Hid|Hid].
  - assert (r = a) as -> by (by apply (NoDup_fmap_inj_on answer_id (answers db))).
    by rewrite decide_True.
  - rewrite decide_False; [done|]. intros [Hq' Hs']. apply Hid. f_equal.
    apply (NoDup_fmap_inj_on (fun a => (answer_sid a, answer_question_id a))
             (answers db)); [done..|]. congruence.
Qed.

(** X13: the action B on a student of the roster leaves that student with
    the score they had plus the change, or, if they had no row, with the
    minimum score (0 on an empty table) plus the change and a row created
    now; it changes no other student; under the constraints of [Answer]
    the delta of the Answer of that student on the question, if there is
    one, is its old delta plus the change, and every other Answer is as it
    was. *)
Theorem score_action_B_effect (form : gmap string string) (rnd : nat -> float)
    (now : Z) (db : DB) (qid : Z) (q : Question) (sid : Z) :
  str_isdigit (str_strip (form_get form "question_id" "")) = true ->
  int_of_str (str_strip (form_get form "question_id" "")) = Some qid ->
  get_question qid db = Some q ->
  str_strip (form_get form "action_type" "") = "B" ->
  form_int form "sid" = Some sid ->
  MIN_SID <= sid <= MAX_SID ->
  let change := parse_float form "change" in
  let db' := (score_actions form rnd now db).2 in
  (score_actions form rnd now db).1
  = Redirect (Some (FlashScoredStudent sid change))
      (go_back (str_strip (form_get form "next" "")) (Some (question_id q))) /\
  (exists s',
     students db' !! sid = Some s' /\
     (forall s, students db !! sid = Some s ->
        student_score s' = fadd (student_score s) change /\
        student_created_at s' = student_created_at s) /\
     (students db !! sid = None ->
      student_score s' = fadd (default f0 (min_student_score db)) change /\
      student_created_at s' = now)) /\
  (forall sid', sid' <> sid -> students db' !! sid' = students db !! sid') /\
  (answer_pk db -> uq_answer_sid_question db ->
   deltas_added change
     (fun r => answer_question_id r = question_id q /\ answer_sid r = sid)
     (answers db) (answers db')) /\
  questions db' = questions db /\
  seeds db' = seeds db.
Proof.
  intros Hdigit Hint Hq Hact Hsid Hrange change db'.
  unfold db', score_actions. rewrite Hdigit, Hint. simpl. rewrite Hq, Hact. simpl.
  rewrite Hsid. unfold MIN_SID, MAX_SID in *.
  replace ((sid <? 1) || (sid >? 64)) with false by lia.
  fold change. simpl.
  destruct (ensure_student_exists_frame sid now db) as (Hans & Hqs & Hseeds).
  pose proof (ensure_student_exists_lookup sid now db) as Hstud.
  assert (exists s',
            alter (add_score change) sid
              (students (ensure_student_exists sid now db).2) !! sid = Some s' /\
            (forall s, students db !! sid = Some s ->
               student_score s' = fadd (student_score s) change /\
               student_created_at s' = student_created_at s) /\
            (students db !! sid = None ->
             student_score s' = fadd (default f0 (min_student_score db)) change /\
             student_created_at s' = now)) as Hhit.
  { exists (add_score change (ensure_student_exists sid now db).1). split_and!.
    - by rewrite lookup_alter_eq, Hstud.
    - intros s Hs. by rewrite (ensure_student_exists_present sid now db s Hs).
    - intros Hnone. unfold ensure_student_exists. by rewrite Hnone. }
  set (dbE := (ensure_student_exists sid now db).2) in *.
  assert (forall sid', sid' <> sid ->
            students (bump_student sid change dbE) !! sid' = students db !! sid')
    as Hother.
  { intros sid' Hne. unfold bump_student. simpl.
    rewrite lookup_alter_ne by done. by apply ensure_student_exists_other. }
  unfold answer_of, rows_of.
  change (answers (bump_student sid change dbE)) with (answers dbE).
  rewrite Hans.
  destruct (head _) as [a|] eqn:Ha; simpl.
  - split_and!; try done.
    intros Hpk Huq. rewrite Hans.
    rewrite (bump_answer_pair (question_id q) sid change db a Hpk Huq Ha).
    apply deltas_added_fmap.
  - split_and!; try done.
    intros _ _. rewrite Hans.
    assert (answers db
            = (fun r => if decide (answer_question_id r = question_id q
                                   /\ answer_sid r = sid)
                        then add_score_change change r else r) <$> answers db)
      as Hsame.
    { rewrite <- (list_fmap_id (answers db)) at 1.
      apply list_fmap_ext. intros k r Hr. apply list_elem_of_lookup_2 in Hr. simpl.
      rewrite decide_False; [done|]. intros HP.
      apply head_None in Ha.
      assert (r ∈ filter (fun r => answer_question_id r = question_id q
                                   /\ answer_sid r = sid) (answers db)) as Hin
        by (by apply list_elem_of_filter).
      rewrite Ha in Hin. by apply elem_of_nil in Hin. }
    rewrite Hsame at 2. apply deltas_added_fmap.
Qed.

(** ** What the ledger of a store the handlers build points at *)

Lemma decode_code_grows (db db' : DB) (q q' : Question) (code_int sid option_index : Z) :
  (forall sid r, seeds db !! sid = Some r -> seeds db' !! sid = Some r) ->
  (length (question_options q) <= length (question_options q'))%nat ->
  decode_code code_int q db = inr (sid, option_index) ->
  decode_code code_int q' db' = inr (sid, option_index).
Proof.
  intros Hseeds Hlen Hdec.
  apply decode_code_inr_inv in Hdec as (Hsid & Hi & r & Hr & Hb & ->).
  unfold MIN_SID, MAX_SID in *.
  assert ((sid * 100 + r + option_index) / 100 = sid) as Hdiv.
  { symmetry. apply (Z.div_unique _ _ _ (r + option_index)); lia. }
  assert ((sid * 100 + r + option_index) mod 100 = r + option_index) as Hmod.
  { symmetry. apply (Z.mod_unique _ _ sid); lia. }
  unfold decode_code. rewrite Hdiv, Hmod. unfold MIN_SID, MAX_SID.
  replace ((sid <? 1) || (sid >? 64)) with false by lia.
  replace ((r + option_index <? 1) || (r + option_index >? 99)) with false by lia.
  rewrite (Hseeds sid r Hr). cbv zeta.
  replace (r + option_index - r) with option_index by lia.
  replace ((option_index <? 1)
           || (option_index >? Z.of_nat (length (question_options q'))))
    with false by lia.
  done.
Qed.

Lemma ledger_sound_transfer (db db' : DB) :
  questions db' = questions db ->
  (forall a', a' ∈ answers db' ->
     exists a, a ∈ answers db /\ answer_key a = answer_key a') ->
  (forall sid, is_Some (students db !! sid) -> is_Some (students db' !! sid)) ->
  (forall sid r, seeds db !! sid = Some r -> seeds db' !! sid = Some r) ->
  ledger_sound db -> ledger_sound db'.
Proof.
  intros Hqs Hans Hstud Hseeds [Hs Hq Hd]. split.
  - intros a' Ha'. destruct (Hans a' Ha') as (a & Ha & [= _ Hsid _ _ _ _]).
    rewrite <- Hsid. by apply Hstud, Hs.
  - intros a' Ha'. destruct (Hans a' Ha') as (a & Ha & [= _ _ Hqid _ _ _]).
    rewrite Hqs, <- Hqid. by apply Hq.
  - intros a' q Ha' Hin Hid.
    destruct (Hans a' Ha') as (a & Ha & [= _ Hsid Hqid Hoi Hcode _]).
    rewrite Hqs in Hin. rewrite <- Hsid, <- Hoi, <- Hcode.
    apply (decode_code_grows db db' q q); [done|done|].
    apply Hd; [done..|]. congruence.
Qed.

Lemma ledger_sound_add_answer (db : DB) (a : Answer) :
  is_Some (students db !! answer_sid a) ->
  (exists q, q ∈ questions db /\ question_id q = answer_question_id a) ->
  (forall q, q ∈ questions db -> question_id q = answer_question_id a ->
     decode_code (answer_code a) q db = inr (answer_sid a, answer_option_index a)) ->
  ledger_sound db -> ledger_sound (set_answers (answers db ++ [a]) db).
Proof.
  intros Hstud Hq Hdec [Hs Hqs Hd]. split; simpl.
  - intros a' Ha'. apply elem_of_app in Ha' as [Ha'|Ha']; [by apply Hs|].
    apply list_elem_of_singleton in Ha'. by subst a'.
  - intros a' Ha'. apply elem_of_app in Ha' as [Ha'|Ha']; [by apply Hqs|].
    apply list_elem_of_singleton in Ha'. by subst a'.
  - intros a' q Ha' Hin Hid. apply elem_of_app in Ha' as [Ha'|Ha'].
    + by apply (Hd a' q).
    + apply list_elem_of_singleton in Ha'. subst a'. by apply Hdec.
Qed.

Lemma update_question_ledger_sound (qid : Z) (f : Question -> Question) (db : DB) :
  (forall r, question_id (f r) = question_id r) ->
  (forall r, r ∈ questions db -> question_id r = qid ->
     (length (question_options r) <= length (question_options (f r)))%nat) ->
  ledger_sound db -> ledger_sound (update_question qid f db).
Proof.
  intros Hid Hlen [Hs Hqs Hd]. split.
  - exact Hs.
  - intros a Ha. destruct (Hqs a Ha) as (q & Hq & Hqid).
    exists (if decide (question_id q = qid) then f q else q). split.
    + unfold update_question. simpl. apply list_elem_of_fmap. eauto.
    + destruct (decide _); [by rewrite Hid|done].
  - intros a q' Ha Hq' Hqid.
    apply update_question_elem_of in Hq' as (r & Hr & ->).
    destruct (decide (question_id r = qid)) as [Heq|Hne].
    + rewrite Hid in Hqid.
      apply (decode_code_grows db _ r (f r)); [done|by apply Hlen|by apply Hd].
    + apply (decode_code_grows db _ r r); [done|done|by apply Hd].
Qed.

Lemma update_question_single_active (qid : Z) (f : Question -> Question) (db : DB) :
  (forall r, question_is_active (f r) = question_is_active r) ->
  single_active db -> single_active (update_question qid f db).
Proof.
  intros Hact. unfold single_active, update_question. simpl.
  assert (forall l : list Question,
            length (filter (fun q => question_is_active q = true)
                      ((fun r => if decide (question_id r = qid) then f r else r)
                         <$> l))
            = length (filter (fun q => question_is_active q = true) l)) as ->;
    [|done].
  induction l as [|x l IH]; [done|]. rewrite fmap_cons, !filter_cons.
  assert (question_is_active (if decide (question_id x = qid) then f x else x)
          = question_is_active x) as -> by (by destruct (decide _)).
  destruct (decide _); simpl; by rewrite IH.
Qed.

Lemma rescored_refl (db : DB) : rescored db db.
Proof. by unfold rescored. Qed.

Lemma rescored_trans (db1 db2 db3 : DB) :
  rescored db1 db2 -> rescored db2 db3 -> rescored db1 db3.
Proof.
  intros (Hq1 & Hs1 & Hk1 & Hst1) (Hq2 & Hs2 & Hk2 & Hst2).
  unfold rescored. rewrite Hq2, Hs2, Hk2. split_and!; try done.
  intros sid Hsid. by apply Hst2, Hst1.
Qed.

Lemma ensure_student_exists_keeps (sid now : Z) (db : DB) (sid' : Z) :
  is_Some (students db !! sid') ->
  is_Some (students (ensure_student_exists sid now db).2 !! sid').
Proof.
  intros [s Hs]. destruct (decide (sid' = sid)) as [->|Hne].
  - rewrite (ensure_student_exists_present sid now db s Hs). simpl. eauto.
  - rewrite ensure_student_exists_other by done. eauto.
Qed.

Lemma ensure_student_exists_rescored (sid now : Z) (db : DB) :
  rescored db (ensure_student_exists sid now db).2.
Proof.
  destruct (ensure_student_exists_frame sid now db) as (Ha & Hq & Hs).
  unfold rescored. rewrite Ha, Hq, Hs. split_and!; try done.
  intros sid'. apply ensure_student_exists_keeps.
Qed.

Lemma bump_student_rescored (sid : Z) (change : float) (db : DB) :
  rescored db (bump_student sid change db).
Proof.
  unfold rescored, bump_student. simpl. split_and!; try done.
  intros sid' [s Hs]. rewrite lookup_alter.
  destruct (decide (sid = sid')) as [->|_]; rewrite ?Hs; simpl; eauto.
Qed.

Lemma bump_answer_rescored (id : Z) (change : float) (db : DB) :
  rescored db (bump_answer id change db).
Proof.
  unfold rescored, bump_answer. simpl. split_and!; try done.
  rewrite <- list_fmap_compose. apply list_fmap_ext. intros _ r _. simpl.
  by destruct (decide _).
Qed.

Lemma credit_rescored (change : float) (now : Z) (db : DB) (a : Answer) :
  rescored db (credit change now db a).
Proof.
  unfold credit.
  eapply rescored_trans; [apply ensure_student_exists_rescored|].
  eapply rescored_trans; [apply bump_student_rescored|apply bump_answer_rescored].
Qed.

Lemma foldl_credit_rescored (change : float) (now : Z) (l : list Answer) (db : DB) :
  rescored db (foldl (credit change now) db l).
Proof.
  revert db. induction l as [|a l IH]; intros db; simpl; [apply rescored_refl|].
  eapply rescored_trans; [apply credit_rescored|apply IH].
Qed.

Lemma foldl_credit_random_rescored (prob change1 change2 : float)
    (rnd : nat -> float) (now : Z) (l : list Answer) (db : DB) (k : nat) :
  rescored db (foldl (credit_random prob change1 change2 rnd now) (db, k) l).1.
Proof.
  revert db k. induction l as [|a l IH]; intros db k; simpl; [apply rescored_refl|].
  eapply rescored_trans; [apply credit_rescored|apply IH].
Qed.

Lemma score_actions_rescored (form : gmap string string) (rnd : nat -> float)
    (now : Z) (db : DB) :
  rescored db (score_actions form rnd now db).2.
Proof.
  unfold score_actions. cbv zeta.
  destruct (negb _); [apply rescored_refl|].
  destruct (int_of_str _) as [qid|]; [|apply rescored_refl].
  destruct (get_question qid db) as [q|]; [|apply rescored_refl].
  destruct (decide (_ = "A")).
  { destruct (form_int form "option_index") as [option_index|]; [|apply rescored_refl].
    destruct (_ || _); [apply rescored_refl|]. apply foldl_credit_rescored. }
  destruct (decide (_ = "B")).
  { destruct (form_int form "sid") as [sid|]; [|apply rescored_refl].
    destruct (_ || _); [apply rescored_refl|]. cbn [snd].
    eapply rescored_trans; [apply ensure_student_exists_rescored|].
    eapply rescored_trans; [apply bump_student_rescored|].
    destruct (answer_of _ _ _); [apply bump_answer_rescored|apply rescored_refl]. }
  destruct (decide (_ = "C")); [|apply rescored_refl].
  destruct (form_int form "option_index") as [option_index|]; [|apply rescored_refl].
  destruct (_ || _); [apply rescored_refl|]. apply foldl_credit_random_rescored.
Qed.

Lemma rescored_ledger_sound (db db' : DB) :
  rescored db db' -> ledger_sound db -> ledger_sound db'.
Proof.
  intros (Hq & Hs & Hk & Hst). apply ledger_sound_transfer; try done.
  - intros a' Ha'.
    assert (answer_key a' ∈ answer_key <$> answers db) as Hin.
    { rewrite <- Hk. apply list_elem_of_fmap. eauto. }
    apply list_elem_of_fmap in Hin as (a & Hkey & Ha). eauto.
  - intros sid r. by rewrite Hs.
Qed.

Lemma ledger_only_ledger_sound (db db' : DB) :
  ledger_only db db' -> ledger_sound db -> ledger_sound db'.
Proof.
  intros (Hst & Hq & Hs & Hsub). apply ledger_sound_transfer; try done.
  - intros a' Ha'. exists a'. split; [|done]. by apply (elem_of_sublist _ _ _ Ha').
  - intros sid. by rewrite Hst.
  - intros sid r. by rewrite Hs.
Qed.

Lemma ensure_seeds_ledger_sound (randint : nat -> Z) (db : DB) :
  ledger_sound db -> ledger_sound (ensure_seeds randint db).
Proof.
  apply ledger_sound_transfer.
  - reflexivity.
  - intros a' Ha'. exists a'. split; [exact Ha'|reflexivity].
  - intros sid Hsid. exact Hsid.
  - apply ensure_seeds_roster.
Qed.

Lemma submit_code_ledger_sound (code_field : string) (now : Z) (db : DB) :
  question_pk db -> ledger_sound db ->
  ledger_sound (submit_code code_field now db).2.
Proof.
  intros Hpk Hsound. unfold submit_code.
  destruct (get_active_question db) as [q|] eqn:Hq; [|done].
  apply get_active_question_Some in Hq as [Hin _].
  destruct (question_settled_at q); [done|]. cbv zeta.
  destruct (negb _); [done|].
  destruct (int_of_str _) as [code_int|]; [|done].
  destruct (decode_code code_int q db) as [e|[sid option_index]] eqn:Hdec; [done|].
  pose proof (rescored_ledger_sound _ _ (ensure_student_exists_rescored sid now db)
                Hsound) as HsoundE.
  destruct (ensure_student_exists_frame sid now db) as (Hans & Hqs & Hseeds).
  pose proof (ensure_student_exists_lookup sid now db) as Hstud.
  set (dbE := (ensure_student_exists sid now db).2) in *.
  destruct (answer_of _ _ _); [done|]. cbn [snd].
  apply ledger_sound_add_answer; simpl; [|rewrite Hqs; eauto| |done].
  - rewrite Hstud. eauto.
  - intros q' Hq' Hid. rewrite Hqs in Hq'.
    assert (q' = q) as ->
      by (by apply (NoDup_fmap_inj_on question_id (questions db))).
    apply (decode_code_grows db dbE q q); [|done|done].
    intros sid' r. by rewrite Hseeds.
Qed.

Lemma edit_options_ledger_sound (qid : Z) (form : gmap string string) (db : DB) :
  question_pk db -> ledger_sound db ->
  ledger_sound (edit_options_for_question qid form db).2.
Proof.
  intros Hpk Hsound. unfold edit_options_for_question.
  destruct (get_question qid db) as [q|] eqn:Hq; [|done].
  apply get_question_Some in Hq as [Hin _]. cbv zeta.
  destruct (_ <? 1); [done|]. destruct (_ <? _); [done|].
  destruct (_ >? _); [done|].
  assert (ledger_sound
            (update_question (question_id q)
               (set_options (new_options form (question_options q))) db)).
  { apply update_question_ledger_sound; [done| |done].
    intros r Hr Hid. simpl.
    assert (r = q) as ->
      by (by apply (NoDup_fmap_inj_on question_id (questions db))).
    apply new_options_length. }
  by destruct (decide _).
Qed.

Lemma settle_question_ledger_sound (now : Z) (db : DB) :
  ledger_sound db -> ledger_sound (settle_question now db).2.
Proof.
  intros Hsound. unfold settle_question.
  destruct (get_active_question db) as [q|]; [|done].
  by apply update_question_ledger_sound.
Qed.

Lemma start_preset_ledger_sound (form : gmap string string)
    (presets_list : list Preset) (now : Z) (db : DB) :
  ledger_sound db -> ledger_sound (start_preset form presets_list now db).2.
Proof.
  intros [Hs Hqs Hd]. unfold start_preset. cbv zeta.
  destruct (head _) as [preset|]; [|done]. split; simpl.
  - exact Hs.
  - intros a Ha. destruct (Hqs a Ha) as (q & Hq & Hid).
    exists (if question_is_active q then set_is_active false q else q). split.
    + apply elem_of_app. left. apply list_elem_of_fmap. eauto.
    + by destruct (question_is_active q).
  - intros a q' Ha Hq' Hid. apply elem_of_app in Hq' as [Hq'|Hq'].
    + apply list_elem_of_fmap in Hq' as (r & -> & Hr).
      apply (decode_code_grows db _ r); [done|by destruct (question_is_active r)|].
      apply Hd; [done..|]. by destruct (question_is_active r).
    + apply list_elem_of_singleton in Hq'. subst q'. simpl in Hid.
      destruct (Hqs a Ha) as (q & Hq & Hqid). exfalso.
      apply (next_id_fresh (question_id <$> questions db)).
      rewrite Hid, <- Hqid. apply list_elem_of_fmap. eauto.
Qed.

Lemma start_preset_single_active (form : gmap string string)
    (presets_list : list Preset) (now : Z) (db : DB) :
  single_active db -> single_active (start_preset form presets_list now db).2.
Proof.
  intros Hone. unfold start_preset. cbv zeta.
  destruct (head _) as [preset|]; [|done].
  unfold single_active. simpl. rewrite filter_app.
  assert (filter (fun r => question_is_active r = true)
            ((fun r => if question_is_active r then set_is_active false r else r)
               <$> questions db) = []) as ->.
  { apply filter_nil_none. intros r Hr.
    apply list_elem_of_fmap in Hr as (r0 & -> & _).
    destruct (question_is_active r0) eqn:Hact; simpl; [done|]. by rewrite Hact. }
  rewrite filter_cons. simpl. destruct (decide (true = true)); simpl; lia.
Qed.

Lemma step_ledger_sound (db db' : DB) :
  step db db' -> well_formed db -> ledger_sound db /\ single_active db ->
  ledger_sound db' /\ single_active db'.
Proof.
  intros Hstep Hwf [Hsound Hone]. pose proof (wf_question_pk db Hwf) as Hpk.
  destruct Hstep.
  - split; [by apply ensure_seeds_ledger_sound|exact Hone].
  - split; [by apply submit_code_ledger_sound|].
    unfold single_active.
    by destruct (submit_code_tables code_field now db) as (-> & _).
  - pose proof (delete_submission_ledger form db) as Hl.
    split; [by apply (ledger_only_ledger_sound db)|].
    destruct Hl as (_ & Hq & _). unfold single_active. by rewrite Hq.
  - pose proof (delete_submission_for_question_ledger qid form db) as Hl.
    split; [by apply (ledger_only_ledger_sound db)|].
    destruct Hl as (_ & Hq & _). unfold single_active. by rewrite Hq.
  - split; [by apply edit_options_ledger_sound|].
    unfold edit_options_for_question.
    destruct (get_question qid db) as [q|]; [|done]. cbv zeta.
    destruct (_ <? 1); [done|]. destruct (_ <? _); [done|].
    destruct (_ >? _); [done|].
    assert (single_active
              (update_question (question_id q)
                 (set_options (new_options form (question_options q))) db))
      by (by apply update_question_single_active).
    by destruct (decide _).
  - split; [by apply settle_question_ledger_sound|].
    unfold settle_question. destruct (get_active_question db) as [q|]; [|done].
    by apply update_question_single_active.
  - pose proof (score_actions_rescored form rnd now db) as Hr.
    split; [by apply (rescored_ledger_sound db)|].
    destruct Hr as (Hq & _). unfold single_active. by rewrite Hq.
  - split; [by apply start_preset_ledger_sound|by apply start_preset_single_active].
Qed.

Lemma reachable_invariants (db : DB) :
  reachable db -> well_formed db /\ ledger_sound db /\ single_active db.
Proof.
  intros Hreach. split; [by apply reachable_well_formed|].
  induction Hreach as [|db db' Hreach IH Hstep].
  - split; [split|]; try (intros a Ha; by apply elem_of_nil in Ha).
    + intros a q Ha. by apply elem_of_nil in Ha.
    + unfold single_active. simpl. lia.
  - apply (step_ledger_sound db); [done|by apply reachable_well_formed|done].
Qed.

(** X14: every store the handlers build from the empty one satisfies the
    constraints the tables are declared with (the primary keys of
    [Question] and [Answer], [uq_answer_sid_question]) and the ranges of
    the data: offsets within 0..89, one to ten options per question. *)
Theorem reachable_table_constraints (db : DB) :
  reachable db -> well_formed db.
Proof. apply reachable_well_formed. Qed.

(** X15: on every store the handlers build at most one question has the
    active flag set, and a question that has it is the one
    [get_active_question] returns. *)
Theorem reachable_single_active (db : DB) :
  reachable db ->
  single_active db /\
  forall q, q ∈ questions db -> question_is_active q = true ->
    get_active_question db = Some q.
Proof.
  intros Hreach. destruct (reachable_invariants db Hreach) as (_ & _ & Hone).
  split; [done|]. intros q Hq Hact.
  assert (q ∈ filter (fun q => question_is_active q = true) (questions db)) as Hin
    by (by apply list_elem_of_filter).
  unfold get_active_question, single_active in *.
  destruct (filter _ (questions db)) as [|q1 [|q2 l]]; simpl in *.
  - by apply elem_of_nil in Hin.
  - apply list_elem_of_singleton in Hin. by subst q1.
  - lia.
Qed.

(** X16: on every store the handlers build, each Answer is of a student of
    the roster who has a Student row, on a question that has a row, for an
    option that question has, and the cipher it stores still decodes, on
    that question and with the seeds of the store, to its student and
    option. *)
Theorem reachable_ledger_sound (db : DB) (a : Answer) :
  reachable db -> a ∈ answers db ->
  MIN_SID <= answer_sid a <= MAX_SID /\
  is_Some (students db !! answer_sid a) /\
  exists q,
    q ∈ questions db /\
    question_id q = answer_question_id a /\
    1 <= answer_option_index a <= Z.of_nat (length (question_options q)) /\
    decode_code (answer_code a) q db = inr (answer_sid a, answer_option_index a).
Proof.
  intros Hreach Ha.
  destruct (reachable_invariants db Hreach) as (_ & [Hs Hqs Hd] & _).
  destruct (Hqs a Ha) as (q & Hq & Hid).
  pose proof (Hd a q Ha Hq Hid) as Hdec.
  destruct (decode_code_inr_inv _ _ _ _ _ Hdec) as (Hsid & Hoi & _).
  split; [exact Hsid|]. split; [by apply Hs|].
  exists q. split; [done|]. split; [done|]. split; [exact Hoi|exact Hdec].
Qed.

(** X17: whatever the request, [score_actions] only scores: the questions
    and the seeds are as before, the Answers are the rows of before in
    their order with at most their deltas changed, and every student who
    had a row has one. *)
Theorem score_actions_only_rescores (form : gmap string string)
    (rnd : nat -> float) (now : Z) (db : DB) :
  rescored db (score_actions form rnd now db).2.
Proof. apply score_actions_rescored. Qed.

(** ** [edit_options_for_question], when it goes through *)

Lemma get_question_update (qid qid' : Z) (f : Question -> Question) (db : DB) :
  (forall r, question_id (f r) = question_id r) ->
  get_question qid' (update_question qid f db)
  = (fun r => if decide (question_id r = qid) then f r else r)
      <$> get_question qid' db.
Proof.
  intros Hid. unfold get_question, update_question. simpl.
  induction (questions db) as [|x l IH]; [done|].
  rewrite fmap_cons, !filter_cons.
  assert (question_id (if decide (question_id x = qid) then f x else x)
          = question_id x) as -> by (by destruct (decide _)).
  by destruct (decide (question_id x = qid')).
Qed.

Lemma sql_max_le (xs : list Z) (bound : Z) :
  0 <= bound -> (forall x, x ∈ xs -> x <= bound) ->
  default 0 (sql_max xs) <= bound.
Proof.
  intros Hb Hall. unfold sql_max.
  assert (forall acc : option Z,
            (forall m, acc = Some m -> m <= bound) ->
            forall m, foldl max_step acc xs = Some m -> m <= bound) as Hfold.
  { induction xs as [|x xs IH]; intros acc Hacc m; simpl; [apply Hacc|].
    apply IH.
    - intros y Hy. apply Hall. by constructor.
    - assert (x <= bound) by (apply Hall; constructor).
      destruct acc as [m0|]; simpl; intros m1 [= <-]; [|done].
      specialize (Hacc m0 eq_refl). lia. }
  destruct (foldl max_step None xs) as [m|] eqn:Hm; simpl; [|done].
  by apply (Hfold None).
Qed.

(** X18: an edit that passes the two checks leaves the question with the
    new list, which is at least as long as the old one, and every other
    question, the Answers, the students and the seeds as they were. *)
Theorem edit_options_updates (qid : Z) (form : gmap string string) (db : DB)
    (q : Question) :
  get_question qid db = Some q ->
  (1 <= length (question_options q))%nat ->
  max_used (question_id q) db
  <= Z.of_nat (length (new_options form (question_options q))) ->
  let db' := (edit_options_for_question qid form db).2 in
  (edit_options_for_question qid form db).1
  = Redirect (Some FlashOptionsUpdated)
      (if decide (str_strip (form_get form "next" "") = "results")
       then ResultsPage (question_id q) else OperatorPage) /\
  get_question qid db'
  = Some (set_options (new_options form (question_options q)) q) /\
  (forall qid', qid' <> qid -> get_question qid' db' = get_question qid' db) /\
  (length (question_options q)
   <= length (new_options form (question_options q)))%nat /\
  answers db' = answers db /\ students db' = students db /\ seeds db' = seeds db.
Proof.
  intros Hq Hn Hmax. cbv zeta.
  destruct (get_question_Some _ _ _ Hq) as [Hin Hid].
  destruct (new_options_length form (question_options q)) as [Hge _].
  assert (get_question qid
            (update_question (question_id q)
               (set_options (new_options form (question_options q))) db)
          = Some (set_options (new_options form (question_options q)) q) /\
          (forall qid', qid' <> qid ->
             get_question qid'
               (update_question (question_id q)
                  (set_options (new_options form (question_options q))) db)
             = get_question qid' db)) as [Hnew Hother].
  { split.
    - rewrite get_question_update, Hq by done. simpl. by rewrite decide_True.
    - intros qid' Hne. rewrite get_question_update by done.
      destruct (get_question qid' db) as [r|] eqn:Hr; [|done]. simpl.
      apply get_question_Some in Hr as [_ Hrid].
      rewrite decide_False; [done|]. congruence. }
  unfold edit_options_for_question. rewrite Hq. cbv zeta.
  replace (Z.of_nat (length (question_options q)) <? 1) with false by lia.
  replace (Z.of_nat (length (new_options form (question_options q)))
           <? Z.of_nat (length (question_options q))) with false by lia.
  replace (max_used (question_id q) db
           >? Z.of_nat (length (new_options form (question_options q))))
    with false by lia.
  destruct (decide (_ = "results")); by split_and!.
Qed.

(** X19: on a store the handlers have built, an edit of the options of a
    question that exists always goes through: neither check of
    [edit_options_for_question] can fail there. *)
Theorem edit_options_reachable_succeeds (qid : Z) (form : gmap string string)
    (db : DB) (q : Question) :
  reachable db ->
  get_question qid db = Some q ->
  (edit_options_for_question qid form db).1
  = Redirect (Some FlashOptionsUpdated)
      (if decide (str_strip (form_get form "next" "") = "results")
       then ResultsPage (question_id q) else OperatorPage).
Proof.
  intros Hreach Hq.
  destruct (reachable_invariants db Hreach) as (Hwf & [Hs Hqs Hd] & _).
  destruct (get_question_Some _ _ _ Hq) as [Hin Hid].
  pose proof (wf_options db Hwf q Hin) as Hn.
  destruct (new_options_length form (question_options q)) as [Hge _].
  assert (max_used (question_id q) db <= Z.of_nat (length (question_options q)))
    as Hmax.
  { unfold max_used. apply sql_max_le; [lia|].
    intros x Hx. apply list_elem_of_fmap in Hx as (a & -> & Ha).
    apply list_elem_of_filter in Ha as [Haq Ha].
    assert (decode_code (answer_code a) q db
            = inr (answer_sid a, answer_option_index a)) as Hdec
      by (by apply Hd).
    apply decode_code_inr_inv in Hdec as (_ & Hoi & _). lia. }
  unfold edit_options_for_question. rewrite Hq. cbv zeta.
  replace (Z.of_nat (length (question_options q)) <? 1) with false by lia.
  replace (Z.of_nat (length (new_options form (question_options q)))
           <? Z.of_nat (length (question_options q))) with false by lia.
  replace (max_used (question_id q) db
           >? Z.of_nat (length (new_options form (question_options q))))
    with false by lia.
  by destruct (decide (_ = "results")).
Qed.

(** ** The option list an edit makes *)

(** X20: slot by slot, the list an edit makes: a slot the question had
    holds the stripped text of its form field, or its old text when that
    is empty; what comes after the old slots is the non-empty stripped
    lines of [append_options], as many as fit in ten options; and no
    appended line is empty. *)
Theorem new_options_slots (form : gmap string string) (old_options : list string) :
  (forall (i : nat) old_text,
     old_options !! i = Some old_text ->
     new_options form old_options !! i
     = Some (let t := str_strip (form_get form ("opt" +:+ pretty (S i)) "") in
             if decide (t = "") then old_text else t)) /\
  drop (length old_options) (new_options form old_options)
  = take (10 - length old_options) (append_lines form) /\
  Forall (fun line => line <> "") (append_lines form).
Proof.
  assert (forall (i : nat) old_text,
            old_options !! i = Some old_text ->
            retexted form old_options !! i
            = Some (let t := str_strip (form_get form ("opt" +:+ pretty (S i)) "") in
                    if decide (t = "") then old_text else t)) as Hslot.
  { intros i old_text Hi. unfold retexted. rewrite list_lookup_imap, Hi. done. }
  pose proof (retexted_length form old_options) as Hlen.
  assert (Forall (fun line => line <> "") (append_lines form)) as Hlines.
  { unfold append_lines. apply Forall_forall. intros x Hx.
    by apply list_elem_of_filter in Hx as [? _]. }
  split_and!; [| |done].
  - intros i old_text Hi. unfold new_options.
    destruct (append_lines form) as [|line rest]; [by apply Hslot|].
    destruct (0 <? _); [|by apply Hslot].
    rewrite lookup_app_l; [by apply Hslot|].
    rewrite Hlen. by apply lookup_lt_Some in Hi.
  - unfold new_options.
    destruct (append_lines form) as [|line rest] eqn:Happ.
    + rewrite <- Hlen, drop_all. by rewrite take_nil.
    + destruct (0 <? 10 - Z.of_nat (length (retexted form old_options))) eqn:Hrem.
      * rewrite <- Hlen at 1. rewrite drop_app_length. f_equal. lia.
      * rewrite <- Hlen at 1. rewrite drop_all.
        replace (10 - length old_options)%nat with 0%nat by lia. done.
Qed.

(** X21: an edit never blanks a slot: when no option of the question is
    empty, no option of the list the edit makes is. *)
Theorem new_options_never_blank (form : gmap string string)
    (old_options : list string) :
  Forall (fun text => text <> "") old_options ->
  Forall (fun text => text <> "") (new_options form old_options).
Proof.
  intros Hold.
  assert (Forall (fun text => text <> "") (retexted form old_options)) as Hre.
  { apply Forall_forall. intros x Hx. unfold retexted in Hx.
    apply list_elem_of_lookup in Hx as [i Hi].
    rewrite list_lookup_imap in Hi.
    destruct (old_options !! i) as [old_text|] eqn:Hoi; [|done].
    simpl in Hi. injection Hi as <-.
    destruct (decide _); [|done].
    rewrite Forall_forall in Hold. apply Hold.
    by apply list_elem_of_lookup_2 in Hoi. }
  assert (Forall (fun line => line <> "") (append_lines form)) as Hlines.
  { unfold append_lines. apply Forall_forall. intros x Hx.
    by apply list_elem_of_filter in Hx as [? _]. }
  unfold new_options. destruct (append_lines form) as [|line rest]; [done|].
  destruct (0 <? _); [|done].
  apply Forall_app. split; [done|]. by apply Forall_take.
Qed.

(** ** [load_presets] *)

(** X22: every preset [load_presets] returns has a non-empty id, a
    non-empty content and one to ten options, and is the stripped id, the
    stripped content and the first ten options of a dict of the file whose
    options are a list. *)
Theorem load_presets_valid (data : list PresetItem) (preset : Preset) :
  preset ∈ load_presets data ->
  preset_ident preset <> "" /\
  preset_content preset <> "" /\
  (1 <= length (preset_options preset) <= 10)%nat /\
  exists id content options,
    PresetDict id content (Some options) ∈ data /\
    preset_ident preset = str_strip id /\
    preset_content preset = str_strip content /\
    preset_options preset = take 10 options.
Proof.
  intros Hin. pose proof (load_presets_options data preset Hin) as Hlen.
  unfold load_presets in Hin.
  apply list_elem_of_omap in Hin as (item & Hitem & Hsome).
  destruct item as [|id content [options|]]; try done.
  destruct (decide _) as [|Hid]; [done|]. destruct (decide _) as [|Hc]; [done|].
  destruct (length options <? 1)%nat; [done|].
  injection Hsome as <-. simpl. split_and!; try done; try apply Hlen.
  by exists id, content, options.
Qed.

(** ** What the handlers never lose *)

Lemma update_question_ids (qid : Z) (f : Question -> Question) (db : DB) :
  (forall r, question_id (f r) = question_id r) ->
  question_id <$> questions (update_question qid f db)
  = question_id <$> questions db.
Proof.
  intros Hid. unfold update_question. simpl.
  rewrite <- list_fmap_compose. apply list_fmap_ext. intros _ r _. simpl.
  by destruct (decide _).
Qed.

(** X23: no request, and no run of [ensure_seeds], takes anything back:
    every offset stays what it was, every student who had a row has one,
    and the ids of the questions are those of before, in their order, with
    at most new ones after them. *)
Theorem step_never_forgets (db db' : DB) :
  step db db' ->
  (forall sid r, seeds db !! sid = Some r -> seeds db' !! sid = Some r) /\
  (forall sid, is_Some (students db !! sid) -> is_Some (students db' !! sid)) /\
  (question_id <$> questions db) `prefix_of` (question_id <$> questions db').
Proof.
  intros Hstep. destruct Hstep.
  - split_and!.
    + apply ensure_seeds_roster.
    + intros sid Hs. exact Hs.
    + reflexivity.
  - destruct (submit_code_tables code_field now db) as (-> & -> & _ & _ & Hst).
    split_and!; [done| |done]. intros sid [s Hs]. rewrite (Hst sid s Hs). eauto.
  - destruct (delete_submission_ledger form db) as (-> & -> & -> & _). done.
  - destruct (delete_submission_for_question_ledger qid form db)
      as (-> & -> & -> & _). done.
  - unfold edit_options_for_question.
    destruct (get_question qid db) as [q|]; [|done]. cbv zeta.
    destruct (_ <? 1); [done|]. destruct (_ <? _); [done|].
    destruct (_ >? _); [done|].
    assert (question_id <$> questions
              (update_question (question_id q)
                 (set_options (new_options form (question_options q))) db)
            = question_id <$> questions db) as Hids
      by (by apply update_question_ids).
    destruct (decide _); cbn [snd]; rewrite Hids; done.
  - unfold settle_question. destruct (get_active_question db) as [q|]; [|done].
    cbn [snd]. rewrite update_question_ids by done. done.
  - destruct (score_actions_rescored form rnd now db) as (-> & -> & _ & Hst). done.
  - unfold start_preset. cbv zeta.
    destruct (head _) as [preset|]; [|done]. simpl. split_and!; [done|done|].
    assert (question_id <$>
              ((fun r => if question_is_active r then set_is_active false r else r)
                 <$> questions db)
            = question_id <$> questions db) as Hids.
    { rewrite <- list_fmap_compose. apply list_fmap_ext. intros _ r _. simpl.
      by destruct (question_is_active r). }
    rewrite fmap_app, Hids. by apply prefix_app_r.
Qed.

(** X24: only [score_actions] changes a score: [ensure_seeds] and every
    other handler leave the row of every student there is as it was. *)
Theorem scores_kept_outside_scoring (db : DB) (sid : Z) (s : Student) :
  students db !! sid = Some s ->
  (forall randint, students (ensure_seeds randint db) !! sid = Some s) /\
  (forall code_field now, students (submit_code code_field now db).2 !! sid = Some s) /\
  (forall form, students (delete_submission form db).2 !! sid = Some s) /\
  (forall qid form,
     students (delete_submission_for_question qid form db).2 !! sid = Some s) /\
  (forall qid form,
     students (edit_options_for_question qid form db).2 !! sid = Some s) /\
  (forall now, students (settle_question now db).2 !! sid = Some s) /\
  (forall form presets_list now,
     students (start_preset form presets_list now db).2 !! sid = Some s).
Proof.
  intros Hs. split_and!.
  - intros randint. exact Hs.
  - intros code_field now.
    destruct (submit_code_tables code_field now db) as (_ & _ & _ & _ & Hst).
    by apply Hst.
  - intros form. by destruct (delete_submission_ledger form db) as (-> & _).
  - intros qid form.
    by destruct (delete_submission_for_question_ledger qid form db) as (-> & _).
  - intros qid form. unfold edit_options_for_question.
    destruct (get_question qid db) as [q|]; [|done]. cbv zeta.
    destruct (_ <? 1); [done|]. destruct (_ <? _); [done|].
    destruct (_ >? _); [done|]. by destruct (decide _).
  - intros now. unfold settle_question.
    by destruct (get_active_question db).
  - intros form presets_list now. unfold start_preset. cbv zeta.
    by destruct (head _).
Qed.

(** ** [stats_for_question] *)

Lemma roster_length : length roster = 64%nat.
Proof. unfold roster. rewrite length_seqZ. reflexivity. Qed.

Lemma roster_NoDup : NoDup roster.
Proof. apply NoDup_seqZ. Qed.

Lemma roster_split (answered : gset Z) :
  (forall sid, sid ∈ answered -> sid ∈ roster) ->
  (size answered + length (filter (fun sid => sid ∉ answered) roster) = 64)%nat.
Proof.
  intros Hsub.
  assert (filter (fun sid => sid ∈ answered) roster ≡ₚ elements answered) as Hin.
  { apply NoDup_Permutation.
    - apply NoDup_filter, roster_NoDup.
    - apply NoDup_elements.
    - intros x. rewrite list_elem_of_filter, elem_of_elements.
      split; [by intros [? _]|]. intros Hx. split; [done|by apply Hsub]. }
  pose proof (filter_app_complement (fun sid => sid ∈ answered) roster) as Hall.
  apply Permutation_length in Hall, Hin.
  rewrite length_app, roster_length in Hall.
  unfold size, set_size. simpl. rewrite <- Hin. exact Hall.
Qed.

Lemma elem_of_answered (qid sid : Z) (db : DB) :
  sid ∈ answer_sid <$> answers_of_question qid db <-> rows_of qid sid db <> [].
Proof.
  unfold answers_of_question, rows_of. rewrite list_elem_of_fmap. split.
  - intros (a & -> & Ha) Hnil. apply list_elem_of_filter in Ha as [Hq Ha].
    assert (a ∈ filter (fun r => answer_question_id r = qid
                                 /\ answer_sid r = answer_sid a) (answers db)) as Hin
      by (by apply list_elem_of_filter).
    rewrite Hnil in Hin. by apply elem_of_nil in Hin.
  - intros Hne.
    destruct (filter (fun a => answer_question_id a = qid /\ answer_sid a = sid)
                (answers db)) as [|a l] eqn:Hrows; [done|].
    assert (a ∈ filter (fun a => answer_question_id a = qid /\ answer_sid a = sid)
                  (answers db)) as Hin by (rewrite Hrows; constructor).
    apply list_elem_of_filter in Hin as [[Hq Hs] Hin].
    exists a. split; [done|]. by apply list_elem_of_filter.
Qed.

Lemma uq_question_sids_NoDup (qid : Z) (db : DB) :
  uq_answer_sid_question db ->
  NoDup (answer_sid <$> answers_of_question qid db).
Proof.
  unfold uq_answer_sid_question, answers_of_question.
  induction (answers db) as [|a l IH]; intros Hnd; [constructor|].
  rewrite fmap_cons in Hnd. apply NoDup_cons in Hnd as [Hfresh Hnd].
  rewrite filter_cons. destruct (decide _) as [Hq|_]; [|by apply IH].
  rewrite fmap_cons. apply NoDup_cons. split; [|by apply IH].
  intros Hin. apply list_elem_of_fmap in Hin as (a' & Hsid & Ha').
  apply list_elem_of_filter in Ha' as [Hq' Ha'].
  apply Hfresh. apply list_elem_of_fmap. exists a'. split; [|done]. congruence.
Qed.

Lemma stats_counts (question : Question) (db : DB) :
  (forall a, a ∈ answers db -> answer_question_id a = question_id question ->
     MIN_SID <= answer_sid a <= MAX_SID) ->
  (stats_answered_count (stats_for_question question db)
   + length (stats_missing (stats_for_question question db)) = 64)%nat.
Proof.
  intros Hroster. unfold stats_for_question. cbn [stats_answered_count stats_missing].
  apply roster_split. intros sid Hsid.
  apply elem_of_list_to_set, list_elem_of_fmap in Hsid as (a & -> & Ha).
  apply list_elem_of_filter in Ha as [Hq Ha].
  apply elem_of_roster. by apply Hroster.
Qed.

(** X25: the counts of [stats_for_question]: a student is missing exactly
    when of the roster and without an Answer on the question, and is
    listed once; when the Answers on the question are of students of the
    roster, those who answered and those missing add up to the 64 of the
    roster; under [uq_answer_sid_question] those who answered are as many
    as the Answers on the question. *)
Theorem stats_for_question_counts (question : Question) (db : DB) :
  let stat := stats_for_question question db in
  (forall sid,
     sid ∈ stats_missing stat <->
     MIN_SID <= sid <= MAX_SID /\ answer_of (question_id question) sid db = None) /\
  NoDup (stats_missing stat) /\
  ((forall a, a ∈ answers db -> answer_question_id a = question_id question ->
      MIN_SID <= answer_sid a <= MAX_SID) ->
   (stats_answered_count stat + length (stats_missing stat) = 64)%nat) /\
  (uq_answer_sid_question db ->
   stats_answered_count stat
   = length (answers_of_question (question_id question) db)).
Proof.
  cbv zeta. split_and!.
  - intros sid. unfold stats_for_question. cbn [stats_missing].
    rewrite list_elem_of_filter, elem_of_roster, answer_of_None.
    rewrite not_elem_of_list_to_set, elem_of_answered.
    split.
    + intros [Hnone Hsid]. split; [done|].
      destruct (rows_of (question_id question) sid db); [done|].
      exfalso. by apply Hnone.
    + intros [Hsid Hnone]. split; [|done]. rewrite Hnone. intros Hne. by apply Hne.
  - unfold stats_for_question. cbn [stats_missing].
    apply NoDup_filter, roster_NoDup.
  - apply stats_counts.
  - intros Huq. unfold stats_for_question. cbn [stats_answered_count].
    rewrite size_list_to_set by (by apply uq_question_sids_NoDup).
    by rewrite length_fmap.
Qed.

(** X26: on a store the handlers have built, the reply to an accepted
    submission counts the whole roster: those who answered and those
    missing add up to 64. *)
Theorem submit_code_reply_counts (code_field : string) (now : Z) (db db' : DB)
    (p : SubmitPayload) :
  reachable db ->
  submit_code code_field now db = (SubmitAccepted p, db') ->
  (p_answered_count p + p_missing_count p = 64)%nat.
Proof.
  intros Hreach Hsub.
  assert (reachable db') as Hreach'.
  { apply (reachable_step db); [done|].
    replace db' with (submit_code code_field now db).2 by (by rewrite Hsub).
    constructor. }
  destruct (reachable_invariants db' Hreach') as (_ & [Hs Hqs Hd] & _).
  revert Hsub. unfold submit_code.
  destruct (get_active_question db) as [q|] eqn:Hq; [|done].
  apply get_active_question_Some in Hq as [Hin _].
  destruct (question_settled_at q); [done|]. cbv zeta.
  destruct (negb _); [done|].
  destruct (int_of_str _) as [code_int|]; [|done].
  destruct (decode_code code_int q db) as [e|[sid option_index]]; [done|].
  destruct (ensure_student_exists_frame sid now db) as (_ & Hquestions & _).
  destruct (answer_of _ _ _); [done|].
  intros [= Hp Hdb]. rewrite <- Hp. cbn [p_answered_count p_missing_count].
  rewrite Hdb. apply stats_counts. intros a Ha Hid.
  assert (q ∈ questions db') as Hin'.
  { rewrite <- Hdb. simpl. by rewrite Hquestions. }
  pose proof (Hd a q Ha Hin' (eq_sym Hid)) as Hdec.
  by apply decode_code_inr_inv in Hdec as (? & _).
Qed.

(** ** [results] and [operator] *)

Lemma empty_groups_lookup (n : nat) (i : Z) :
  empty_groups n !! i = if decide (1 <= i <= Z.of_nat n) then Some [] else None.
Proof.
  unfold empty_groups.
  assert (forall l : list Z,
            foldr (fun i (grouped : gmap Z (list Answer)) => <[i := []]> grouped) ∅ l
              !! i
            = if decide (i ∈ l) then Some [] else None) as Hl.
  { induction l as [|x l IH]; simpl.
    - by rewrite lookup_empty.
    - rewrite lookup_insert. destruct (decide (x = i)) as [->|Hne].
      + by rewrite decide_True by constructor.
      + rewrite IH. destruct (decide (i ∈ l)) as [Hin|Hout].
        * by rewrite decide_True by (by constructor).
        * rewrite decide_False; [done|].
          intros Hin. apply elem_of_cons in Hin as [?|?]; [congruence|done]. }
  rewrite Hl. destruct (decide (i ∈ seqZ 1 (Z.of_nat n))) as [Hin|Hout].
  - apply elem_of_seqZ in Hin. by rewrite decide_True by lia.
  - rewrite decide_False; [done|]. intros Hi. apply Hout, elem_of_seqZ. lia.
Qed.

Lemma foldl_group_add_lookup (l : list Answer) (grouped : gmap Z (list Answer))
    (i : Z) :
  foldl group_add grouped l !! i
  = (fun g => g ++ filter (fun a => answer_option_index a = i) l) <$> grouped !! i.
Proof.
  revert grouped. induction l as [|a l IH]; intros grouped; simpl.
  - destruct (grouped !! i); simpl; [|done]. by rewrite filter_nil, app_nil_r.
  - rewrite IH. unfold group_add. rewrite filter_cons.
    destruct (decide (answer_option_index a = i)) as [Heq|Hne].
    + subst i. destruct (grouped !! answer_option_index a) as [g|] eqn:Hg.
      * rewrite lookup_insert_eq. simpl. by rewrite <- app_assoc.
      * by rewrite Hg.
    + destruct (grouped !! answer_option_index a) as [g|] eqn:Hg; [|done].
      by rewrite lookup_insert_ne.
Qed.

Lemma insert_by_sid_Permutation (a : Answer) (l : list Answer) :
  insert_by_sid a l ≡ₚ a :: l.
Proof.
  induction l as [|b l IH]; simpl; [done|].
  destruct (answer_sid a <=? answer_sid b); [done|].
  rewrite IH. apply Permutation_swap.
Qed.

Lemma sorted_by_sid_Permutation (l : list Answer) : sorted_by_sid l ≡ₚ l.
Proof.
  induction l as [|a l IH]; simpl; [done|].
  by rewrite insert_by_sid_Permutation, IH.
Qed.

Lemma insert_by_sid_Sorted (a : Answer) (l : list Answer) :
  Sorted (fun x y => answer_sid x <= answer_sid y) l ->
  Sorted (fun x y => answer_sid x <= answer_sid y) (insert_by_sid a l).
Proof.
  induction l as [|b l IH]; simpl; intros Hl.
  - by repeat constructor.
  - destruct (answer_sid a <=? answer_sid b) eqn:Hab.
    + constructor; [done|]. constructor. lia.
    + apply Sorted_inv in Hl as [Hl Hhd]. constructor; [by apply IH|].
      destruct l as [|c l]; simpl.
      * constructor. lia.
      * destruct (answer_sid a <=? answer_sid c).
        -- constructor. lia.
        -- constructor. by apply HdRel_inv in Hhd.
Qed.

Lemma sorted_by_sid_Sorted (l : list Answer) :
  Sorted (fun x y => answer_sid x <= answer_sid y) (sorted_by_sid l).
Proof.
  induction l as [|a l IH]; simpl; [constructor|]. by apply insert_by_sid_Sorted.
Qed.

Lemma filter_filter_option (qid i : Z) (l : list Answer) :
  filter (fun a => answer_option_index a = i)
    (filter (fun a => answer_question_id a = qid) l)
  = filter (fun a => answer_question_id a = qid /\ answer_option_index a = i) l.
Proof.
  induction l as [|a l IH]; [done|]. rewrite !filter_cons.
  destruct (decide (answer_question_id a = qid)) as [Hq|Hq].
  - rewrite filter_cons. destruct (decide (answer_option_index a = i)) as [Hi|Hi].
    + rewrite decide_True by done. by rewrite IH.
    + rewrite decide_False; [done|]. by intros [_ ?].
  - rewrite decide_False; [done|]. by intros [? _].
Qed.

(** X27: [results] answers 404 for a question id no row has; otherwise
    its [by_option] has one entry for each option of the question, in
    their order, numbered from 1 and with the text of the option, that
    holds the Answers of the question on that option, each once, in
    ascending order of student id, and their number as count. *)
Theorem results_by_option_groups (qid : Z) (db : DB) :
  (get_question qid db = None -> results qid db = None) /\
  (forall q, get_question qid db = Some q ->
     exists view,
       results qid db = Some view /\
       results_question view = q /\
       length (results_by_option view) = length (question_options q) /\
       forall (k : nat) text,
         question_options q !! k = Some text ->
         exists g,
           results_by_option view !! k = Some g /\
           group_index g = Z.of_nat (S k) /\
           group_text g = text /\
           group_count g = length (group_answers g) /\
           group_answers g
             ≡ₚ answers_on_option (question_id q) (Z.of_nat (S k)) db /\
           Sorted (fun x y => answer_sid x <= answer_sid y) (group_answers g)).
Proof.
  split.
  - intros Hq. unfold results. by rewrite Hq.
  - intros q Hq. unfold results. rewrite Hq. cbv zeta.
    eexists. split; [reflexivity|]. cbn [results_question results_by_option].
    split; [done|]. split; [by rewrite length_imap|].
    intros k text Hk. eexists. rewrite list_lookup_imap.
    unfold stats_for_question. cbn [stats_options]. rewrite Hk. simpl.
    split; [reflexivity|]. cbn [group_index group_text group_count group_answers].
    split_and!; try done.
    + rewrite sorted_by_sid_Permutation, foldl_group_add_lookup, empty_groups_lookup.
      apply lookup_lt_Some in Hk.
      rewrite decide_True by lia. simpl.
      unfold answers_of_question, answers_on_option.
      by rewrite filter_filter_option.
    + apply sorted_by_sid_Sorted.
Qed.

Lemma ranks_before_total : Total ranks_before.
Proof.
  intros x y. unfold ranks_before.
  destruct (flt (student_score y.2) (student_score x.2)) eqn:Hyx; [by left; left|].
  destruct (flt (student_score x.2) (student_score y.2)) eqn:Hxy; [by right; left|].
  destruct (Z.le_ge_cases x.1 y.1); [left|right]; right; split; done || lia.
Qed.

Lemma ranks_before_transitive : FloatOrder -> Transitive ranks_before.
Proof.
  intros Hord x y z. unfold ranks_before.
  intros [Hyx|[Hxy Hle1]] [Hzy|[Hyz Hle2]].
  - left. by apply (flt_trans Hord _ (student_score y.2)).
  - left. destruct (flt (student_score z.2) (student_score x.2)) eqn:Hzx; [done|].
    by rewrite (flt_incomparable_trans Hord _ _ _ Hyz Hzx) in Hyx.
  - left. destruct (flt (student_score z.2) (student_score x.2)) eqn:Hzx; [done|].
    by rewrite (flt_incomparable_trans Hord _ _ _ Hzx Hxy) in Hzy.
  - right. split; [by apply (flt_incomparable_trans Hord _ (student_score y.2))|lia].
Qed.

(** X28: the ranking [results] and [operator] show holds every row of
    [Student] once, each row next to one it ranks before (not a lower
    score and, at the same score, not a greater id); when [<] on the
    scores is a strict weak order every row ranks before all the rows
    after it. *)
Theorem leaderboard_ranked (db : DB) :
  leaderboard db ≡ₚ map_to_list (students db) /\
  NoDup (leaderboard db).*1 /\
  Sorted ranks_before (leaderboard db) /\
  (FloatOrder -> StronglySorted ranks_before (leaderboard db)) /\
  operator_students (operator db) = leaderboard db /\
  (forall qid view, results qid db = Some view ->
     results_students view = leaderboard db).
Proof.
  unfold leaderboard. split_and!.
  - apply merge_sort_Permutation.
  - rewrite merge_sort_Permutation. apply NoDup_fst_map_to_list.
  - apply Sorted_merge_sort, ranks_before_total.
  - intros Hord.
    apply StronglySorted_merge_sort;
      [by apply ranks_before_transitive|apply ranks_before_total].
  - unfold operator. by destruct (get_active_question db).
  - intros qid view. unfold results.
    destruct (get_question qid db); [|done]. by intros [= <-].
Qed.

Lemma recent_first_total : Total recent_first.
Proof. intros a b. unfold recent_first. lia. Qed.

(** X29: [operator] shows no recent Answer when no question is active;
    otherwise at most twelve, all of them Answers on the active question,
    none listed twice, latest first, and all the Answers on the question
    when these are at most twelve. *)
Theorem operator_recent_answers_latest (db : DB) :
  (get_active_question db = None ->
   operator_recent_answers (operator db) = [] /\
   operator_stats (operator db) = None) /\
  (forall q, get_active_question db = Some q ->
     let recent := operator_recent_answers (operator db) in
     (length recent <= 12)%nat /\
     length recent
     = Nat.min 12 (length (answers_of_question (question_id q) db)) /\
     (forall a, a ∈ recent ->
        a ∈ answers db /\ answer_question_id a = question_id q) /\
     Sorted recent_first recent /\
     ((length (answers_of_question (question_id q) db) <= 12)%nat ->
      recent ≡ₚ answers_of_question (question_id q) db)).
Proof.
  split.
  - intros Hq. unfold operator. by rewrite Hq.
  - intros q Hq. unfold operator. rewrite Hq. cbv zeta.
    cbn [operator_recent_answers].
    pose proof (merge_sort_Permutation recent_first
                  (answers_of_question (question_id q) db)) as Hperm.
    pose proof (@Sorted_merge_sort _ recent_first _ recent_first_total
                  (answers_of_question (question_id q) db)) as Hsorted.
    assert (length (merge_sort recent_first (answers_of_question (question_id q) db))
            = length (answers_of_question (question_id q) db)) as Hlen
      by (by apply Permutation_length).
    split_and!.
    + rewrite length_take. lia.
    + rewrite length_take. lia.
    + intros a Ha. apply elem_of_take in Ha as (k & Ha & _).
      apply list_elem_of_lookup_2 in Ha. rewrite Hperm in Ha.
      apply list_elem_of_filter in Ha as [? ?]. done.
    + revert Hsorted.
      generalize (merge_sort recent_first (answers_of_question (question_id q) db)).
      generalize 12%nat. intros n l. revert n.
      induction l as [|x l IH]; intros n Hl; destruct n; simpl; try constructor.
      * apply IH. by apply Sorted_inv in Hl as [? _].
      * apply Sorted_inv in Hl as [_ Hhd].
        destruct l as [|y l]; destruct n; simpl; constructor.
        by apply HdRel_inv in Hhd.
    + intros Hfew. rewrite take_ge by lia. done.
Qed.

(** ** Publishing, then submitting *)

(** X30: once a preset of [load_presets] is published on a store the
    handlers have built, the new question is the active one, and the
    cipher [sid*100 + r + option_index] of any seeded student of the roster
    for any of its options is accepted as that student and option. *)
Theorem publish_then_submit_accepted (form : gmap string string)
    (data : list PresetItem) (now : Z) (db db1 : DB) (name : string)
    (sid r : Z) :
  reachable db ->
  start_preset form (load_presets data) now db
  = (Redirect (Some (FlashPublished name)) OperatorPage, db1) ->
  MIN_SID <= sid <= MAX_SID ->
  seeds db !! sid = Some r ->
  exists q,
    get_active_question db1 = Some q /\
    question_preset_id q = Some name /\
    forall option_index code_field now',
      1 <= option_index <= Z.of_nat (length (question_options q)) ->
      str_isdigit (str_strip code_field) = true ->
      int_of_str (str_strip code_field) = Some (sid * 100 + r + option_index) ->
      exists p,
        (submit_code code_field now' db1).1 = SubmitAccepted p /\
        p_sid p = sid /\ p_option_index p = option_index.
Proof.
  intros Hreach Hpub Hsid Hseed.
  destruct (reachable_invariants db Hreach) as (Hwf & [Hs Hqs Hd] & _).
  pose proof (wf_seeds db Hwf sid r Hseed) as Hr.
  revert Hpub. unfold start_preset. cbv zeta.
  destruct (head _) as [preset|] eqn:Hpreset; [|done].
  apply head_Some_elem_of, list_elem_of_filter in Hpreset as [_ Hpreset].
  apply load_presets_options in Hpreset.
  intros [= <- <-].
  set (q := {| question_id := next_id (question_id <$> questions db);
               question_preset_id := Some (preset_ident preset);
               question_content := preset_content preset;
               question_options := preset_options preset;
               question_is_active := true;
               question_created_at := now;
               question_settled_at := None |}).
  set (db1 := set_questions
                (((fun r => if question_is_active r then set_is_active false r else r)
                    <$> questions db) ++ [q]) db).
  assert (get_active_question db1 = Some q) as Hq.
  { unfold get_active_question, db1. simpl. rewrite filter_app.
    assert (filter (fun r => question_is_active r = true)
              ((fun r => if question_is_active r then set_is_active false r else r)
                 <$> questions db) = []) as ->.
    { apply filter_nil_none. intros r0 Hr0.
      apply list_elem_of_fmap in Hr0 as (r1 & -> & _).
      destruct (question_is_active r1) eqn:Hact; simpl; [done|]. by rewrite Hact. }
    done. }
  exists q. split_and!; [done|done|].
  intros option_index code_field now' Hoi Hdigit Hint.
  assert (decode_code (sid * 100 + r + option_index) q db1 = inr (sid, option_index))
    as Hdec.
  { apply decode_code_of_sum; try done; [lia|]. simpl in *. lia. }
  assert (rows_of (question_id q) sid db1 = []) as Hnone.
  { unfold rows_of. apply filter_nil_none. intros a Ha [Hqid _].
    destruct (Hqs a Ha) as (q0 & Hq0 & Hid0).
    apply (next_id_fresh (question_id <$> questions db)).
    change (next_id (question_id <$> questions db)) with (question_id q).
    rewrite <- Hqid, <- Hid0. apply list_elem_of_fmap. eauto. }
  unfold submit_code. rewrite Hq. cbn [question_settled_at q]. cbv zeta.
  rewrite Hdigit. simpl negb. cbv iota. rewrite Hint, Hdec.
  destruct (ensure_student_exists_frame sid now' db1) as (Hans & _ & _).
  unfold answer_of, rows_of in *. rewrite Hans, Hnone. simpl.
  eexists. split_and!; reflexivity.
Qed.

End Coverage.

(** * More of the program, at work on the scenario *)

Lemma seeded_db_reachable : reachable seeded_db.
Proof.
  apply (reachable_step empty_db); [apply reachable_empty|].
  apply step_ensure_seeds. intros _. lia.
Qed.

Lemma published_db_reachable : reachable published_db.
Proof.
  apply (reachable_step seeded_db);
    [apply seeded_db_reachable|apply step_start_preset].
Qed.

Lemma played_db_reachable : reachable played_db.
Proof.
  apply (reachable_step published_db);
    [apply published_db_reachable|apply step_submit_code].
Qed.

Lemma decode_code_injective_witness : 213 = 2 * 100 + 10 + 3.
Proof.
  apply (decode_code_injective (H := ZRuntime) scenario_db scenario_question
           213 (2 * 100 + 10 + 3) 2 3); reflexivity.
Defined.

Lemma ensure_seeds_complete_witness :
  is_Some (seeds (ensure_seeds (fun _ => 10) (empty_db (H := ZRuntime))) !! 64).
Proof.
  destruct (ensure_seeds_complete (H := ZRuntime) (fun _ => 10) empty_db)
    as [Hall _].
  - intros _. lia.
  - apply Hall. unfold MIN_SID, MAX_SID. lia.
Defined.

Lemma get_active_question_latest_witness :
  question_is_active scenario_question = true.
Proof.
  destruct (get_active_question_latest (H := ZRuntime) scenario_db scenario_question)
    as (_ & Hact & _).
  - reflexivity.
  - exact Hact.
Defined.

Lemma submit_code_accepted_effect_witness :
  exists a,
    answers played_db = answers published_db ++ [a] /\
    answer_score_change a = f0 (PyRuntime := ZRuntime).
Proof.
  destruct (submit_code_accepted_effect (H := ZRuntime) "213" 101 published_db
              played_db played_reply)
    as (q & code_int & a & _ & _ & _ & _ & _ & Hanswers & _ & _ & _ & _ & _ & Hdelta & _).
  - vm_compute. reflexivity.
  - exists a. split; [exact Hanswers|exact Hdelta].
Defined.

Lemma submit_code_frame_witness :
  students (submit_code (H := ZRuntime) "213" 7 scored_db).2 !! 1
  = Some (student_of 5 1).
Proof.
  destruct (submit_code_frame (H := ZRuntime) "213" 7 scored_db)
    as (_ & _ & _ & _ & Hkept).
  apply Hkept. reflexivity.
Defined.

Lemma settle_then_submit_rejected_witness :
  submit_code (H := ZRuntime) "213" 201 (settle_question 200 scenario_db).2
  = (SubmitRejected 409 QuestionAlreadySettled, (settle_question 200 scenario_db).2).
Proof.
  apply (settle_then_submit_rejected (H := ZRuntime) 200 201 "213" scenario_db
           scenario_question).
  reflexivity.
Defined.

Lemma delete_then_submit_accepted_witness :
  exists p,
    (submit_code (H := ZRuntime) "213" 103
       (delete_submission {["sid" := "2"]} scenario_db_answered).2).1
    = SubmitAccepted p /\
    p_sid p = 2 /\ p_option_index p = 3.
Proof.
  destruct (delete_then_submit_accepted (H := ZRuntime) {["sid" := "2"]} "213" 103
              scenario_db_answered scenario_question scenario_answer 2 213 3)
    as [_ Haccepted].
  - apply scenario_db_answered_keys.
  - reflexivity.
  - reflexivity.
  - reflexivity.
  - reflexivity.
  - reflexivity.
  - reflexivity.
  - reflexivity.
  - reflexivity.
  - exact Haccepted.
Defined.

Lemma delete_submission_for_question_not_found_witness :
  delete_submission_for_question (H := ZRuntime) 9 ∅ scenario_db
  = (NotFound404, scenario_db).
Proof.
  destruct (delete_submission_for_question_not_found (H := ZRuntime) 9 ∅ scenario_db)
    as [H404 _].
  apply H404. reflexivity.
Defined.

Lemma score_action_A_credits_witness :
  (score_actions (H := ZRuntime) scenario_option_form (fun _ => 0) 104
     scenario_db_credited).1
  = Redirect (Some (FlashScoredOption (H := ZRuntime) 3 2)) OperatorPage /\
  exists s r,
    students (score_actions (H := ZRuntime) scenario_option_form (fun _ => 0) 104
                scenario_db_credited).2 !! 2 = Some s /\
    student_score s = 4 /\
    student_created_at s = 101 /\
    answers (score_actions (H := ZRuntime) scenario_option_form (fun _ => 0) 104
               scenario_db_credited).2 !! 0%nat = Some r /\
    answer_score_change r = 4.
Proof.
  destruct scenario_db_credited_row as [Hrow Hstudent].
  destruct (score_action_A_credits (H := ZRuntime) scenario_option_form
              (fun _ => 0) 104 scenario_db_credited 1 scenario_question 3)
    as [Hreply (Hrows & Hhit & _)].
  - reflexivity.
  - reflexivity.
  - reflexivity.
  - reflexivity.
  - reflexivity.
  - simpl. lia.
  - apply scenario_db_credited_keys.
  - apply scenario_db_credited_keys.
  - split; [exact Hreply|].
    destruct (Forall2_lookup_l _ _ _ 0%nat scenario_answer_credited Hrows Hrow)
      as (r & Hr & _ & Hdelta).
    rewrite decide_True in Hdelta by (split; reflexivity).
    destruct (Hhit scenario_answer_credited) as (s & Hs & Hold & _).
    + apply (list_elem_of_lookup_2 _ 0%nat), Hrow.
    + reflexivity.
    + reflexivity.
    + destruct (Hold (student_of 2 101) Hstudent) as [Hscore Hcreated].
      exists s, r. split; [exact Hs|]. split; [exact Hscore|].
      split; [exact Hcreated|]. split; [exact Hr|exact Hdelta].
Defined.

Lemma score_action_B_effect_witness :
  (score_actions (H := ZRuntime) scenario_student_form (fun _ => 0) 104
     scenario_db_credited).1
  = Redirect (Some (FlashScoredStudent (H := ZRuntime) 2 2)) OperatorPage /\
  exists s r,
    students (score_actions (H := ZRuntime) scenario_student_form (fun _ => 0) 104
                scenario_db_credited).2 !! 2 = Some s /\
    student_score s = 4 /\
    student_created_at s = 101 /\
    answers (score_actions (H := ZRuntime) scenario_student_form (fun _ => 0) 104
               scenario_db_credited).2 !! 0%nat = Some r /\
    answer_score_change r = 4.
Proof.
  destruct scenario_db_credited_row as [Hrow Hstudent].
  destruct (score_action_B_effect (H := ZRuntime) scenario_student_form
              (fun _ => 0) 104 scenario_db_credited 1 scenario_question 2)
    as (Hreply & (s & Hs & Hold & _) & _ & Hrows & _).
  - reflexivity.
  - reflexivity.
  - reflexivity.
  - reflexivity.
  - reflexivity.
  - unfold MIN_SID, MAX_SID. lia.
  - split; [exact Hreply|].
    destruct (Forall2_lookup_l _ _ _ 0%nat scenario_answer_credited
                (Hrows (proj1 scenario_db_credited_keys)
                       (proj2 scenario_db_credited_keys)) Hrow)
      as (r & Hr & _ & Hdelta).
    rewrite decide_True in Hdelta by (split; reflexivity).
    destruct (Hold (student_of 2 101) Hstudent) as [Hscore Hcreated].
    exists s, r. split; [exact Hs|]. split; [exact Hscore|].
    split; [exact Hcreated|]. split; [exact Hr|exact Hdelta].
Defined.

Lemma reachable_table_constraints_witness : well_formed played_db.
Proof.
  apply (reachable_table_constraints (H := ZRuntime) played_db).
  apply played_db_reachable.
Defined.

Lemma reachable_single_active_witness : single_active played_db.
Proof.
  destruct (reachable_single_active (H := ZRuntime) played_db) as [Hone _].
  - apply played_db_reachable.
  - exact Hone.
Defined.

Lemma reachable_ledger_sound_witness :
  is_Some (students played_db !! answer_sid scenario_answer).
Proof.
  destruct (reachable_ledger_sound (H := ZRuntime) played_db scenario_answer)
    as (_ & Hstudent & _).
  - apply played_db_reachable.
  - vm_compute. apply list_elem_of_singleton. reflexivity.
  - exact Hstudent.
Defined.

Lemma edit_options_updates_witness :
  get_question 1 (edit_options_for_question (H := ZRuntime) 1 scenario_edit_form
                    scenario_db_answered).2
  = Some (set_options ["A"; "b"; "c"; "d"] scenario_question).
Proof.
  destruct (edit_options_updates (H := ZRuntime) 1 scenario_edit_form
              scenario_db_answered scenario_question)
    as (_ & Hnew & _).
  - reflexivity.
  - simpl. lia.
  - vm_compute. discriminate.
  - exact Hnew.
Defined.

Lemma edit_options_reachable_succeeds_witness :
  (edit_options_for_question (H := ZRuntime) 1 scenario_edit_form played_db).1
  = Redirect (Some FlashOptionsUpdated) OperatorPage.
Proof.
  apply (edit_options_reachable_succeeds (H := ZRuntime) 1 scenario_edit_form
           played_db scenario_question).
  - apply played_db_reachable.
  - vm_compute. reflexivity.
Defined.

Lemma new_options_slots_witness :
  new_options (H := ZRuntime) scenario_edit_form ["a"; "b"; "c"] !! 0%nat = Some "A".
Proof.
  destruct (new_options_slots (H := ZRuntime) scenario_edit_form ["a"; "b"; "c"])
    as [Hslot _].
  apply (Hslot 0%nat "a"). reflexivity.
Defined.

Lemma new_options_never_blank_witness :
  Forall (fun text => text <> "")
    (new_options (H := ZRuntime) scenario_edit_form ["a"; "b"; "c"]).
Proof.
  apply (new_options_never_blank (H := ZRuntime) scenario_edit_form ["a"; "b"; "c"]).
  repeat constructor; discriminate.
Defined.

Lemma load_presets_valid_witness :
  (1 <= length ["a"; "b"; "c"] <= 10)%nat.
Proof.
  destruct (load_presets_valid (H := ZRuntime) scenario_presets
              {| preset_ident := "p1"; preset_content := "Which one?";
                 preset_options := ["a"; "b"; "c"] |})
    as (_ & _ & Hlen & _).
  - vm_compute. apply list_elem_of_singleton. reflexivity.
  - exact Hlen.
Defined.

Lemma step_never_forgets_witness :
  (question_id <$> questions published_db)
    `prefix_of` (question_id <$> questions played_db).
Proof.
  destruct (step_never_forgets (H := ZRuntime) published_db played_db)
    as (_ & _ & Hids).
  - apply step_submit_code.
  - exact Hids.
Defined.

Lemma scores_kept_outside_scoring_witness :
  students (settle_question (H := ZRuntime) 9 scored_db).2 !! 1
  = Some (student_of 5 1).
Proof.
  destruct (scores_kept_outside_scoring (H := ZRuntime) scored_db 1 (student_of 5 1))
    as (_ & _ & _ & _ & _ & Hsettle & _).
  - reflexivity.
  - apply Hsettle.
Defined.

Lemma stats_for_question_counts_witness :
  (stats_answered_count (stats_for_question scenario_question scenario_db_answered)
   + length (stats_missing (stats_for_question scenario_question scenario_db_answered))
   = 64)%nat.
Proof.
  destruct (stats_for_question_counts (H := ZRuntime) scenario_question
              scenario_db_answered) as (_ & _ & Hcount & _).
  apply Hcount. intros a Ha _.
  vm_compute in Ha. apply list_elem_of_singleton in Ha. subst a.
  unfold MIN_SID, MAX_SID. simpl. lia.
Defined.

Lemma submit_code_reply_counts_witness :
  (p_answered_count played_reply + p_missing_count played_reply = 64)%nat.
Proof.
  apply (submit_code_reply_counts (H := ZRuntime) "213" 101 published_db played_db
           played_reply).
  - apply published_db_reachable.
  - vm_compute. reflexivity.
Defined.

Lemma results_by_option_groups_witness :
  results (H := ZRuntime) 9 scenario_db = None.
Proof.
  destruct (results_by_option_groups (H := ZRuntime) 9 scenario_db) as [H404 _].
  apply H404. reflexivity.
Defined.

Lemma leaderboard_ranked_witness :
  StronglySorted (ranks_before (H := ZRuntime)) (leaderboard scored_db).
Proof.
  destruct (leaderboard_ranked (H := ZRuntime) scored_db) as (_ & _ & _ & Hsorted & _).
  apply Hsorted. split; simpl; intros; lia.
Defined.

Lemma operator_recent_answers_latest_witness :
  (length (operator_recent_answers (operator played_db)) <= 12)%nat.
Proof.
  destruct (operator_recent_answers_latest (H := ZRuntime) played_db) as [_ Hrecent].
  destruct (Hrecent scenario_question) as [Hlen _].
  - vm_compute. reflexivity.
  - exact Hlen.
Defined.

Lemma publish_then_submit_accepted_witness :
  exists q, get_active_question published_db = Some q.
Proof.
  destruct (publish_then_submit_accepted (H := ZRuntime) {["preset_id" := "p1"]}
              scenario_presets 100 seeded_db published_db "p1" 2 10)
    as (q & Hq & _).
  - apply seeded_db_reachable.
  - vm_compute. reflexivity.
  - unfold MIN_SID, MAX_SID. lia.
  - vm_compute. reflexivity.
  - exists q. exact Hq.
Defined.
